(** * EMI payment predictor: a shallow embedding of [data_processor.py] and
    [predictor.py], and the properties of the prediction engine.

    Conventions of the embedding.
    - A [pd.Timestamp] is a proleptic Gregorian calendar date (year, month,
      day): the payment files carry dates without a time of day, and pandas'
      nanosecond range (years 1677 to 2262) is not modelled.
    - A Python/NumPy float is an exact rational [Q]; [NaN] is [None] in an
      [option].  Square roots are taken by the numeric library, which is a
      field of the [World] the program runs in.
    - Exceptions are values of [exn]; stateful methods of
      [EMIPaymentPredictor] run in the state-and-error monad [M] over the
      attributes [model] and [feature_names]. *)

From Stdlib Require Import String Ascii ZArith QArith Qround Qabs List Bool Lia.
From Stdlib Require Import DecimalString.
From Stdlib Require Import Sorted Permutation.
Import ListNotations.
Open Scope Z_scope.

(* ------------------------------------------------------------------ *)
(** ** Calendar dates (datetime / pandas Timestamp at day resolution)   *)
(* ------------------------------------------------------------------ *)

Module Calendar.

Record Timestamp : Type := mkDate { year : Z; month : Z; day : Z }.

Definition is_leap (y : Z) : bool :=
  (y mod 4 =? 0) && (negb (y mod 100 =? 0) || (y mod 400 =? 0)).

(** The number of days of month [m] in a leap or a common year. *)
Definition days_in_month (leap : bool) (m : Z) : Z :=
  if m =? 2 then (if leap then 29 else 28)
  else if (m =? 4) || (m =? 6) || (m =? 9) || (m =? 11) then 30
  else 31.

(** [calendar.monthrange(y, m)[1]]. *)
Definition monthrange (y m : Z) : Z := days_in_month (is_leap y) m.

(** Days of the year before the first of month [m]. *)
Definition days_before (leap : bool) (m : Z) : Z :=
  let base :=
    match m with
    | 1 => 0 | 2 => 31 | 3 => 59 | 4 => 90 | 5 => 120 | 6 => 151
    | 7 => 181 | 8 => 212 | 9 => 243 | 10 => 273 | 11 => 304 | _ => 334
    end in
  if (2 <? m) && leap then base + 1 else base.

Definition days_before_month (y m : Z) : Z := days_before (is_leap y) m.

Definition days_before_year (y : Z) : Z :=
  let p := y - 1 in 365 * p + p / 4 - p / 100 + p / 400.

(** [date.toordinal()]: 0001-01-01 is day 1. *)
Definition toordinal (d : Timestamp) : Z :=
  days_before_year (year d) + days_before_month (year d) (month d) + day d.

(** Month and day of the [n]-th day of a year (from 0): the month is
    estimated as [(n + 50) >> 5] and corrected when it overshoots. *)
Definition month_day (leapyear : bool) (n : Z) : Z * Z :=
  let m := Z.shiftr (n + 50) 5 in
  let preceding := days_before leapyear m in
  if n <? preceding then
    (m - 1, n - (preceding - days_in_month leapyear (m - 1)) + 1)
  else (m, n - preceding + 1).

(** [date.fromordinal(n)], after CPython's [_ord2ymd]. *)
Definition fromordinal (n : Z) : Timestamp :=
  let n := n - 1 in
  let n400 := n / 146097 in let n := n mod 146097 in
  let n100 := n / 36524 in let n := n mod 36524 in
  let n4 := n / 1461 in let n := n mod 1461 in
  let n1 := n / 365 in let n := n mod 365 in
  let y := n400 * 400 + 1 + n100 * 100 + n4 * 4 + n1 in
  if (n1 =? 4) || (n100 =? 4) then mkDate (y - 1) 12 31
  else
    let leapyear := (n1 =? 3) && (negb (n4 =? 24) || (n100 =? 3)) in
    let '(m, d) := month_day leapyear n in
    mkDate y m d.

(** A date that [pd.Timestamp(year=, month=, day=)] accepts. *)
Definition valid_date (y m d : Z) : bool :=
  (1 <=? m) && (m <=? 12) && (1 <=? d) && (d <=? monthrange y m).

Definition is_valid (t : Timestamp) : bool :=
  valid_date (year t) (month t) (day t).

(** [pd.Timestamp(year=y, month=m, day=d)]; [None] is its [ValueError]. *)
Definition Timestamp_new (y m d : Z) : option Timestamp :=
  if valid_date y m d then Some (mkDate y m d) else None.

(** [t + timedelta(days=k)]. *)
Definition add_days (t : Timestamp) (k : Z) : Timestamp :=
  fromordinal (toordinal t + k).

(** [(a - b).days] for two dates. *)
Definition days_between (a b : Timestamp) : Z := toordinal a - toordinal b.

(** [Series.dt.dayofweek]: Monday is 0. *)
Definition dayofweek (t : Timestamp) : Z := (toordinal t + 6) mod 7.

(** The check that [month_day] lands on the [n]-th day of the year. *)
Definition month_day_ok (leap : bool) (n : Z) : bool :=
  let '(m, d) := month_day leap n in
  (days_before leap m + d =? n + 1) && (1 <=? m) && (m <=? 12)
  && (1 <=? d) && (d <=? days_in_month leap m).

End Calendar.
Import Calendar.

(* ------------------------------------------------------------------ *)
(** ** Numeric helpers (pandas reductions over a column)                *)
(* ------------------------------------------------------------------ *)

Module Numeric.

(** Strict comparison of two floats that are not NaN. *)
Definition Qltb (a b : Q) : bool := negb (Qle_bool b a).

Fixpoint sumZ (l : list Z) : Z :=
  match l with [] => 0 | x :: r => x + sumZ r end.

Fixpoint sumQ (l : list Q) : Q :=
  match l with [] => 0%Q | x :: r => (x + sumQ r)%Q end.

(** [Series.dropna()]. *)
Fixpoint dropna {A : Type} (l : list (option A)) : list A :=
  match l with
  | [] => []
  | Some x :: r => x :: dropna r
  | None :: r => dropna r
  end.

Definition lenQ {A : Type} (l : list A) : Q := inject_Z (Z.of_nat (length l)).

(** [Series.mean()] of a column without missing values; [None] is NaN. *)
Definition meanQ (l : list Q) : option Q :=
  match l with
  | [] => None
  | _ => Some (sumQ l / lenQ l)%Q
  end.

Definition meanZ (l : list Z) : option Q :=
  match l with
  | [] => None
  | _ => Some (inject_Z (sumZ l) / lenQ l)%Q
  end.

(** [Series.mean()] with the default [skipna=True]. *)
Definition mean (col : list (option Z)) : option Q := meanZ (dropna col).

(** Sample variance (ddof = 1); NaN below two values. *)
Definition varQ (l : list Q) : option Q :=
  match meanQ l with
  | None => None
  | Some mu =>
      if (length l <? 2)%nat then None
      else Some (sumQ (map (fun x => (x - mu) * (x - mu))%Q l)
                 / (lenQ l - 1))%Q
  end.

(** [Series.std()]: the square root is the numeric library's. *)
Definition std (sqrt : Q -> Q) (col : list (option Z)) : option Q :=
  option_map sqrt (varQ (map inject_Z (dropna col))).

Fixpoint maxZ (l : list Z) : option Z :=
  match l with
  | [] => None
  | x :: r => match maxZ r with None => Some x | Some m => Some (Z.max x m) end
  end.

Fixpoint minZ (l : list Z) : option Z :=
  match l with
  | [] => None
  | x :: r => match minZ r with None => Some x | Some m => Some (Z.min x m) end
  end.

(** [Series.diff()]: the first entry is NaN, and so is any difference with a
    NaN operand. *)
Fixpoint diff_from (prev : option Z) (l : list (option Z)) : list (option Z) :=
  match l with
  | [] => []
  | x :: r =>
      match prev, x with
      | Some p, Some v => Some (v - p)
      | _, _ => None
      end :: diff_from x r
  end.

Definition diff (l : list (option Z)) : list (option Z) := diff_from None l.

(** [Series.mode()[0]]: the most frequent value, the smallest on a tie;
    0 when the column is empty. *)
Definition count_occ_Z (v : Z) (l : list Z) : nat :=
  length (filter (Z.eqb v) l).

Fixpoint mode_from (all l : list Z) (best : option Z) : option Z :=
  match l with
  | [] => best
  | x :: r =>
      let best' :=
        match best with
        | None => Some x
        | Some b =>
            let cx := count_occ_Z x all in
            let cb := count_occ_Z b all in
            if (cb <? cx)%nat then Some x
            else if (cx =? cb)%nat && (x <? b) then Some x
            else Some b
        end in
      mode_from all r best'
  end.

Definition mode0 (l : list Z) : Z :=
  match mode_from l l None with Some v => v | None => 0 end.

(** Python's [round(x)] on a float: to the nearest integer, ties to even. *)
Definition round_half_even (q : Q) : Z :=
  let f := Qfloor q in
  match (q - inject_Z f ?= 1 # 2)%Q with
  | Lt => f
  | Gt => f + 1
  | Eq => if Z.even f then f else f + 1
  end.

(** [Series.tail(n)]. *)
Definition tail_n {A : Type} (n : nat) (l : list A) : list A :=
  skipn (length l - n) l.

End Numeric.
Import Numeric.

(* ------------------------------------------------------------------ *)
(** ** The payment table (a pandas DataFrame)                           *)
(* ------------------------------------------------------------------ *)

(** One row.  [scheduled_date] and [amount] are NaT/NaN when [None];
    [delay_days] is the derived column, NaN until it is computed. *)
Record Row : Type := mkRow {
  customer_id : string;
  payment_date : Timestamp;
  scheduled_date : option Timestamp;
  amount : option Q;
  delay_days : option Z
}.

(** A frame knows which optional columns it has: the source tests
    ['scheduled_date' in df.columns] and ['amount' in df.columns]. *)
Record DataFrame : Type := mkFrame {
  has_scheduled_date : bool;
  has_amount : bool;
  rows : list Row
}.

Definition with_rows (df : DataFrame) (rs : list Row) : DataFrame :=
  mkFrame (has_scheduled_date df) (has_amount df) rs.

Definition set_delay (r : Row) (d : option Z) : Row :=
  mkRow (customer_id r) (payment_date r) (scheduled_date r) (amount r) d.

(** [df[df['customer_id'] == customer_id]]. *)
Definition rows_of (cid : string) (rs : list Row) : list Row :=
  filter (fun r => String.eqb (customer_id r) cid) rs.

(** [df.sort_values('payment_date')]: an insertion sort on the date.  Rows
    with equal dates keep their file order here; pandas' default sort leaves
    their order open. *)
Fixpoint insert_by_date (r : Row) (l : list Row) : list Row :=
  match l with
  | [] => [r]
  | x :: t =>
      if toordinal (payment_date x) <=? toordinal (payment_date r)
      then x :: insert_by_date r t
      else r :: x :: t
  end.

Definition sort_values_payment_date (l : list Row) : list Row :=
  fold_left (fun acc r => insert_by_date r acc) l [].

Module DataProcessor.

(** [EMIDataProcessor.feature_windows]. *)
Definition feature_windows : list Z := [7; 14; 30; 60; 90].

(** [Series.fillna(0)]. *)
Definition fillna0 (l : list (option Z)) : list (option Z) :=
  map (fun v => match v with None => Some 0 | Some _ => v end) l.

(** [calculate_payment_delays]: with a [scheduled_date] column every row gets
    [payment_date - scheduled_date] (NaN where the scheduled date is NaT);
    without the column the delay is the difference to the previous row of
    the frame, and the NaN of the first row is filled with 0. *)
Definition calculate_payment_delays (df : DataFrame) : DataFrame :=
  if has_scheduled_date df then
    with_rows df
      (map (fun r =>
              set_delay r
                (match scheduled_date r with
                 | Some s => Some (days_between (payment_date r) s)
                 | None => None
                 end))
           (rows df))
  else
    let gaps :=
      fillna0 (diff (map (fun r => Some (toordinal (payment_date r))) (rows df))) in
    with_rows df (map (fun '(r, d) => set_delay r d) (combine (rows df) gaps)).

(** One row of engineered features (the one-row frame the source returns).
    [rolling] holds, per window, [delay_mean_{w}d] and [payment_count_{w}d];
    the amount statistics exist only when the frame has an [amount] column. *)
Record FeatureVector : Type := mkFeatures {
  total_payments : Z;
  avg_delay : option Q;
  std_delay : option Q;
  max_delay : option Z;
  min_delay : option Z;
  recent_avg_delay : option Q;
  recent_trend : option Q;
  avg_interval : option Q;
  interval_std : option Q;
  preferred_day : Z;
  preferred_month : Z;
  rolling : list (Z * (option Q * Z));
  last_payment_date : Timestamp;
  last_delay : option Z;
  days_since_last_payment : Z;
  avg_amount : option (option Q);
  last_amount : option (option Q)
}.

(** [df.iloc[-1]]. *)
Definition iloc_last {A : Type} (l : list A) : option A :=
  match rev l with [] => None | x :: _ => Some x end.

Definition ordinals (l : list Row) : list Z :=
  map (fun r => toordinal (payment_date r)) l.

(** The rows of [customer_df] whose payment date is at least
    [customer_df['payment_date'].max() - timedelta(days=window)]. *)
Definition window_rows (customer_df : list Row) (window : Z) : list Row :=
  match maxZ (ordinals customer_df) with
  | None => []
  | Some latest =>
      filter (fun r => latest - window <=? toordinal (payment_date r)) customer_df
  end.

(** The two features of one window, from the rows inside it. *)
Definition window_stats (window_df : list Row) : option Q * Z :=
  if (0 <? length window_df)%nat
  then (mean (map delay_days window_df), Z.of_nat (length window_df))
  else (Some 0%Q, 0).

Section Features.

(** The numeric library's square root and the clock ([datetime.now()]). *)
Variable sqrt : Q -> Q.
Variable now : Timestamp.

Definition engineer_features (df : DataFrame) (cid : string)
  : option FeatureVector :=
  let customer_df := rows_of cid (rows df) in
  if (length customer_df <? 2)%nat then None
  else
    let delays := map delay_days customer_df in
    let recent_payments := tail_n 3 customer_df in
    let payment_intervals :=
      dropna (diff (map (@Some Z) (ordinals customer_df))) in
    match iloc_last customer_df with
    | None => None
    | Some last_payment =>
        Some {|
          total_payments := Z.of_nat (length customer_df);
          avg_delay := mean delays;
          std_delay := std sqrt delays;
          max_delay := maxZ (dropna delays);
          min_delay := minZ (dropna delays);
          recent_avg_delay := mean (map delay_days recent_payments);
          recent_trend := mean (diff (map delay_days recent_payments));
          avg_interval := meanZ payment_intervals;
          interval_std := std sqrt (map (@Some Z) payment_intervals);
          preferred_day :=
            mode0 (map (fun r => dayofweek (payment_date r)) customer_df);
          preferred_month :=
            mode0 (map (fun r => month (payment_date r)) customer_df);
          rolling :=
            map (fun window =>
                   (window, window_stats (window_rows customer_df window)))
                feature_windows;
          last_payment_date := payment_date last_payment;
          last_delay := delay_days last_payment;
          days_since_last_payment :=
            days_between now (payment_date last_payment);
          avg_amount :=
            if has_amount df
            then Some (meanQ (dropna (map amount customer_df)))
            else None;
          last_amount :=
            if has_amount df then Some (amount last_payment) else None
        |}
    end.

(** [df['customer_id'].unique()]: identifiers in order of first appearance. *)
Fixpoint unique_from (seen : list string) (l : list string) : list string :=
  match l with
  | [] => []
  | x :: r =>
      if existsb (String.eqb x) seen then unique_from seen r
      else x :: unique_from (x :: seen) r
  end.

Definition unique (l : list string) : list string := unique_from [] l.

(** The body of the loop [for i in range(2, len(customer_df))]: the features
    come from the first [i] rows, the target row is row [i]. *)
Definition training_step (df : DataFrame) (cid : string)
    (customer_df : list Row) (acc : list FeatureVector * list Z) (i : nat)
  : list FeatureVector * list Z :=
  let '(X_list, y_list) := acc in
  let historical := firstn i customer_df in
  match nth_error customer_df i,
        engineer_features (with_rows df (firstn i (rows_of cid (rows df)))) cid
  with
  | Some target, Some features =>
      let days_until_next :=
        if (i <? length customer_df - 1)%nat then
          match nth_error customer_df (i + 1) with
          | Some next_payment =>
              days_between (payment_date next_payment) (payment_date target)
          | None => 0
          end
        else
          match iloc_last historical with
          | Some prev => days_between (payment_date target) (payment_date prev)
          | None => 0
          end in
      (X_list ++ [features], y_list ++ [days_until_next])
  | _, _ => acc
  end.

(** The outer loop over customers, skipping those with fewer than 3 rows. *)
Definition training_customer (df : DataFrame)
    (acc : list FeatureVector * list Z) (cid : string)
  : list FeatureVector * list Z :=
  let customer_df := rows_of cid (rows df) in
  if (length customer_df <? 3)%nat then acc
  else fold_left (training_step df cid customer_df)
                 (seq 2 (length customer_df - 2)) acc.

Definition training_lists (df : DataFrame) : list FeatureVector * list Z :=
  fold_left (training_customer df) (unique (map customer_id (rows df))) ([], []).

(** The numeric columns of a feature row, by name, in insertion order
    ([select_dtypes(include=[np.number])] drops [last_payment_date]). *)
Definition Zq (z : Z) : option Q := Some (inject_Z z).
Definition oZq (z : option Z) : option Q := option_map inject_Z z.

Definition window_name (prefix : string) (w : Z) : string :=
  (prefix ++ NilEmpty.string_of_int (Z.to_int w) ++ "d")%string.

Definition numeric_columns (f : FeatureVector) : list (string * option Q) :=
  [ ("total_payments", Zq (total_payments f));
    ("avg_delay", avg_delay f);
    ("std_delay", std_delay f);
    ("max_delay", oZq (max_delay f));
    ("min_delay", oZq (min_delay f));
    ("recent_avg_delay", recent_avg_delay f);
    ("recent_trend", recent_trend f);
    ("avg_interval", avg_interval f);
    ("interval_std", interval_std f);
    ("preferred_day", Zq (preferred_day f));
    ("preferred_month", Zq (preferred_month f)) ]%string
  ++ flat_map (fun '(w, (m, c)) =>
                 [ (window_name "delay_mean_" w, m);
                   (window_name "payment_count_" w, Zq c) ])
              (rolling f)
  ++ [ ("last_delay", oZq (last_delay f));
       ("days_since_last_payment", Zq (days_since_last_payment f)) ]%string
  ++ match avg_amount f with Some a => [("avg_amount"%string, a)] | None => [] end
  ++ match last_amount f with Some a => [("last_amount"%string, a)] | None => [] end.

(** [prepare_training_data]: [None] is the pair [(None, None)]. *)
Definition prepare_training_data (df : DataFrame)
  : option (list (list (string * option Q)) * list Z) :=
  let '(X_list, y_list) := training_lists df in
  if (length X_list =? 0)%nat then None
  else Some (map numeric_columns X_list, y_list).

End Features.

End DataProcessor.
Import DataProcessor.

(* ------------------------------------------------------------------ *)
(** ** Paths ([os.path] on POSIX) and configuration                      *)
(* ------------------------------------------------------------------ *)

Module Config.
Definition MODEL_PATH : string := "models/emi_predictor_model.pkl".
Definition DATA_PATH : string := "data/emi_history.csv".
Definition MIN_HISTORY_RECORDS : nat := 3.
Definition DEFAULT_PREDICTION_DAYS : Z := 30.
Definition FEATURE_WINDOWS : list Z := [7; 14; 30; 60; 90].
End Config.
Import Config.

Module OsPath.

Definition slash : ascii := "/"%char.

Definition isabs (p : string) : bool :=
  match p with String c _ => Ascii.eqb c slash | EmptyString => false end.

Fixpoint ends_with_slash (p : string) : bool :=
  match p with
  | EmptyString => false
  | String c EmptyString => Ascii.eqb c slash
  | String _ r => ends_with_slash r
  end.

Definition join (a b : string) : string :=
  if isabs b then b
  else if String.eqb a "" || ends_with_slash a then (a ++ b)%string
  else (a ++ "/" ++ b)%string.

(** The prefix of [p] up to and including its last slash. *)
Fixpoint head_of (p : string) : string :=
  match p with
  | EmptyString => EmptyString
  | String c r =>
      match head_of r with
      | EmptyString => if Ascii.eqb c slash then String c EmptyString else EmptyString
      | h => String c h
      end
  end.

Fixpoint all_slashes (p : string) : bool :=
  match p with
  | EmptyString => true
  | String c r => Ascii.eqb c slash && all_slashes r
  end.

Fixpoint rstrip_slashes (p : string) : string :=
  match p with
  | EmptyString => EmptyString
  | String c r =>
      match rstrip_slashes r with
      | EmptyString => if Ascii.eqb c slash then EmptyString else String c EmptyString
      | r' => String c r'
      end
  end.

Definition dirname (p : string) : string :=
  let head := head_of p in
  if negb (String.eqb head "") && negb (all_slashes head)
  then rstrip_slashes head else head.

End OsPath.

(* ------------------------------------------------------------------ *)
(** ** The prediction engine ([EMIPaymentPredictor])                     *)
(* ------------------------------------------------------------------ *)

Inductive exn : Type :=
| FileNotFoundError (msg : string)
| ValueError (msg : string)
| LibraryError (msg : string).

(** The dictionary returned by [predict_next_payment_date]. *)
Module Prediction.
Record PredictionResult : Type := mkResult {
  customer_id : string;
  predicted_payment_date : Timestamp;
  days_until_payment : Z;
  last_payment_date : Timestamp;
  last_demand_date : option Timestamp;
  next_demand_date : option Timestamp;
  confidence_score : Q;
  payment_history : list (Timestamp * option Z);
  average_delay : option Q;
  payment_count : nat
}.
End Prediction.

Record Metrics : Type := mkMetrics {
  train_mae : Q; test_mae : Q; train_rmse : Q; test_rmse : Q
}.

(** A matrix of named numeric columns, one association list per row. *)
Definition XRow : Type := list (string * option Q).

Module Predictor.
Import Prediction.

Section Engine.

(** A fitted gradient-boosted ensemble is opaque. *)
Context {Booster : Type}.

(** An [xgb.XGBRegressor] object: as constructed, or after [fit]. *)
Inductive XGBRegressor : Type :=
| Unfitted
| Fitted (b : Booster).

(** The attributes of an [EMIPaymentPredictor] instance. *)
Record Engine : Type := mkEngine {
  model : option XGBRegressor;
  feature_names : option (list string)
}.

(** What the program reads from outside itself: the clock, the files, and
    the numeric and learning libraries. *)
Record World : Type := mkWorld {
  clock : Timestamp;
  np_sqrt : Q -> Q;
  read_csv : string -> exn + DataFrame;
  path_exists : string -> bool;
  abspath : string -> string;
  script_dir : string;
  joblib_load : string -> exn + (XGBRegressor * list string);
  makedirs : string -> exn + unit;
  joblib_dump : XGBRegressor * list string -> string -> exn + unit;
  train_test_split :
    list XRow -> list Z -> exn + ((list XRow * list XRow) * (list Z * list Z));
  xgb_fit : list XRow -> list Z -> exn + Booster;
  xgb_predict : Booster -> XRow -> exn + Q
}.

(** State and exceptions: an exception keeps the state reached so far. *)
Definition M (A : Type) : Type := Engine -> (exn + A) * Engine.

Definition ret {A : Type} (a : A) : M A := fun st => (inr a, st).

Definition bind {A B : Type} (m : M A) (k : A -> M B) : M B :=
  fun st =>
    match m st with
    | (inr a, st') => k a st'
    | (inl e, st') => (inl e, st')
    end.

Definition raise {A : Type} (e : exn) : M A := fun st => (inl e, st).

Definition lift {A : Type} (r : exn + A) : M A := fun st => (r, st).

Definition get : M Engine := fun st => (inr st, st).

Definition set_model (m : XGBRegressor) : M unit :=
  fun st => (inr tt, mkEngine (Some m) (feature_names st)).

Definition set_feature_names (names : list string) : M unit :=
  fun st => (inr tt, mkEngine (model st) (Some names)).

(** [try: ... except Exception as e: ...] around [m]. *)
Definition try {A : Type} (m : M A) : M (exn + A) :=
  fun st => let '(r, st') := m st in (inr r, st').

End Engine.

Arguments XGBRegressor : clear implicits.
Arguments Engine : clear implicits.
Arguments World : clear implicits.
Arguments M : clear implicits.

Declare Scope engine_scope.
Delimit Scope engine_scope with engine.
Notation "x <- m ;; k" := (bind m (fun x => k))
  (at level 61, m at next level, right associativity) : engine_scope.
Notation "m ;;; k" := (bind m (fun _ => k))
  (at level 61, right associativity) : engine_scope.

Local Open Scope engine_scope.

Section Methods.

Context {Booster : Type}.
Variable w : World Booster.

(** [EMIDataProcessor.load_data]: parsing is the world's, sorting is ours. *)
Definition load_data (file_path : string) : exn + DataFrame :=
  match read_csv w file_path with
  | inl e => inl e
  | inr df => inr (with_rows df (sort_values_payment_date (rows df)))
  end.

(** The path [load_model] ends up testing, for a given starting path. *)
Definition resolve_path (path_to_use : string) : string :=
  if negb (OsPath.isabs path_to_use) then
    if path_exists w path_to_use then abspath w path_to_use
    else
      let project_root := script_dir w in
      let potential_path := OsPath.join project_root path_to_use in
      if path_exists w potential_path then potential_path
      else
        let parent_path :=
          OsPath.join (OsPath.dirname (script_dir w)) path_to_use in
        if path_exists w parent_path then parent_path else path_to_use
  else path_to_use.

Definition model_not_found (path : string) : exn :=
  FileNotFoundError
    ("Model not found at " ++ path ++ ". Please train the model first.").

Definition load_model (model_path : option string) : M Booster unit :=
  let path_to_use :=
    match model_path with
    | Some p => if String.eqb p "" then MODEL_PATH else p
    | None => MODEL_PATH
    end in
  let path_to_use := resolve_path path_to_use in
  if negb (path_exists w path_to_use) then raise (model_not_found path_to_use)
  else
    model_data <- lift (joblib_load w path_to_use) ;;
    set_model (fst model_data) ;;;
    set_feature_names (snd model_data).

(** [X.reindex(columns=feature_names, fill_value=0)]. *)
Fixpoint lookup_column (name : string) (x : XRow) : option (option Q) :=
  match x with
  | [] => None
  | (n, v) :: r => if String.eqb n name then Some v else lookup_column name r
  end.

Definition reindex (names : option (list string)) (x : XRow) : XRow :=
  match names with
  | None => x
  | Some ns =>
      map (fun n => (n, match lookup_column n x with
                        | Some v => v
                        | None => Some 0%Q
                        end)) ns
  end.

(** [self.model.predict(X)[0]]. *)
Definition model_predict (m : option (XGBRegressor Booster)) (x : XRow)
  : exn + Q :=
  match m with
  | Some (Fitted b) => xgb_predict w b x
  | Some Unfitted => inl (LibraryError "NotFittedError")
  | None => inl (LibraryError "AttributeError")
  end.

(** The next demand date: the same day of the following month, or the last
    day of that month when [pd.Timestamp] rejects the day. *)
Definition next_demand_date_of (last_demand_date : Timestamp)
  : exn + Timestamp :=
  let day_of_month := day last_demand_date in
  let '(next_year, next_month) :=
    if month last_demand_date =? 12
    then (year last_demand_date + 1, 1)
    else (year last_demand_date, month last_demand_date + 1) in
  match Timestamp_new next_year next_month day_of_month with
  | Some t => inr t
  | None =>
      let last_day := monthrange next_year next_month in
      match Timestamp_new next_year next_month (Z.min day_of_month last_day) with
      | Some t => inr t
      | None => inl (ValueError "day is out of range for month")
      end
  end.

(** Python's [max(a, b)] and [min(a, b)] on two floats. *)
Definition py_max (a b : Q) : Q := if Qltb a b then b else a.
Definition py_min (a b : Q) : Q := if Qltb b a then b else a.

(** [_calculate_confidence]; a comparison with NaN is false. *)
Definition gtb_nan (x : option Q) (c : Q) : bool :=
  match x with Some v => Qltb c v | None => false end.

Definition ltb_nan (x : option Q) (c : Q) : bool :=
  match x with Some v => Qltb v c | None => false end.

Definition _calculate_confidence (features : FeatureVector) : Q :=
  let confidence := (7 # 10)%Q in
  let confidence :=
    if 10 <? total_payments features then (confidence + (1 # 10))%Q
    else if 5 <? total_payments features then (confidence + (5 # 100))%Q
    else confidence in
  let confidence :=
    if gtb_nan (std_delay features) 10 then (confidence - (1 # 10))%Q
    else if ltb_nan (std_delay features) 3 then (confidence + (1 # 10))%Q
    else confidence in
  py_min (95 # 100) (py_max (5 # 10) confidence).

(** The [ValueError] of the record-count check. *)
Definition insufficient_history : exn :=
  ValueError "Customer needs at least 3 payment records".

(** [if self.model is None: self.load_model()]. *)
Definition ensure_model : M Booster unit :=
  st0 <- get ;;
  match model st0 with None => load_model None | Some _ => ret tt end.

Definition predict_next_payment_date (cid data_path : string)
  : M Booster PredictionResult :=
  ensure_model ;;;
  df <- lift (load_data data_path) ;;
  let df := calculate_payment_delays df in
  let customer_df := rows_of cid (rows df) in
  if (length customer_df <? MIN_HISTORY_RECORDS)%nat then
    raise insufficient_history
  else
    match engineer_features (np_sqrt w) (clock w) df cid with
    | None => raise (ValueError "Could not engineer features for customer")
    | Some features =>
        st <- get ;;
        let X := reindex (feature_names st) (numeric_columns features) in
        let history := map (fun r => (payment_date r, delay_days r)) customer_df in
        let avg := mean (map delay_days customer_df) in
        let last_demand :=
          if has_scheduled_date df && (0 <? length customer_df)%nat
          then match iloc_last customer_df with
               | Some r => scheduled_date r
               | None => None
               end
          else None in
        next_demand <-
          match last_demand with
          | Some d => t <- lift (next_demand_date_of d) ;; ret (Some t)
          | None => ret None
          end ;;
        predicted_date <-
          match next_demand with
          | Some nd =>
              match avg with
              | Some a => ret (add_days nd (round_half_even a))
              | None => raise (ValueError "cannot convert float NaN to integer")
              end
          | None =>
              y <- lift (model_predict (model st) X) ;;
              let days := Z.max 0 (round_half_even y) in
              ret (add_days (DataProcessor.last_payment_date features) days)
          end ;;
        let last_pd := DataProcessor.last_payment_date features in
        ret {| customer_id := cid;
               predicted_payment_date := predicted_date;
               days_until_payment := days_between predicted_date last_pd;
               last_payment_date := last_pd;
               last_demand_date := last_demand;
               next_demand_date := next_demand;
               confidence_score := _calculate_confidence features;
               payment_history := tail_n 5 history;
               average_delay := avg;
               payment_count := length customer_df |}
    end.

(** [predict_batch]: the loop appends to [results] and swallows exceptions. *)
Fixpoint predict_batch_loop (customer_ids : list string) (data_path : string)
    (results : list PredictionResult)
  : M Booster (list PredictionResult) :=
  match customer_ids with
  | [] => ret results
  | cid :: rest =>
      r <- try (predict_next_payment_date cid data_path) ;;
      match r with
      | inr result => predict_batch_loop rest data_path (results ++ [result])
      | inl _ => predict_batch_loop rest data_path results
      end
  end.

Definition predict_batch (customer_ids : list string) (data_path : string)
  : M Booster (list PredictionResult) :=
  predict_batch_loop customer_ids data_path [].

(** [X.columns.tolist()]. *)
Definition columns (X : list XRow) : list string :=
  match X with [] => [] | r :: _ => map fst r end.

(** [self.model.predict(X)] on a fitted ensemble, row by row. *)
Fixpoint predict_all (b : Booster) (X : list XRow) : exn + list Q :=
  match X with
  | [] => inr []
  | x :: r =>
      match xgb_predict w b x, predict_all b r with
      | inr v, inr vs => inr (v :: vs)
      | inl e, _ => inl e
      | _, inl e => inl e
      end
  end.

Definition mean_absolute_error (y : list Z) (pred : list Q) : exn + Q :=
  match meanQ (map (fun '(a, p) => Qabs (inject_Z a - p)) (combine y pred)) with
  | Some v => inr v
  | None => inl (ValueError "Found array with 0 sample(s)")
  end.

Definition mean_squared_error (y : list Z) (pred : list Q) : exn + Q :=
  match meanQ (map (fun '(a, p) => (inject_Z a - p) * (inject_Z a - p))%Q
                   (combine y pred)) with
  | Some v => inr v
  | None => inl (ValueError "Found array with 0 sample(s)")
  end.

(** [train_model].  The new regressor is bound to [self.model] before it is
    fitted, and [self.feature_names] right after the fit; evaluation and the
    write of the artifact come last. *)
Definition train_model (data_path : string) : M Booster Metrics :=
  df <- lift (load_data data_path) ;;
  let df := calculate_payment_delays df in
  match prepare_training_data (np_sqrt w) (clock w) df with
  | None => raise (ValueError "Insufficient data for training")
  | Some (X, y) =>
      if (length X =? 0)%nat then
        raise (ValueError "Insufficient data for training")
      else
        split <- lift (train_test_split w X y) ;;
        let '((X_train, X_test), (y_train, y_test)) := split in
        set_model Unfitted ;;;
        b <- lift (xgb_fit w X_train y_train) ;;
        set_model (Fitted b) ;;;
        set_feature_names (columns X) ;;;
        y_pred_train <- lift (predict_all b X_train) ;;
        y_pred_test <- lift (predict_all b X_test) ;;
        mae_train <- lift (mean_absolute_error y_train y_pred_train) ;;
        mae_test <- lift (mean_absolute_error y_test y_pred_test) ;;
        mse_train <- lift (mean_squared_error y_train y_pred_train) ;;
        mse_test <- lift (mean_squared_error y_test y_pred_test) ;;
        let metrics :=
          mkMetrics mae_train mae_test
                    (np_sqrt w mse_train) (np_sqrt w mse_test) in
        lift (makedirs w (OsPath.dirname MODEL_PATH)) ;;;
        lift (joblib_dump w (Fitted b, columns X) MODEL_PATH) ;;;
        ret metrics
  end.

End Methods.

End Predictor.
Import Predictor.

(** What a call returned, if it returned. *)
Definition returned {A S : Type} (r : (exn + A) * S) : option A :=
  match fst r with inr a => Some a | inl _ => None end.

(* ------------------------------------------------------------------ *)
(** ** The specification's wording, as definitions to compare against   *)
(* ------------------------------------------------------------------ *)

Module Spec.

(** "Advance by exactly one calendar month, preserving day-of-month; if that
    day does not exist in the target month, clamp to that month's last day." *)
Definition one_month_later (d : Timestamp) : Timestamp :=
  let y := if month d =? 12 then year d + 1 else year d in
  let m := if month d =? 12 then 1 else month d + 1 in
  mkDate y m (Z.min (day d) (monthrange y m)).

(** "Start at 0.70; add 0.10 if total_payments > 10, else add 0.05 if > 5;
    subtract 0.10 if the standard deviation exceeds 10, add 0.10 if it is
    below 3; clamp the final value to [0.50, 0.95]." *)
Definition clamp (lo hi x : Q) : Q :=
  if Qltb x lo then lo else if Qltb hi x then hi else x.

Definition confidence_spec (total : Z) (sd : option Q) : Q :=
  let history_bonus :=
    if 10 <? total then (10 # 100)%Q
    else if 5 <? total then (5 # 100)%Q else 0%Q in
  let volatile_penalty := if gtb_nan sd 10 then (10 # 100)%Q else 0%Q in
  let steady_bonus := if ltb_nan sd 3 then (10 # 100)%Q else 0%Q in
  clamp (50 # 100) (95 # 100)
        ((70 # 100) + history_bonus - volatile_penalty + steady_bonus)%Q.

End Spec.

(* ------------------------------------------------------------------ *)
(** ** Concrete payment files and worlds                                 *)
(* ------------------------------------------------------------------ *)

Module Examples.

Local Open Scope string_scope.

(** A rational approximation of the square root, to three decimals. *)
Definition approx_sqrt (q : Q) : Q :=
  Qmake (Z.sqrt (Qfloor (q * 1000000))) 1000.

Definition paid (c : string) (p s : Timestamp) : Row :=
  mkRow c p (Some s) (Some (12500 # 1)%Q) None.

Definition paid_plain (c : string) (p : Timestamp) : Row :=
  mkRow c p None None None.

(** A file with demand dates, in no particular order.  CUST_0001 has four
    payments, the last one due on 2024-01-31; CUST_0002 has two payments;
    CUST_0003 has three, the last one due on 2023-02-28. *)
Definition history : DataFrame :=
  mkFrame true true
    [ paid "CUST_0002" (mkDate 2024 1 9) (mkDate 2024 1 5);
      paid "CUST_0001" (mkDate 2024 2 3) (mkDate 2024 1 31);
      paid "CUST_0001" (mkDate 2023 11 2) (mkDate 2023 10 31);
      paid "CUST_0003" (mkDate 2023 3 1) (mkDate 2023 2 28);
      paid "CUST_0001" (mkDate 2024 1 2) (mkDate 2023 12 31);
      paid "CUST_0002" (mkDate 2024 2 6) (mkDate 2024 2 5);
      paid "CUST_0003" (mkDate 2022 12 28) (mkDate 2022 12 28);
      paid "CUST_0001" (mkDate 2023 12 1) (mkDate 2023 11 30);
      paid "CUST_0003" (mkDate 2023 1 30) (mkDate 2023 1 28) ].

(** A file without the [scheduled_date] column, two customers interleaved. *)
Definition history_plain : DataFrame :=
  mkFrame false false
    [ paid_plain "CUST_0001" (mkDate 2024 1 1);
      paid_plain "CUST_0002" (mkDate 2024 1 5);
      paid_plain "CUST_0001" (mkDate 2024 1 31);
      paid_plain "CUST_0002" (mkDate 2024 2 4);
      paid_plain "CUST_0001" (mkDate 2024 3 1);
      paid_plain "CUST_0001" (mkDate 2024 3 30) ].

(** A file with the [scheduled_date] column in which one row has no value. *)
Definition history_gap : DataFrame :=
  mkFrame true false
    [ mkRow "CUST_0001" (mkDate 2024 1 3) (Some (mkDate 2024 1 1)) None None;
      mkRow "CUST_0001" (mkDate 2024 2 2) None None None;
      mkRow "CUST_0001" (mkDate 2024 3 4) (Some (mkDate 2024 3 1)) None None ].

Definition abs_model_path : string := "/srv/emi/models/emi_predictor_model.pkl".

(** A world with a saved artifact; the booster is a number. *)
Definition world_with (frame : DataFrame) (artifact : bool)
    (fit : exn + nat) (dump : exn + unit) (today : Timestamp) : World nat :=
  {| clock := today;
     np_sqrt := approx_sqrt;
     read_csv := fun p =>
       if String.eqb p DATA_PATH then inr frame
       else inl (FileNotFoundError p);
     path_exists := fun p =>
       artifact && (String.eqb p MODEL_PATH || String.eqb p abs_model_path);
     abspath := fun p => OsPath.join "/srv/emi" p;
     script_dir := "/srv/emi";
     joblib_load := fun _ => inr (Fitted 7%nat, ["total_payments"; "avg_delay"]);
     makedirs := fun _ => inr tt;
     joblib_dump := fun _ _ => dump;
     train_test_split := fun X y => inr ((X, X), (y, y));
     xgb_fit := fun _ _ => fit;
     xgb_predict := fun b _ => inr (inject_Z (Z.of_nat b) + (30 # 1))%Q |}.

Definition today : Timestamp := mkDate 2024 6 1.

Definition world : World nat :=
  world_with history true (inr 1%nat) (inr tt) today.

Definition world_plain : World nat :=
  world_with history_plain true (inr 1%nat) (inr tt) today.

Definition world_no_artifact : World nat :=
  world_with history false (inr 1%nat) (inr tt) today.

Definition world_read_only : World nat :=
  world_with history true (inr 1%nat)
             (inl (LibraryError "PermissionError")) today.

Definition world_fit_fails : World nat :=
  world_with history true (inl (LibraryError "XGBoostError")) (inr tt) today.

(** [history] as [load_data] returns it, and the latest row of CUST_0001. *)
Definition sorted_history : DataFrame :=
  with_rows history (sort_values_payment_date (rows history)).

Definition latest_0001 : Row :=
  paid "CUST_0001" (mkDate 2024 2 3) (mkDate 2024 1 31).

(** The two payments of CUST_0002 alone. *)
Definition short_history : DataFrame :=
  mkFrame true true
    [ paid "CUST_0002" (mkDate 2024 1 9) (mkDate 2024 1 5);
      paid "CUST_0002" (mkDate 2024 2 6) (mkDate 2024 2 5) ].

Definition fresh : Engine nat := mkEngine None None.

Definition loaded : Engine nat :=
  mkEngine (Some (Fitted 7%nat)) (Some ["total_payments"; "avg_delay"]).

(** Years later, with another regressor in memory and no artifact on disk. *)
Definition world_later : World nat :=
  world_with history false (inr 5%nat) (inr tt) (mkDate 2031 12 25).

Definition retrained : Engine nat :=
  mkEngine (Some (Fitted 99%nat)) (Some ["last_delay"]).

(** [history] with its delays, and the features of CUST_0001 on it. *)
Definition delayed_history : DataFrame :=
  calculate_payment_delays sorted_history.

Definition features_0001 : FeatureVector :=
  Eval vm_compute in
    match engineer_features approx_sqrt today delayed_history "CUST_0001" with
    | Some f => f
    | None =>
        mkFeatures 0 None None None None None None None None 0 0 []
                   today None 0 None None
    end.

(** What the engine answers for CUST_0001 on [history]. *)
Definition result_0001 : Prediction.PredictionResult :=
  Eval vm_compute in
    match returned (predict_next_payment_date world "CUST_0001" DATA_PATH loaded)
    with
    | Some r => r
    | None => Prediction.mkResult "" today 0 today None None 0 [] None 0
    end.

End Examples.


Module BatchSpec.

(** "The output is exactly the successfully-predicted subset, in input order,
    with no placeholder for a skipped identifier": the results of the calls
    that returned, each call made on the engine the previous one left. *)
Fixpoint batch_successes {Booster : Type} (w : World Booster)
    (customer_ids : list string) (data_path : string) (st : Engine Booster)
  : list Prediction.PredictionResult :=
  match customer_ids with
  | [] => []
  | cid :: rest =>
      match predict_next_payment_date w cid data_path st with
      | (inr result, st1) => result :: batch_successes w rest data_path st1
      | (inl _, st1) => batch_successes w rest data_path st1
      end
  end.

(** [l1] is [l2] with some elements left out, order kept. *)
Inductive Subseq {A : Type} : list A -> list A -> Prop :=
| Subseq_nil : Subseq [] []
| Subseq_skip (x : A) (l1 l2 : list A) : Subseq l1 l2 -> Subseq l1 (x :: l2)
| Subseq_take (x : A) (l1 l2 : list A) :
    Subseq l1 l2 -> Subseq (x :: l1) (x :: l2).

End BatchSpec.

Module DelaySpec.

(** "[payment_date - scheduled_date] in days when [scheduled_date] exists". *)
Definition scheduled_delay (r : Row) : option Z :=
  option_map (fun s => days_between (payment_date r) s) (scheduled_date r).

(** The payment date of the latest row of customer [cid] among the rows
    already passed ([seen] holds them latest first). *)
Fixpoint previous_payment (cid : string) (seen : list Row) : option Timestamp :=
  match seen with
  | [] => None
  | r :: t =>
      if String.eqb (customer_id r) cid then Some (payment_date r)
      else previous_payment cid t
  end.

(** "[delay_days = payment_date - scheduled_date] whenever the row's
    scheduled date exists, and otherwise the gap in days to the previous
    payment of the same customer, each customer's first record getting 0":
    decided row by row, and never undefined. *)
Fixpoint computeDelays_from (seen : list Row) (l : list Row) : list Row :=
  match l with
  | [] => []
  | r :: t =>
      let d :=
        match scheduled_date r with
        | Some s => days_between (payment_date r) s
        | None =>
            match previous_payment (customer_id r) seen with
            | Some p => days_between (payment_date r) p
            | None => 0
            end
        end in
      set_delay r (Some d) :: computeDelays_from (r :: seen) t
  end.

Definition computeDelays_spec (df : DataFrame) : DataFrame :=
  with_rows df (computeDelays_from [] (rows df)).

End DelaySpec.

Module TrainingSpec.

(** Days from row [b] to row [a] of a customer's history (rows counted
    from 0). *)
Definition gap (c : list Row) (a b : nat) : Z :=
  match nth_error c a, nth_error c b with
  | Some x, Some y => days_between (payment_date x) (payment_date y)
  | _, _ => 0
  end.

Section Tables.

Variable sqrt : Q -> Q.
Variable now : Timestamp.

(** The features engineered from the first [k] rows of a customer. *)
Definition prefix_features (df : DataFrame) (cid : string) (k : nat)
  : option FeatureVector :=
  engineer_features sqrt now
    (with_rows df (firstn k (rows_of cid (rows df)))) cid.

(** The claim's wording: prefixes of 3, 4, ..., n records; the features of a
    prefix go with the days from the prefix's last payment to the next
    payment after it, and the final prefix (all n records) with the gap
    between its last record and the one before. *)
Definition spec_examples_of (df : DataFrame) (cid : string)
  : list (option FeatureVector * Z) :=
  let c := rows_of cid (rows df) in
  let n := length c in
  if (n <? 3)%nat then []
  else map (fun k => (prefix_features df cid k,
                      if (k <? n)%nat then gap c k (k - 1)
                      else gap c (n - 1) (n - 2)))
           (seq 3 (n - 2)).

Definition buildTrainingTable_spec (df : DataFrame)
  : list (option FeatureVector * Z) :=
  flat_map (spec_examples_of df) (unique (map customer_id (rows df))).

(** What the loop does: for i = 2, ..., n-1 the features of the first [i]
    rows go with the days from row [i] to row [i+1], and for i = n-1 with
    the days from row [n-2] to row [n-1]. *)
Definition loop_target (c : list Row) (i : nat) : Z :=
  if (i <? length c - 1)%nat then gap c (i + 1) i else gap c i (i - 1).

Definition examples_of (df : DataFrame) (cid : string)
  : list (option FeatureVector * Z) :=
  let c := rows_of cid (rows df) in
  if (length c <? 3)%nat then []
  else map (fun i => (prefix_features df cid i, loop_target c i))
           (seq 2 (length c - 2)).

Definition training_examples (df : DataFrame)
  : list (option FeatureVector * Z) :=
  flat_map (examples_of df) (unique (map customer_id (rows df))).

End Tables.

End TrainingSpec.

Module TrainSpec.

(** The steps of [train_model] that come before the new regressor is
    constructed: loading, delays, the training table, the split.  The result
    is the table's rows and the training part of the split. *)
Definition training_input {Booster : Type} (w : World Booster)
    (data_path : string) : exn + (list XRow * (list XRow * list Z)) :=
  match load_data w data_path with
  | inl e => inl e
  | inr df =>
      match prepare_training_data (np_sqrt w) (clock w)
              (calculate_payment_delays df) with
      | None => inl (ValueError "Insufficient data for training")
      | Some (X, y) =>
          if (length X =? 0)%nat
          then inl (ValueError "Insufficient data for training")
          else
            match train_test_split w X y with
            | inl e => inl e
            | inr ((X_train, _), (y_train, _)) => inr (X, (X_train, y_train))
            end
      end
  end.

End TrainSpec.

(* ------------------------------------------------------------------ *)
(** ** Orders and shapes used to state properties of the table          *)
(* ------------------------------------------------------------------ *)

Module TableSpec.

(** Payment dates in ascending order. *)
Definition by_date (l : list Row) : Prop :=
  StronglySorted Z.le (ordinals l).

(** A row with its derived column blanked: what [calculate_payment_delays]
    must not touch. *)
Definition without_delay (r : Row) : Row := set_delay r None.

(** A delay that is present and not negative. *)
Definition delay_nonneg (r : Row) : Prop :=
  exists d, delay_days r = Some d /\ 0 <= d.

End TableSpec.

Module SchemaSpec.

Local Open Scope string_scope.

(** The numeric columns every engineered vector has, in the order the
    source fills the dictionary; the amount statistics come last and only
    when the frame has an [amount] column. *)
Definition base_columns : list string :=
  [ "total_payments"; "avg_delay"; "std_delay"; "max_delay"; "min_delay";
    "recent_avg_delay"; "recent_trend"; "avg_interval"; "interval_std";
    "preferred_day"; "preferred_month";
    "delay_mean_7d"; "payment_count_7d"; "delay_mean_14d"; "payment_count_14d";
    "delay_mean_30d"; "payment_count_30d"; "delay_mean_60d"; "payment_count_60d";
    "delay_mean_90d"; "payment_count_90d";
    "last_delay"; "days_since_last_payment" ].

Definition feature_columns (with_amount : bool) : list string :=
  base_columns ++ (if with_amount then ["avg_amount"; "last_amount"] else []).

End SchemaSpec.

(* ------------------------------------------------------------------ *)
(** ** The callers: [main.py] and [backend/app.py]                       *)
(* ------------------------------------------------------------------ *)

(** [str(e)] for the exceptions of the embedding. *)
Definition str_exn (e : exn) : string :=
  match e with
  | FileNotFoundError msg => msg
  | ValueError msg => msg
  | LibraryError msg => msg
  end.

(** What the callers reach besides the engine's world: the raw
    [customer_id] column of a CSV ([pd.read_csv(path)['customer_id']]), the
    CSV writer, the time-stamped default output name, and the explainer
    ([LLMExplainer], an external collaborator). *)
Record Shell {Booster : Type} : Type := mkShell {
  engine_world : World Booster;
  csv_customer_ids : string -> exn + list string;
  to_csv : list Prediction.PredictionResult -> string -> exn + unit;
  stamped_output : string;
  new_explainer : exn + unit;
  explain_prediction : Prediction.PredictionResult -> exn + string;
  generate_insights : list Prediction.PredictionResult -> exn + string
}.

Arguments Shell : clear implicits.

Module MainScript.

Section Main.

Context {Booster : Type}.
Variable sh : Shell Booster.

(** The CSV files a run wrote, oldest first. *)
Definition Written : Type := list (string * list Prediction.PredictionResult).

(** [EMIPaymentPredictor()]. *)
Definition new_predictor : Engine Booster := mkEngine None None.

(** The summary block reads the columns of [results_df]; a frame built from
    an empty list has none. *)
Definition summary_statistics (results : list Prediction.PredictionResult)
  : exn + unit :=
  match results with
  | [] => inl (LibraryError "KeyError: 'days_until_payment'")
  | _ => inr tt
  end.

(** [main.predict_batch(data_path, output_path, use_llm)]: the outcome and
    the files written. *)
Definition predict_batch_all (data_path : string) (output_path : option string)
    (use_llm : bool)
  : (exn + list Prediction.PredictionResult) * Written :=
  match csv_customer_ids sh data_path with
  | inl e => (inl e, [])
  | inr ids =>
      let customer_ids := unique ids in
      match load_model (engine_world sh) None new_predictor with
      | (inl e, _) => (inl e, [])
      | (inr _, predictor) =>
          match predict_batch (engine_world sh) customer_ids data_path predictor
          with
          | (inl e, _) => (inl e, [])
          | (inr results, _) =>
              let out :=
                match output_path with
                | Some p => if String.eqb p "" then stamped_output sh else p
                | None => stamped_output sh
                end in
              match to_csv sh results out with
              | inl e => (inl e, [])
              | inr _ =>
                  let written := [(out, results)] in
                  match summary_statistics results with
                  | inl e => (inl e, written)
                  | inr _ =>
                      if use_llm then
                        match new_explainer sh with
                        | inl e => (inl e, written)
                        | inr _ =>
                            match generate_insights sh results with
                            | inl e => (inl e, written)
                            | inr _ => (inr results, written)
                            end
                        end
                      else (inr results, written)
                  end
              end
          end
      end
  end.

End Main.

End MainScript.

Module BackendApp.

Section App.

Context {Booster : Type}.
Variable sh : Shell Booster.

(** The module globals [predictor] and [explainer]. *)
Record AppState : Type := mkApp {
  predictor : option (Engine Booster);
  explainer : option unit
}.

(** [MODEL_PATH] and [DATA_PATH] as the module rebinds them: joined to the
    project root, which is the directory of [predictor.py]. *)
Definition parent_dir : string := script_dir (engine_world sh).

Definition APP_MODEL_PATH : string :=
  if negb (OsPath.isabs MODEL_PATH) then OsPath.join parent_dir MODEL_PATH
  else MODEL_PATH.

Definition APP_DATA_PATH : string :=
  if negb (OsPath.isabs DATA_PATH) then OsPath.join parent_dir DATA_PATH
  else DATA_PATH.

(** [init_predictor]: the global is bound to the new engine before the
    model is loaded; any exception gives [False]. *)
Definition init_predictor (app : AppState) : bool * AppState :=
  match load_model (engine_world sh) (Some APP_MODEL_PATH)
          (MainScript.new_predictor) with
  | (inl _, st) => (false, mkApp (Some st) (explainer app))
  | (inr _, st) =>
      match new_explainer sh with
      | inl _ => (false, mkApp (Some st) (explainer app))
      | inr x => (true, mkApp (Some st) (Some x))
      end
  end.

(** [health_check]: the field [model_loaded]. *)
Definition health_model_loaded (app : AppState) : bool :=
  match predictor app with Some _ => true | None => false end.

(** A JSON body of [/api/predict] that is an object. *)
Record PredictRequest : Type := mkRequest {
  req_customer_id : option string;
  req_use_llm : bool
}.

Inductive Body : Type :=
| ErrorBody (error : string)
| PredictionBody (prediction : Prediction.PredictionResult)
                 (llm_explanation : string).

Definition Response : Type := (Z * Body)%type.

(** The inner [try] around the explanation. *)
Definition explanation_for (app : AppState)
    (result : Prediction.PredictionResult) : string :=
  match explainer app with
  | Some _ =>
      match explain_prediction sh result with
      | inr text => text
      | inl e => ("LLM explanation error: " ++ str_exn e)%string
      end
  | None => "LLM explainer not available"%string
  end.

(** [predict_payment]. *)
Definition predict_payment (req : PredictRequest) (app : AppState)
  : Response * AppState :=
  match req_customer_id req with
  | None => ((400, ErrorBody "customer_id is required"), app)
  | Some cid =>
      if String.eqb cid "" then
        ((400, ErrorBody "customer_id is required"), app)
      else
        let '(ready, app1) :=
          match predictor app with
          | None => init_predictor app
          | Some _ => (true, app)
          end in
        if negb ready then
          ((500, ErrorBody "Model not loaded. Please train the model first."),
           app1)
        else
          match predictor app1 with
          | None =>
              ((500, ErrorBody "'NoneType' object has no attribute 'predict_next_payment_date'"),
               app1)
          | Some engine =>
              match predict_next_payment_date (engine_world sh) cid
                      APP_DATA_PATH engine with
              | (inr result, engine') =>
                  let app2 := mkApp (Some engine') (explainer app1) in
                  ((200, PredictionBody result (explanation_for app2 result)),
                   app2)
              | (inl (ValueError msg), engine') =>
                  ((400, ErrorBody msg), mkApp (Some engine') (explainer app1))
              | (inl e, engine') =>
                  ((500, ErrorBody (str_exn e)),
                   mkApp (Some engine') (explainer app1))
              end
          end
  end.

(** [/api/train]: the global is rebound to a new engine, which is then
    trained; [data_path] defaults to the module's [DATA_PATH]. *)
Inductive TrainBody : Type :=
| TrainError (error : string)
| TrainDone (metrics : Metrics).

Definition train_endpoint (data_path : option string) (app : AppState)
  : (Z * TrainBody) * AppState :=
  let path := match data_path with Some p => p | None => APP_DATA_PATH end in
  match train_model (engine_world sh) path MainScript.new_predictor with
  | (inr metrics, engine) =>
      ((200, TrainDone metrics), mkApp (Some engine) (explainer app))
  | (inl e, engine) =>
      ((500, TrainError (str_exn e)), mkApp (Some engine) (explainer app))
  end.

(** [/api/predict/batch]: an empty identifier list means every customer of
    the data file. *)
Inductive BatchBody : Type :=
| BatchError (error : string)
| BatchDone (predictions : list Prediction.PredictionResult) (count : nat)
            (insights : string).

Definition insights_for (app : AppState)
    (results : list Prediction.PredictionResult) : string :=
  match explainer app with
  | Some _ =>
      match generate_insights sh results with
      | inr text => text
      | inl e => ("LLM insights error: " ++ str_exn e)%string
      end
  | None => "LLM explainer not available"%string
  end.

Definition predict_batch_endpoint (customer_ids : list string) (app : AppState)
  : (Z * BatchBody) * AppState :=
  match (match customer_ids with
         | [] =>
             match csv_customer_ids sh APP_DATA_PATH with
             | inl e => inl e
             | inr ids => inr (unique ids)
             end
         | _ => inr customer_ids
         end) with
  | inl e => ((500, BatchError (str_exn e)), app)
  | inr ids =>
      let '(ready, app1) :=
        match predictor app with
        | None => init_predictor app
        | Some _ => (true, app)
        end in
      if negb ready then
        ((500, BatchError "Model not loaded. Please train the model first."),
         app1)
      else
        match predictor app1 with
        | None =>
            ((500, BatchError "'NoneType' object has no attribute 'predict_batch'"),
             app1)
        | Some engine =>
            match predict_batch (engine_world sh) ids APP_DATA_PATH engine with
            | (inr results, engine') =>
                let app2 := mkApp (Some engine') (explainer app1) in
                ((200, BatchDone results (length results)
                         (insights_for app2 results)), app2)
            | (inl e, engine') =>
                ((500, BatchError (str_exn e)),
                 mkApp (Some engine') (explainer app1))
            end
        end
  end.

End App.

End BackendApp.

Module CallerExamples.

Local Open Scope string_scope.

(** A shell around an engine world: the raw identifier column is that of the
    world's file, every CSV write succeeds, and the explainer is down. *)
Definition shell_on (w : World nat) (frame : DataFrame) : Shell nat :=
  {| engine_world := w;
     csv_customer_ids := fun p =>
       if String.eqb p DATA_PATH then inr (map customer_id (rows frame))
       else inl (FileNotFoundError p);
     to_csv := fun _ _ => inr tt;
     stamped_output := "predictions_20240601_093000.csv";
     new_explainer := inr tt;
     explain_prediction := fun _ => inl (LibraryError "APIConnectionError");
     generate_insights := fun _ => inl (LibraryError "APIConnectionError") |}.

Definition shell : Shell nat := shell_on Examples.world Examples.history.

Definition shell_short : Shell nat :=
  shell_on (Examples.world_with Examples.short_history true (inr 1%nat)
              (inr tt) Examples.today)
           Examples.short_history.

(** The backend on a machine where the data file sits in the project root
    and no artifact exists anywhere. *)
Definition backend_world : World nat :=
  {| clock := Examples.today;
     np_sqrt := Examples.approx_sqrt;
     read_csv := fun p =>
       if String.eqb p "/srv/emi/data/emi_history.csv" then inr Examples.history
       else inl (FileNotFoundError p);
     path_exists := fun _ => false;
     abspath := fun p => OsPath.join "/srv/emi/backend" p;
     script_dir := "/srv/emi";
     joblib_load := fun p => inl (FileNotFoundError p);
     makedirs := fun _ => inr tt;
     joblib_dump := fun _ _ => inr tt;
     train_test_split := fun X y => inr ((X, X), (y, y));
     xgb_fit := fun _ _ => inr 1%nat;
     xgb_predict := fun _ _ => inr (30 # 1)%Q |}.

Definition backend : Shell nat := shell_on backend_world Examples.history.

Definition request_for (cid : string) : BackendApp.PredictRequest :=
  BackendApp.mkRequest (Some cid) false.

Definition cold : BackendApp.AppState (Booster := nat) :=
  BackendApp.mkApp None None.

Definition warm : BackendApp.AppState (Booster := nat) :=
  BackendApp.mkApp (Some Examples.loaded) (Some tt).

End CallerExamples.

(* ================================================================== *)
(** * Properties                                                        *)
(* ================================================================== *)

(* ------------------------------------------------------------------ *)
(** ** Day arithmetic on dates                                           *)
(* ------------------------------------------------------------------ *)

Lemma forallb_range (p : Z -> bool) (k : nat) :
  forallb (fun i => p (Z.of_nat i)) (seq 0 k) = true ->
  forall n, 0 <= n < Z.of_nat k -> p n = true.
Proof.
  intros H n Hn. rewrite forallb_forall in H.
  specialize (H (Z.to_nat n)). rewrite Z2Nat.id in H by lia.
  apply H. apply in_seq. lia.
Qed.

Lemma month_day_correct (leap : bool) (n : Z) :
  0 <= n < 365 -> month_day_ok leap n = true.
Proof.
  intro Hn. apply (forallb_range (month_day_ok leap) 365); [|lia].
  destruct leap; vm_compute; reflexivity.
Qed.

Lemma is_leap_spec (y : Z) :
  is_leap y = true <-> (y mod 4 = 0 /\ (y mod 100 <> 0 \/ y mod 400 = 0)).
Proof.
  unfold is_leap. rewrite andb_true_iff, orb_true_iff, negb_true_iff,
    !Z.eqb_eq, Z.eqb_neq. tauto.
Qed.

Section YearDecomposition.

(** A year written as 400-year cycles, centuries, 4-year cycles and years:
    year [q400 * 400 + 1 + q100 * 100 + q4 * 4 + q1]. *)
Variables q400 q100 q4 q1 : Z.

Lemma is_leap_decomposed :
  0 <= q100 <= 3 -> 0 <= q4 <= 24 -> 0 <= q1 <= 3 ->
  is_leap (q400 * 400 + 1 + q100 * 100 + q4 * 4 + q1)
  = (q1 =? 3) && (negb (q4 =? 24) || (q100 =? 3)).
Proof.
  intros H100 H4 H1.
  apply eq_true_iff_eq. rewrite is_leap_spec.
  rewrite andb_true_iff, orb_true_iff, negb_true_iff, !Z.eqb_eq, Z.eqb_neq.
  Z.div_mod_to_equations. lia.
Qed.

Lemma days_before_year_decomposed :
  0 <= q100 <= 3 -> 0 <= q4 <= 24 -> 0 <= q1 <= 3 ->
  days_before_year (q400 * 400 + 1 + q100 * 100 + q4 * 4 + q1)
  = 146097 * q400 + 36524 * q100 + 1461 * q4 + 365 * q1.
Proof.
  intros H100 H4 H1. unfold days_before_year.
  Z.div_mod_to_equations. lia.
Qed.

(** The last day of a 4-year or of a 400-year cycle belongs to the year
    before, which is a leap year. *)
Hypothesis cycle_end :
  (q1 = 4 /\ 0 <= q4 <= 23 /\ 0 <= q100 <= 3) \/ (q100 = 4 /\ q4 = 0 /\ q1 = 0).

Lemma is_leap_cycle_end :
  is_leap (q400 * 400 + 1 + q100 * 100 + q4 * 4 + q1 - 1) = true.
Proof. apply is_leap_spec. Z.div_mod_to_equations. lia. Qed.

Lemma days_before_year_cycle_end :
  days_before_year (q400 * 400 + 1 + q100 * 100 + q4 * 4 + q1 - 1)
  = 146097 * q400 + 36524 * q100 + 1461 * q4 + 365 * q1 - 365.
Proof. unfold days_before_year. Z.div_mod_to_equations. lia. Qed.

End YearDecomposition.

Ltac decompose_ordinal n :=
  unfold fromordinal; cbv zeta;
  set (a := n - 1);
  set (q400 := a / 146097); set (r1 := a mod 146097);
  set (q100 := r1 / 36524); set (r2 := r1 mod 36524);
  set (q4 := r2 / 1461); set (r3 := r2 mod 1461);
  set (q1 := r3 / 365); set (r4 := r3 mod 365);
  assert (E1 : a = 146097 * q400 + r1 /\ 0 <= r1 < 146097)
    by (subst q400 r1; split; [apply Z.div_mod; lia|apply Z.mod_pos_bound; lia]);
  assert (E2 : r1 = 36524 * q100 + r2 /\ 0 <= r2 < 36524)
    by (subst q100 r2; split; [apply Z.div_mod; lia|apply Z.mod_pos_bound; lia]);
  assert (E3 : r2 = 1461 * q4 + r3 /\ 0 <= r3 < 1461)
    by (subst q4 r3; split; [apply Z.div_mod; lia|apply Z.mod_pos_bound; lia]);
  assert (E4 : r3 = 365 * q1 + r4 /\ 0 <= r4 < 365)
    by (subst q1 r4; split; [apply Z.div_mod; lia|apply Z.mod_pos_bound; lia]);
  clearbody q400 r1 q100 r2 q4 r3 q1 r4;
  assert (B : 0 <= q100 <= 4 /\ 0 <= q4 <= 24 /\ 0 <= q1 <= 4) by lia.

(** [fromordinal] inverts [toordinal]: day [n] is the date numbered [n],
    and that date exists in the calendar. *)
Lemma toordinal_fromordinal (n : Z) :
  toordinal (fromordinal n) = n /\ is_valid (fromordinal n) = true.
Proof.
  decompose_ordinal n.
  destruct ((q1 =? 4) || (q100 =? 4)) eqn:Hend.
  - rewrite orb_true_iff, !Z.eqb_eq in Hend.
    assert (Hend' : (q1 = 4 /\ 0 <= q4 <= 23 /\ 0 <= q100 <= 3)
                    \/ (q100 = 4 /\ q4 = 0 /\ q1 = 0)) by lia.
    unfold toordinal, is_valid, valid_date, monthrange, days_before_month.
    cbn [year month day].
    rewrite (is_leap_cycle_end _ _ _ _ Hend'),
            (days_before_year_cycle_end _ _ _ _ Hend').
    change (days_before true 12) with 335.
    split; [lia|reflexivity].
  - rewrite orb_false_iff, !Z.eqb_neq in Hend.
    pose proof (month_day_correct
                  ((q1 =? 3) && (negb (q4 =? 24) || (q100 =? 3))) r4 (proj2 E4))
      as Hmd.
    unfold month_day_ok in Hmd.
    destruct (month_day ((q1 =? 3) && (negb (q4 =? 24) || (q100 =? 3))) r4)
      as [m d].
    rewrite !andb_true_iff, Z.eqb_eq, !Z.leb_le in Hmd.
    unfold toordinal, is_valid, valid_date, monthrange, days_before_month.
    cbn [year month day].
    rewrite is_leap_decomposed, days_before_year_decomposed by lia.
    split; [lia|].
    rewrite !andb_true_iff, !Z.leb_le. tauto.
Qed.

(** [t + timedelta(days=k)] is the date [k] days after [t]. *)
Lemma add_days_ordinal (t : Timestamp) (k : Z) :
  toordinal (add_days t k) = toordinal t + k
  /\ is_valid (add_days t k) = true.
Proof. unfold add_days. apply toordinal_fromordinal. Qed.

Lemma days_between_add_days (t : Timestamp) (k : Z) :
  days_between (add_days t k) t = k.
Proof.
  unfold days_between. rewrite (proj1 (add_days_ordinal t k)). lia.
Qed.

(* ------------------------------------------------------------------ *)
(** ** Confidence score                                                  *)
(* ------------------------------------------------------------------ *)

Lemma Qltb_lt (a b : Q) : Qltb a b = true <-> (a < b)%Q.
Proof.
  unfold Qltb. rewrite negb_true_iff. split; intro H.
  - apply Qnot_le_lt. intro L. apply Qle_bool_iff in L. congruence.
  - destruct (Qle_bool b a) eqn:E; [|reflexivity].
    apply Qle_bool_iff in E. exfalso. exact (Qlt_not_le _ _ H E).
Qed.

Lemma not_above_10_and_below_3 (sd : option Q) :
  gtb_nan sd 10 = true -> ltb_nan sd 3 = true -> False.
Proof.
  destruct sd as [v|]; simpl; [|discriminate].
  intros H1 H2. apply Qltb_lt in H1. apply Qltb_lt in H2.
  assert (H3 : (10 < 3)%Q) by (eapply Qlt_trans; eauto).
  discriminate H3.
Qed.

(** C4: for every feature vector the confidence score of
    [_calculate_confidence] is the value the specification describes (0.70,
    plus 0.10 above 10 payments or else 0.05 above 5, minus 0.10 when the
    standard deviation of the delay exceeds 10, plus 0.10 when it is below 3,
    clamped to [0.50, 0.95]), and it always lies in [0.50, 0.95]. *)
Theorem confidence_matches_spec_and_bounded (f : FeatureVector) :
  (_calculate_confidence f == Spec.confidence_spec (total_payments f) (std_delay f))%Q
  /\ (50 # 100 <= _calculate_confidence f)%Q
  /\ (_calculate_confidence f <= 95 # 100)%Q.
Proof.
  unfold _calculate_confidence, Spec.confidence_spec.
  destruct (gtb_nan (std_delay f) 10) eqn:Hg;
    destruct (ltb_nan (std_delay f) 3) eqn:Hl;
    try (exfalso; exact (not_above_10_and_below_3 _ Hg Hl));
    destruct (10 <? total_payments f); destruct (5 <? total_payments f);
    vm_compute; repeat split; discriminate.
Qed.

(* ------------------------------------------------------------------ *)
(** ** Stepping through the engine monad                                 *)
(* ------------------------------------------------------------------ *)

Ltac unfold_monad :=
  unfold bind, lift, ret, raise, get, try, set_model, set_feature_names in *.

Section EngineFacts.

Context {Booster : Type}.
Variable w : World Booster.

Lemma bind_inr {A B : Type} (m : M Booster A) (k : A -> M Booster B) st a st1 :
  m st = (inr a, st1) -> bind m k st = k a st1.
Proof. intro H. unfold bind. rewrite H. reflexivity. Qed.

Lemma bind_inl {A B : Type} (m : M Booster A) (k : A -> M Booster B) st e st1 :
  m st = (inl e, st1) -> bind m k st = (inl e, st1).
Proof. intro H. unfold bind. rewrite H. reflexivity. Qed.

Lemma ensure_model_loaded st m :
  model st = Some m -> ensure_model w st = (inr tt, st).
Proof. intro H. unfold ensure_model. unfold_monad. rewrite H. reflexivity. Qed.

Lemma resolve_path_missing p :
  path_exists w p = false ->
  path_exists w (OsPath.join (script_dir w) p) = false ->
  path_exists w (OsPath.join (OsPath.dirname (script_dir w)) p) = false ->
  resolve_path w p = p.
Proof.
  intros H1 H2 H3. unfold resolve_path.
  destruct (OsPath.isabs p); simpl; [reflexivity|].
  rewrite H1, H2, H3. reflexivity.
Qed.

Lemma ensure_model_missing st :
  model st = None ->
  path_exists w MODEL_PATH = false ->
  path_exists w (OsPath.join (script_dir w) MODEL_PATH) = false ->
  path_exists w (OsPath.join (OsPath.dirname (script_dir w)) MODEL_PATH) = false ->
  ensure_model w st = (inl (model_not_found MODEL_PATH), st).
Proof.
  intros Hm H1 H2 H3. unfold ensure_model, load_model. unfold_monad.
  rewrite Hm. simpl String.eqb.
  rewrite (resolve_path_missing _ H1 H2 H3), H1. reflexivity.
Qed.

End EngineFacts.

(* ------------------------------------------------------------------ *)
(** ** A model is required before anything else                          *)
(* ------------------------------------------------------------------ *)

(** C10: when no model is loaded and no artifact exists at any of the paths
    [load_model] tries for the configured model path, the call
    [predict_next_payment_date] fails with the model-not-found error and
    leaves the engine as it was, whatever the customer and the payment file
    are (so also when the customer's latest record has a demand date and the
    regressor would not be consulted). *)
Theorem predict_without_model_fails {Booster : Type} (w : World Booster)
    (st : Engine Booster) (cid data_path : string) :
  model st = None ->
  path_exists w MODEL_PATH = false ->
  path_exists w (OsPath.join (script_dir w) MODEL_PATH) = false ->
  path_exists w (OsPath.join (OsPath.dirname (script_dir w)) MODEL_PATH) = false ->
  predict_next_payment_date w cid data_path st
  = (inl (model_not_found MODEL_PATH), st).
Proof.
  intros Hm H1 H2 H3. unfold predict_next_payment_date.
  apply bind_inl. apply ensure_model_missing; assumption.
Qed.

Lemma predict_without_model_fails_witness :
  predict_next_payment_date Examples.world_no_artifact "CUST_0001" DATA_PATH
    Examples.fresh
  = (inl (model_not_found MODEL_PATH), Examples.fresh).
Proof. apply predict_without_model_fails; reflexivity. Defined.

(** The same customer on an engine that has a model: the latest record has
    a demand date, and the answer is the same whichever regressor is loaded. *)
Example predict_with_any_model :
  returned (predict_next_payment_date Examples.world_no_artifact "CUST_0001"
              DATA_PATH Examples.loaded) = Some Examples.result_0001
  /\ returned (predict_next_payment_date Examples.world_no_artifact "CUST_0001"
                 DATA_PATH Examples.retrained) = Some Examples.result_0001
  /\ Prediction.last_demand_date Examples.result_0001 = Some (mkDate 2024 1 31).
Proof. repeat split; vm_compute; reflexivity. Qed.

(* ------------------------------------------------------------------ *)
(** ** Loading and delay computation keep each customer's rows           *)
(* ------------------------------------------------------------------ *)

Lemma rows_with_rows (df : DataFrame) (l : list Row) :
  rows (with_rows df l) = l.
Proof. reflexivity. Qed.

Section TableFacts.

Variable cid : string.

Lemma rows_of_insert_length (r : Row) (l : list Row) :
  length (rows_of cid (insert_by_date r l)) = length (rows_of cid (r :: l)).
Proof.
  induction l as [|x t IH]; [reflexivity|].
  simpl insert_by_date.
  destruct (toordinal (payment_date x) <=? toordinal (payment_date r)).
  - simpl in *. destruct (customer_id x =? cid)%string;
      destruct (customer_id r =? cid)%string; simpl in *; lia.
  - reflexivity.
Qed.

Lemma rows_of_sort_length_acc (l acc : list Row) :
  length (rows_of cid (fold_left (fun a r => insert_by_date r a) l acc))
  = (length (rows_of cid l) + length (rows_of cid acc))%nat.
Proof.
  revert acc. induction l as [|x t IH]; intro acc; [reflexivity|].
  simpl fold_left. rewrite IH, rows_of_insert_length.
  simpl. destruct (customer_id x =? cid)%string; simpl; lia.
Qed.

Lemma rows_of_sort_length (l : list Row) :
  length (rows_of cid (sort_values_payment_date l)) = length (rows_of cid l).
Proof.
  unfold sort_values_payment_date. rewrite rows_of_sort_length_acc.
  simpl. lia.
Qed.

Lemma rows_of_map_set_delay (f : Row -> option Z) (l : list Row) :
  rows_of cid (map (fun r => set_delay r (f r)) l)
  = map (fun r => set_delay r (f r)) (rows_of cid l).
Proof.
  induction l as [|x t IH]; [reflexivity|].
  simpl. destruct (customer_id x =? cid)%string; simpl; congruence.
Qed.

Lemma rows_of_combine_length (l : list Row) (gs : list (option Z)) :
  length gs = length l ->
  length (rows_of cid (map (fun '(r, d) => set_delay r d) (combine l gs)))
  = length (rows_of cid l).
Proof.
  revert gs. induction l as [|x t IH]; intros [|g gs] Hlen;
    try discriminate; [reflexivity|].
  simpl in *. destruct (customer_id x =? cid)%string; simpl; auto.
Qed.

Lemma diff_from_length (prev : option Z) (l : list (option Z)) :
  length (diff_from prev l) = length l.
Proof.
  revert prev. induction l as [|x t IH]; intro prev; simpl; auto.
Qed.

Lemma rows_of_delays_length (df : DataFrame) :
  length (rows_of cid (rows (calculate_payment_delays df)))
  = length (rows_of cid (rows df)).
Proof.
  unfold calculate_payment_delays.
  destruct (has_scheduled_date df); simpl.
  - rewrite (rows_of_map_set_delay
               (fun r => match scheduled_date r with
                         | Some s => Some (days_between (payment_date r) s)
                         | None => None
                         end)).
    apply length_map.
  - apply rows_of_combine_length.
    unfold fillna0, diff. rewrite length_map, diff_from_length, length_map.
    reflexivity.
Qed.

Lemma rows_of_delays_scheduled (df : DataFrame) :
  has_scheduled_date df = true ->
  rows_of cid (rows (calculate_payment_delays df))
  = map (fun r => set_delay r
                    (match scheduled_date r with
                     | Some s => Some (days_between (payment_date r) s)
                     | None => None
                     end))
        (rows_of cid (rows df)).
Proof.
  intro H. unfold calculate_payment_delays. rewrite H. simpl.
  apply (rows_of_map_set_delay
           (fun r => match scheduled_date r with
                     | Some s => Some (days_between (payment_date r) s)
                     | None => None
                     end)).
Qed.

End TableFacts.

(* ------------------------------------------------------------------ *)
(** ** Too short a history                                               *)
(* ------------------------------------------------------------------ *)

(** C6: when the payment file holds fewer than [MIN_HISTORY_RECORDS] = 3
    records of a customer, [predict_next_payment_date] returns no prediction:
    it fails, and once the model step has passed (a model is loaded or could
    be loaded) the failure is the insufficient-history error raised at the
    record-count check. *)
Theorem predict_short_history_fails {Booster : Type} (w : World Booster)
    (st : Engine Booster) (cid data_path : string) (raw : DataFrame) :
  read_csv w data_path = inr raw ->
  (length (rows_of cid (rows raw)) < MIN_HISTORY_RECORDS)%nat ->
  exists e st',
    predict_next_payment_date w cid data_path st = (inl e, st')
    /\ (forall st1, ensure_model w st = (inr tt, st1) ->
                    e = insufficient_history /\ st' = st1).
Proof.
  intros Hread Hshort. unfold predict_next_payment_date.
  destruct (ensure_model w st) as [[e|[]] st1] eqn:Hensure.
  - exists e, st1. split; [apply bind_inl; exact Hensure|].
    intros st2 H. discriminate H.
  - exists insufficient_history, st1. split.
    + erewrite bind_inr by exact Hensure.
      unfold load_data. rewrite Hread. unfold_monad.
      rewrite rows_of_delays_length, rows_with_rows, rows_of_sort_length.
      apply Nat.ltb_lt in Hshort. rewrite Hshort. reflexivity.
    + intros st2 H. inversion H. split; reflexivity.
Qed.

Lemma predict_short_history_fails_witness :
  exists e st',
    predict_next_payment_date Examples.world "CUST_0002" DATA_PATH
      Examples.fresh = (inl e, st')
    /\ (forall st1, ensure_model Examples.world Examples.fresh = (inr tt, st1) ->
                    e = insufficient_history /\ st' = st1).
Proof.
  apply (predict_short_history_fails Examples.world Examples.fresh
           "CUST_0002" DATA_PATH Examples.history).
  - reflexivity.
  - vm_compute. lia.
Defined.

(* ------------------------------------------------------------------ *)
(** ** Batch prediction isolates failures                                *)
(* ------------------------------------------------------------------ *)

Section BatchFacts.

Context {Booster : Type}.
Variable w : World Booster.
Variable data_path : string.

Ltac split_matches H :=
  repeat match type of H with
         | context [match ?x with _ => _ end] =>
             let E := fresh "E" in destruct x eqn:E; try discriminate H
         end.

Lemma predict_result_customer (cid : string) (st st' : Engine Booster)
    (r : Prediction.PredictionResult) :
  predict_next_payment_date w cid data_path st = (inr r, st') ->
  Prediction.customer_id r = cid.
Proof.
  unfold predict_next_payment_date. unfold_monad. intro H.
  split_matches H; inversion H; reflexivity.
Qed.

Lemma predict_batch_loop_spec (ids : list string) :
  forall (acc : list Prediction.PredictionResult) (st : Engine Booster),
  exists st',
    predict_batch_loop w ids data_path acc st
    = (inr (acc ++ BatchSpec.batch_successes w ids data_path st), st').
Proof.
  induction ids as [|cid rest IH]; intros acc st; simpl.
  - exists st. unfold ret. rewrite app_nil_r. reflexivity.
  - unfold bind, try.
    destruct (predict_next_payment_date w cid data_path st) as [[e|r] st1].
    + apply IH.
    + destruct (IH (acc ++ [r]) st1) as [st' Hst'].
      exists st'. rewrite Hst', <- app_assoc. reflexivity.
Qed.

Lemma batch_successes_subseq (ids : list string) :
  forall st : Engine Booster,
  BatchSpec.Subseq
    (map Prediction.customer_id (BatchSpec.batch_successes w ids data_path st))
    ids.
Proof.
  induction ids as [|cid rest IH]; intro st; simpl.
  - constructor.
  - destruct (predict_next_payment_date w cid data_path st) as [[e|r] st1] eqn:E.
    + apply BatchSpec.Subseq_skip. apply IH.
    + simpl. rewrite (predict_result_customer _ _ _ _ E).
      apply BatchSpec.Subseq_take. apply IH.
Qed.

End BatchFacts.

(** C5: for every list of customer identifiers [predict_batch] returns a
    list and never an exception; the list holds exactly the results of the
    identifiers whose prediction succeeded, in input order and with nothing
    in the place of a failed identifier (possibly no result at all). *)
Theorem predict_batch_never_raises {Booster : Type} (w : World Booster)
    (customer_ids : list string) (data_path : string) (st : Engine Booster) :
  exists st',
    predict_batch w customer_ids data_path st
    = (inr (BatchSpec.batch_successes w customer_ids data_path st), st')
    /\ BatchSpec.Subseq
         (map Prediction.customer_id
              (BatchSpec.batch_successes w customer_ids data_path st))
         customer_ids.
Proof.
  destruct (predict_batch_loop_spec w data_path customer_ids [] st) as [st' H].
  exists st'. split; [exact H|apply batch_successes_subseq].
Qed.

(** Four identifiers, one unknown and one with too short a history: the two
    others come back, in order; on an engine without any artifact the batch
    is empty. *)
Example predict_batch_skips_failures :
  option_map (map Prediction.customer_id)
    (returned (predict_batch Examples.world
                 ["CUST_0003"; "CUST_9999"; "CUST_0002"; "CUST_0001"]%string
                 DATA_PATH Examples.fresh))
  = Some ["CUST_0003"; "CUST_0001"]%string
  /\ returned (predict_batch Examples.world_no_artifact
                 ["CUST_0003"; "CUST_0001"]%string DATA_PATH Examples.fresh)
     = Some [].
Proof. split; vm_compute; reflexivity. Qed.

(* ------------------------------------------------------------------ *)
(** ** The next demand date                                              *)
(* ------------------------------------------------------------------ *)

Lemma monthrange_bounds (y m : Z) : 28 <= monthrange y m <= 31.
Proof.
  unfold monthrange, days_in_month.
  destruct (m =? 2); [destruct (is_leap y); lia|].
  destruct ((m =? 4) || (m =? 6) || (m =? 9) || (m =? 11)); lia.
Qed.

Lemma Timestamp_new_exists (y m d : Z) :
  1 <= m <= 12 -> 1 <= d <= monthrange y m ->
  Timestamp_new y m d = Some (mkDate y m d).
Proof.
  intros Hm Hd. unfold Timestamp_new, valid_date.
  replace (1 <=? m) with true by (symmetry; apply Z.leb_le; lia).
  replace (m <=? 12) with true by (symmetry; apply Z.leb_le; lia).
  replace (1 <=? d) with true by (symmetry; apply Z.leb_le; lia).
  replace (d <=? monthrange y m) with true by (symmetry; apply Z.leb_le; lia).
  reflexivity.
Qed.

Lemma Timestamp_new_rejects (y m d : Z) :
  monthrange y m < d -> Timestamp_new y m d = None.
Proof.
  intro Hd. unfold Timestamp_new, valid_date.
  replace (d <=? monthrange y m) with false by (symmetry; apply Z.leb_gt; lia).
  rewrite !andb_false_r. reflexivity.
Qed.

Lemma is_valid_bounds (d : Timestamp) :
  is_valid d = true ->
  1 <= month d <= 12 /\ 1 <= day d <= monthrange (year d) (month d).
Proof.
  unfold is_valid, valid_date. rewrite !andb_true_iff, !Z.leb_le. tauto.
Qed.

Lemma next_month_day (y m d : Z) :
  1 <= m <= 12 -> 1 <= d ->
  match Timestamp_new y m d with
  | Some t => inr t
  | None =>
      match Timestamp_new y m (Z.min d (monthrange y m)) with
      | Some t => inr t
      | None => inl (ValueError "day is out of range for month")
      end
  end = inr (mkDate y m (Z.min d (monthrange y m))) :> exn + Timestamp.
Proof.
  intros Hm Hd. pose proof (monthrange_bounds y m) as Hr.
  destruct (Z.leb_spec d (monthrange y m)) as [Hle|Hgt].
  - rewrite Timestamp_new_exists by lia. rewrite Z.min_l by lia. reflexivity.
  - rewrite Timestamp_new_rejects by lia. rewrite Z.min_r by lia.
    rewrite Timestamp_new_exists by lia. reflexivity.
Qed.

Lemma next_demand_date_of_spec (d : Timestamp) :
  is_valid d = true ->
  next_demand_date_of d = inr (Spec.one_month_later d).
Proof.
  intro Hv. apply is_valid_bounds in Hv. destruct Hv as [Hm Hd].
  unfold next_demand_date_of, Spec.one_month_later.
  destruct (Z.eqb_spec (month d) 12) as [E|NE]; apply next_month_day; lia.
Qed.

(** The projected date is a real calendar date, one month on. *)
Lemma one_month_later_valid (d : Timestamp) :
  is_valid d = true -> is_valid (Spec.one_month_later d) = true.
Proof.
  intro Hv. apply is_valid_bounds in Hv. destruct Hv as [Hm Hd].
  unfold Spec.one_month_later, is_valid, valid_date. simpl.
  destruct (Z.eqb_spec (month d) 12) as [E|NE];
    rewrite !andb_true_iff, !Z.leb_le;
    match goal with
    | |- context [monthrange ?y ?m] => pose proof (monthrange_bounds y m)
    end; lia.
Qed.

(* ------------------------------------------------------------------ *)
(** ** The primary (demand-date) prediction path                         *)
(* ------------------------------------------------------------------ *)

Lemma iloc_last_map {A B : Type} (f : A -> B) (l : list A) :
  iloc_last (map f l) = option_map f (iloc_last l).
Proof.
  unfold iloc_last. rewrite <- map_rev. destruct (rev l); reflexivity.
Qed.

Lemma iloc_last_In {A : Type} (l : list A) (x : A) :
  iloc_last l = Some x -> In x l.
Proof.
  unfold iloc_last. intro H. apply in_rev.
  destruct (rev l) as [|y t]; [discriminate|].
  inversion H; subst. left. reflexivity.
Qed.

Lemma iloc_last_nonempty {A : Type} (l : list A) :
  (0 < length l)%nat -> exists x, iloc_last l = Some x.
Proof.
  unfold iloc_last. intro H. rewrite <- length_rev in H.
  destruct (rev l) as [|y t]; [simpl in H; lia|]. eauto.
Qed.

Lemma dropna_In {A : Type} (l : list (option A)) (v : A) :
  In (Some v) l -> In v (dropna l).
Proof.
  induction l as [|[x|] t IH]; simpl; intro H; [contradiction| |].
  - destruct H as [H|H]; [inversion H; auto|auto].
  - destruct H as [H|H]; [discriminate|auto].
Qed.

Lemma mean_defined (col : list (option Z)) (v : Z) :
  In (Some v) col -> exists a, mean col = Some a.
Proof.
  intro H. apply dropna_In in H. unfold mean, meanZ.
  destruct (dropna col); [contradiction|eauto].
Qed.

Lemma has_scheduled_date_delays (df : DataFrame) :
  has_scheduled_date (calculate_payment_delays df) = has_scheduled_date df.
Proof.
  unfold calculate_payment_delays. destruct (has_scheduled_date df) eqn:E;
    simpl; congruence.
Qed.

Lemma delay_days_scheduled (l : list Row) :
  map delay_days
      (map (fun r => set_delay r
                       (match scheduled_date r with
                        | Some s => Some (days_between (payment_date r) s)
                        | None => None
                        end)) l)
  = map DelaySpec.scheduled_delay l.
Proof.
  rewrite map_map. apply map_ext. intro r.
  unfold DelaySpec.scheduled_delay. simpl. destruct (scheduled_date r); reflexivity.
Qed.

Lemma engineer_features_exists (sqrt : Q -> Q) (now : Timestamp)
    (df : DataFrame) (cid : string) (last : Row) :
  (2 <= length (rows_of cid (rows df)))%nat ->
  iloc_last (rows_of cid (rows df)) = Some last ->
  exists f,
    engineer_features sqrt now df cid = Some f
    /\ DataProcessor.last_payment_date f = payment_date last.
Proof.
  intros Hn Hlast. unfold engineer_features.
  replace (length (rows_of cid (rows df)) <? 2)%nat with false
    by (symmetry; apply Nat.ltb_ge; exact Hn).
  rewrite Hlast. eexists. split; reflexivity.
Qed.


(** C1: for a customer with at least three records whose most recent record
    carries a scheduled (demand) date, [predict_next_payment_date] returns a
    result whose next demand date is the last demand date moved to the same
    day of the following month (December to January of the next year; the
    last day of the month when the day does not exist there), and whose
    predicted payment date is that date plus the rounded mean of
    [payment_date - scheduled_date] over the customer's whole history (as
    many days later as that rounded mean).  In particular 2024-01-31 is followed by 2024-02-29 and 2023-02-28 by
    2023-03-28. *)
Theorem predict_from_demand_date {Booster : Type} (w : World Booster)
    (st st1 : Engine Booster) (cid data_path : string) (df : DataFrame)
    (last : Row) (sd : Timestamp) :
  ensure_model w st = (inr tt, st1) ->
  load_data w data_path = inr df ->
  has_scheduled_date df = true ->
  (MIN_HISTORY_RECORDS <= length (rows_of cid (rows df)))%nat ->
  iloc_last (rows_of cid (rows df)) = Some last ->
  scheduled_date last = Some sd ->
  is_valid sd = true ->
  exists (r : Prediction.PredictionResult) (a : Q),
    predict_next_payment_date w cid data_path st = (inr r, st1)
    /\ Prediction.last_demand_date r = Some sd
    /\ Prediction.next_demand_date r = Some (Spec.one_month_later sd)
    /\ mean (map DelaySpec.scheduled_delay (rows_of cid (rows df))) = Some a
    /\ Prediction.average_delay r = Some a
    /\ Prediction.predicted_payment_date r
       = add_days (Spec.one_month_later sd) (round_half_even a)
    /\ days_between (Prediction.predicted_payment_date r)
                    (Spec.one_month_later sd) = round_half_even a
    /\ next_demand_date_of (mkDate 2024 1 31) = inr (mkDate 2024 2 29)
    /\ next_demand_date_of (mkDate 2023 2 28) = inr (mkDate 2023 3 28).
Proof.
  intros He Hl Hs Hn Hlast Hsd Hv.
  pose proof (rows_of_delays_scheduled cid df Hs) as Hrows.
  pose proof (has_scheduled_date_delays df) as Hs'. rewrite Hs in Hs'.
  remember (calculate_payment_delays df) as df' eqn:Edf.
  set (delayed := fun r : Row =>
         set_delay r (match scheduled_date r with
                      | Some s => Some (days_between (payment_date r) s)
                      | None => None
                      end)) in *.
  assert (Hlast' : iloc_last (rows_of cid (rows df')) = Some (delayed last)).
  { rewrite Hrows, iloc_last_map, Hlast. reflexivity. }
  assert (Hlen : length (rows_of cid (rows df')) = length (rows_of cid (rows df))).
  { rewrite Hrows. apply length_map. }
  destruct (mean_defined (map DelaySpec.scheduled_delay (rows_of cid (rows df)))
              (days_between (payment_date last) sd)) as [a Ha].
  { apply in_map_iff. exists last. split.
    - unfold DelaySpec.scheduled_delay. rewrite Hsd. reflexivity.
    - apply iloc_last_In. exact Hlast. }
  assert (Ha' : mean (map delay_days (rows_of cid (rows df'))) = Some a).
  { rewrite Hrows. unfold delayed. rewrite delay_days_scheduled. exact Ha. }
  destruct (engineer_features_exists (np_sqrt w) (clock w) df' cid (delayed last))
    as [f [Hf Hfl]].
  { rewrite Hlen. unfold MIN_HISTORY_RECORDS in Hn. lia. }
  { exact Hlast'. }
  unfold predict_next_payment_date.
  erewrite bind_inr by exact He.
  unfold_monad. rewrite Hl, <- Edf.
  replace (length (rows_of cid (rows df')) <? MIN_HISTORY_RECORDS)%nat
    with false by (symmetry; apply Nat.ltb_ge; lia).
  rewrite Hf, Hs', Hlast', Ha'.
  replace (0 <? length (rows_of cid (rows df')))%nat with true
    by (symmetry; apply Nat.ltb_lt; unfold MIN_HISTORY_RECORDS in Hn; lia).
  simpl. rewrite Hsd, (next_demand_date_of_spec sd Hv).
  eexists. exists a. split; [reflexivity|].
  simpl. repeat split; try reflexivity;
    [exact Ha|apply days_between_add_days].
Qed.

Lemma predict_from_demand_date_witness :
  exists (r : Prediction.PredictionResult) (a : Q),
    predict_next_payment_date Examples.world "CUST_0001" DATA_PATH Examples.fresh
    = (inr r, Examples.loaded)
    /\ Prediction.last_demand_date r = Some (mkDate 2024 1 31)
    /\ Prediction.next_demand_date r
       = Some (Spec.one_month_later (mkDate 2024 1 31))
    /\ mean (map DelaySpec.scheduled_delay
                 (rows_of "CUST_0001" (rows Examples.sorted_history))) = Some a
    /\ Prediction.average_delay r = Some a
    /\ Prediction.predicted_payment_date r
       = add_days (Spec.one_month_later (mkDate 2024 1 31)) (round_half_even a)
    /\ days_between (Prediction.predicted_payment_date r)
                    (Spec.one_month_later (mkDate 2024 1 31))
       = round_half_even a
    /\ next_demand_date_of (mkDate 2024 1 31) = inr (mkDate 2024 2 29)
    /\ next_demand_date_of (mkDate 2023 2 28) = inr (mkDate 2023 3 28).
Proof.
  apply (predict_from_demand_date Examples.world Examples.fresh Examples.loaded
           "CUST_0001" DATA_PATH Examples.sorted_history Examples.latest_0001
           (mkDate 2024 1 31)).
  - reflexivity.
  - reflexivity.
  - reflexivity.
  - vm_compute. lia.
  - reflexivity.
  - reflexivity.
  - reflexivity.
Defined.

(** The two customers of the example file: delays 2, 1, 2, 3 after a last
    demand date of 2024-01-31, and delays 0, 2, 1 after 2023-02-28. *)
Example predict_from_demand_date_values :
  option_map (fun r => (Prediction.next_demand_date r,
                        Prediction.predicted_payment_date r))
    (returned (predict_next_payment_date Examples.world "CUST_0001" DATA_PATH
                 Examples.fresh))
  = Some (Some (mkDate 2024 2 29), mkDate 2024 3 2)
  /\ option_map (fun r => (Prediction.next_demand_date r,
                           Prediction.predicted_payment_date r))
       (returned (predict_next_payment_date Examples.world "CUST_0003" DATA_PATH
                    Examples.fresh))
     = Some (Some (mkDate 2023 3 28), mkDate 2023 3 29).
Proof. split; vm_compute; reflexivity. Qed.

(* ------------------------------------------------------------------ *)
(** ** The primary path does not read the clock                          *)
(* ------------------------------------------------------------------ *)

Lemma engineer_features_clock (sqrt : Q -> Q) (t1 t2 : Timestamp)
    (df : DataFrame) (cid : string) (f1 : FeatureVector) :
  engineer_features sqrt t1 df cid = Some f1 ->
  exists f2,
    engineer_features sqrt t2 df cid = Some f2
    /\ total_payments f2 = total_payments f1
    /\ std_delay f2 = std_delay f1
    /\ DataProcessor.last_payment_date f2 = DataProcessor.last_payment_date f1.
Proof.
  unfold engineer_features.
  destruct (length (rows_of cid (rows df)) <? 2)%nat; [discriminate|].
  destruct (iloc_last (rows_of cid (rows df))); [|discriminate].
  intro H. inversion H; subst; clear H.
  eexists. split; [reflexivity|]. simpl. repeat split.
Qed.

Lemma confidence_depends_on (f1 f2 : FeatureVector) :
  total_payments f2 = total_payments f1 ->
  std_delay f2 = std_delay f1 ->
  _calculate_confidence f2 = _calculate_confidence f1.
Proof.
  intros Ht Hs. unfold _calculate_confidence. rewrite Ht, Hs. reflexivity.
Qed.

(** C9: the demand-date path is deterministic.  Two calls that read the same
    payment file (hence the same history, demand date and average delay)
    return the same prediction, whatever the clock, the loaded regressor and
    the rest of the world are at each call: when one call returns a result
    computed from a demand date, the other returns that very result. *)
Theorem primary_path_deterministic {Booster : Type} (w1 w2 : World Booster)
    (st1 st1' st2 : Engine Booster) (m1 m2 : XGBRegressor Booster)
    (cid data_path : string) (r : Prediction.PredictionResult) :
  read_csv w2 data_path = read_csv w1 data_path ->
  np_sqrt w2 = np_sqrt w1 ->
  model st1 = Some m1 ->
  model st2 = Some m2 ->
  predict_next_payment_date w1 cid data_path st1 = (inr r, st1') ->
  Prediction.next_demand_date r <> None ->
  predict_next_payment_date w2 cid data_path st2 = (inr r, st2).
Proof.
  intros Hread Hsqrt Hm1 Hm2 H Hprimary.
  unfold predict_next_payment_date in *.
  erewrite bind_inr in H by (eapply ensure_model_loaded; exact Hm1).
  erewrite bind_inr by (eapply ensure_model_loaded; exact Hm2).
  unfold load_data in *. rewrite Hread, Hsqrt.
  destruct (read_csv w1 data_path) as [e|raw]; unfold_monad; [discriminate H|].
  remember (calculate_payment_delays
              (with_rows raw (sort_values_payment_date (rows raw)))) as df.
  destruct (length (rows_of cid (rows df)) <? MIN_HISTORY_RECORDS)%nat;
    [discriminate H|].
  destruct (engineer_features (np_sqrt w1) (clock w1) df cid) as [f1|] eqn:Hf1;
    [|discriminate H].
  destruct (engineer_features_clock _ _ (clock w2) _ _ _ Hf1)
    as [f2 [Hf2 [Ht [Hs Hl]]]].
  rewrite Hf2, (confidence_depends_on _ _ Ht Hs), Hl.
  destruct (if has_scheduled_date df && (0 <? length (rows_of cid (rows df)))%nat
            then match iloc_last (rows_of cid (rows df)) with
                 | Some r0 => scheduled_date r0
                 | None => None
                 end
            else None) as [d|].
  - destruct (next_demand_date_of d) as [e|nd]; [discriminate H|].
    destruct (mean (map delay_days (rows_of cid (rows df)))) as [a|];
      [|discriminate H].
    inversion H; subst. reflexivity.
  - exfalso.
    destruct (model_predict w1 (model st1)
                (reindex (feature_names st1) (numeric_columns f1)));
      [discriminate H|].
    inversion H; subst. apply Hprimary. reflexivity.
Qed.

Lemma primary_path_deterministic_witness :
  predict_next_payment_date Examples.world_later "CUST_0001" DATA_PATH
    Examples.retrained
  = (inr Examples.result_0001, Examples.retrained).
Proof.
  apply (primary_path_deterministic Examples.world Examples.world_later
           Examples.loaded Examples.loaded Examples.retrained
           (Fitted 7%nat) (Fitted 99%nat) "CUST_0001" DATA_PATH
           Examples.result_0001).
  - reflexivity.
  - reflexivity.
  - reflexivity.
  - reflexivity.
  - vm_compute. reflexivity.
  - discriminate.
Defined.

(** Without a demand date the regressor is asked, and its input carries
    [days_since_last_payment]: on the file that has no [scheduled_date]
    column the clock reaches the regressor's input row. *)
Example fallback_path_reads_clock :
  option_map (fun f => lookup_column "days_since_last_payment" (numeric_columns f))
    (engineer_features Examples.approx_sqrt (mkDate 2024 6 1)
       (calculate_payment_delays Examples.history_plain) "CUST_0001")
  <> option_map (fun f => lookup_column "days_since_last_payment" (numeric_columns f))
       (engineer_features Examples.approx_sqrt (mkDate 2024 6 2)
          (calculate_payment_delays Examples.history_plain) "CUST_0001").
Proof. vm_compute. discriminate. Qed.

(* ------------------------------------------------------------------ *)
(** ** Rolling windows                                                   *)
(* ------------------------------------------------------------------ *)

Lemma maxZ_spec (l : list Z) (m : Z) :
  maxZ l = Some m -> In m l /\ (forall x, In x l -> x <= m).
Proof.
  revert m. induction l as [|x t IH]; intros m H; [discriminate|].
  simpl in H. destruct (maxZ t) as [mt|] eqn:E.
  - inversion H; subst; clear H. destruct (IH mt eq_refl) as [Hin Hle].
    split.
    + destruct (Z.max_spec x mt) as [[_ ->]|[_ ->]]; [right; exact Hin|left; reflexivity].
    + intros y [->|Hy]; [lia|]. specialize (Hle y Hy). lia.
  - inversion H; subst; clear H. destruct t as [|y t'].
    + split; [left; reflexivity|]. intros y [->|[]]. lia.
    + simpl in E. destruct (maxZ t'); discriminate.
Qed.

Lemma maxZ_nonempty (l : list Z) : l <> [] -> exists m, maxZ l = Some m.
Proof.
  destruct l as [|x t]; [congruence|]. intros _. simpl.
  destruct (maxZ t); eauto.
Qed.

Lemma window_stats_counts (window_df : list Row) :
  snd (window_stats window_df) = Z.of_nat (length window_df).
Proof.
  unfold window_stats. destruct window_df; reflexivity.
Qed.

(** C8: the rolling features of every produced feature vector are, for each
    window of 7, 14, 30, 60 and 90 days, the statistics of the customer's
    own rows of the slice that are no older than the window, counted back
    from the latest payment date among those same rows (neither the clock
    nor another customer's dates enter); the statistics of a window without
    rows are mean 0 and count 0, not NaN. *)
Theorem rolling_windows_anchored (sqrt : Q -> Q) (now : Timestamp)
    (df : DataFrame) (cid : string) (f : FeatureVector) :
  engineer_features sqrt now df cid = Some f ->
  exists latest : Row,
    In latest (rows_of cid (rows df))
    /\ (forall r, In r (rows_of cid (rows df)) ->
                  toordinal (payment_date r) <= toordinal (payment_date latest))
    /\ rolling f
       = map (fun window =>
                (window,
                 window_stats
                   (filter (fun r => toordinal (payment_date latest) - window
                                     <=? toordinal (payment_date r))
                           (rows_of cid (rows df)))))
             [7; 14; 30; 60; 90]
    /\ (forall window_df, length window_df = 0%nat ->
                          window_stats window_df = (Some 0%Q, 0))
    /\ Forall (fun e => 1 <= snd (snd e)) (rolling f).
Proof.
  unfold engineer_features.
  destruct (length (rows_of cid (rows df)) <? 2)%nat eqn:Hlen; [discriminate|].
  destruct (iloc_last (rows_of cid (rows df))) as [lp|] eqn:Hlast; [|discriminate].
  intro H. inversion H; subst; clear H. simpl rolling.
  set (cust := rows_of cid (rows df)) in *.
  destruct (maxZ_nonempty (ordinals cust)) as [mx Hmx].
  { intro E. apply iloc_last_In in Hlast.
    destruct cust; [contradiction|discriminate E]. }
  destruct (maxZ_spec _ _ Hmx) as [Hin Hle].
  unfold ordinals in Hin. apply in_map_iff in Hin.
  destruct Hin as [latest [Hord Hlatest]].
  assert (Hwin : forall window,
             window_rows cust window
             = filter (fun r => toordinal (payment_date latest) - window
                                <=? toordinal (payment_date r)) cust).
  { intro window. unfold window_rows. rewrite Hmx, Hord. reflexivity. }
  exists latest. split; [exact Hlatest|]. split.
  { intros r Hr. rewrite Hord. apply Hle. unfold ordinals.
    apply in_map_iff. exists r. split; [reflexivity|exact Hr]. }
  split.
  { unfold feature_windows. simpl map. rewrite !Hwin. reflexivity. }
  split.
  { intros window_df H0. unfold window_stats. rewrite H0. reflexivity. }
  unfold feature_windows. simpl map. rewrite !Hwin.
  assert (Hone : forall window, 0 <= window ->
             1 <= snd (window_stats
                         (filter (fun r => toordinal (payment_date latest) - window
                                           <=? toordinal (payment_date r)) cust))).
  { intros window Hw. rewrite window_stats_counts.
    assert (Hmem : In latest
                      (filter (fun r => toordinal (payment_date latest) - window
                                        <=? toordinal (payment_date r)) cust)).
    { apply filter_In. split; [exact Hlatest|]. apply Z.leb_le. lia. }
    destruct (filter _ cust); [contradiction|]. simpl length. lia. }
  repeat constructor; simpl; apply Hone; lia.
Qed.

Lemma rolling_windows_anchored_witness :
  exists latest : Row,
    In latest (rows_of "CUST_0001" (rows Examples.delayed_history))
    /\ (forall r, In r (rows_of "CUST_0001" (rows Examples.delayed_history)) ->
                  toordinal (payment_date r) <= toordinal (payment_date latest))
    /\ rolling Examples.features_0001
       = map (fun window =>
                (window,
                 window_stats
                   (filter (fun r => toordinal (payment_date latest) - window
                                     <=? toordinal (payment_date r))
                           (rows_of "CUST_0001" (rows Examples.delayed_history)))))
             [7; 14; 30; 60; 90]
    /\ (forall window_df, length window_df = 0%nat ->
                          window_stats window_df = (Some 0%Q, 0))
    /\ Forall (fun e => 1 <= snd (snd e)) (rolling Examples.features_0001).
Proof.
  apply (rolling_windows_anchored Examples.approx_sqrt Examples.today
           Examples.delayed_history "CUST_0001").
  vm_compute. reflexivity.
Defined.

(** The windows of CUST_0001 (paid on 2023-11-02, 2023-12-01, 2024-01-02 and
    2024-02-03, with delays 2, 1, 2 and 3), counted back from 2024-02-03. *)
Example rolling_windows_values :
  map (fun e => (fst e, snd (snd e))) (rolling Examples.features_0001)
  = [(7, 1); (14, 1); (30, 1); (60, 2); (90, 3)].
Proof. reflexivity. Qed.

(* ------------------------------------------------------------------ *)
(** ** Delay computation                                                 *)
(* ------------------------------------------------------------------ *)

(** C2 as worded fails on the code.  On a file without the [scheduled_date]
    column the gap is taken to the previous row of the whole table, whoever
    paid it: the first payment of CUST_0002 gets 4 days, not 0.  On a file
    with the column, a row without a scheduled date is left without a
    delay. *)
Lemma computeDelays_claim_fails :
  calculate_payment_delays Examples.history_plain
  <> DelaySpec.computeDelays_spec Examples.history_plain
  /\ map delay_days (rows (calculate_payment_delays Examples.history_plain))
     = [Some 0; Some 4; Some 26; Some 4; Some 26; Some 29]
  /\ map delay_days (rows (DelaySpec.computeDelays_spec Examples.history_plain))
     = [Some 0; Some 0; Some 30; Some 30; Some 30; Some 29]
  /\ calculate_payment_delays Examples.history_gap
     <> DelaySpec.computeDelays_spec Examples.history_gap
  /\ map delay_days (rows (calculate_payment_delays Examples.history_gap))
     = [Some 2; None; Some 3].
Proof.
  split; [intro H; apply (f_equal (fun d => map delay_days (rows d))) in H;
          vm_compute in H; discriminate H|].
  split; [vm_compute; reflexivity|].
  split; [vm_compute; reflexivity|].
  split; [intro H; apply (f_equal (fun d => map delay_days (rows d))) in H;
          vm_compute in H; discriminate H|].
  vm_compute; reflexivity.
Qed.

Lemma gap_rows_nth (l : list Row) :
  forall (prev : option Z) (i : nat) (r : Row),
  nth_error l i = Some r ->
  nth_error
    (map (fun '(r, d) => set_delay r d)
         (combine l (fillna0 (diff_from prev
                                (map (fun r => Some (toordinal (payment_date r))) l)))))
    i
  = Some (set_delay r
            (Some (match match i with
                         | O => prev
                         | S j => option_map (fun p => toordinal (payment_date p))
                                             (nth_error l j)
                         end with
                   | Some p => toordinal (payment_date r) - p
                   | None => 0
                   end))).
Proof.
  induction l as [|x t IH]; intros prev i r Hi.
  - destruct i; discriminate Hi.
  - destruct i as [|j].
    + simpl in Hi. inversion Hi; subst. simpl. destruct prev; reflexivity.
    + simpl in Hi. simpl map. simpl diff_from. simpl fillna0. simpl combine.
      simpl map. simpl nth_error at 1.
      rewrite (IH (Some (toordinal (payment_date x))) j r Hi).
      destruct j; reflexivity.
Qed.

Lemma gap_rows_defined (l : list Row) :
  forall prev : option Z,
  Forall (fun r => delay_days r <> None)
    (map (fun '(r, d) => set_delay r d)
         (combine l (fillna0 (diff_from prev
                                (map (fun r => Some (toordinal (payment_date r))) l))))).
Proof.
  induction l as [|x t IH]; intro prev; simpl; constructor.
  - simpl. destruct prev; discriminate.
  - apply IH.
Qed.

(** C2, amended: [calculate_payment_delays] decides once for the whole table.
    When the table has a [scheduled_date] column, every row gets
    [payment_date - scheduled_date] in days, and a row whose scheduled date
    is missing gets no delay.  When the table has no such column, the first
    row of the table gets 0 and every later row gets the gap in days to the
    row just before it in the table, whichever customer that row belongs to;
    in this case no row is left without a delay. *)
Theorem calculate_payment_delays_table_level (df : DataFrame) :
  length (rows (calculate_payment_delays df)) = length (rows df)
  /\ (has_scheduled_date df = true ->
      forall i r, nth_error (rows df) i = Some r ->
        nth_error (rows (calculate_payment_delays df)) i
        = Some (set_delay r (DelaySpec.scheduled_delay r)))
  /\ (has_scheduled_date df = false ->
      (forall r, nth_error (rows df) 0 = Some r ->
         nth_error (rows (calculate_payment_delays df)) 0
         = Some (set_delay r (Some 0)))
      /\ (forall j p r,
            nth_error (rows df) j = Some p ->
            nth_error (rows df) (S j) = Some r ->
            nth_error (rows (calculate_payment_delays df)) (S j)
            = Some (set_delay r
                      (Some (days_between (payment_date r) (payment_date p)))))
      /\ Forall (fun r => delay_days r <> None)
                (rows (calculate_payment_delays df))).
Proof.
  unfold calculate_payment_delays.
  destruct (has_scheduled_date df) eqn:Hcol; rewrite rows_with_rows.
  - split; [apply length_map|]. split; [|discriminate].
    intros _ i r Hi. rewrite nth_error_map, Hi. simpl.
    unfold DelaySpec.scheduled_delay. destruct (scheduled_date r); reflexivity.
  - split.
    { rewrite length_map, length_combine. unfold fillna0, diff.
      rewrite length_map, diff_from_length, length_map. apply Nat.min_id. }
    split; [discriminate|]. intros _. unfold diff. split; [|split].
    + intros r H0. rewrite (gap_rows_nth _ None 0 r H0). reflexivity.
    + intros j p r Hj HS. rewrite (gap_rows_nth _ None (S j) r HS).
      rewrite Hj. reflexivity.
    + apply gap_rows_defined.
Qed.

Lemma calculate_payment_delays_table_level_witness :
  nth_error (rows (calculate_payment_delays Examples.history_gap)) 1
  = Some (set_delay (mkRow "CUST_0001" (mkDate 2024 2 2) None None None) None)
  /\ nth_error (rows (calculate_payment_delays Examples.history_plain)) 1
     = Some (set_delay (Examples.paid_plain "CUST_0002" (mkDate 2024 1 5))
               (Some (days_between (mkDate 2024 1 5) (mkDate 2024 1 1))))
  /\ Forall (fun r => delay_days r <> None)
            (rows (calculate_payment_delays Examples.history_plain)).
Proof.
  split; [|split].
  - apply (proj1 (proj2 (calculate_payment_delays_table_level
                           Examples.history_gap)) eq_refl 1%nat
             (mkRow "CUST_0001" (mkDate 2024 2 2) None None None) eq_refl).
  - apply (proj1 (proj2 (proj2 (proj2 (calculate_payment_delays_table_level
                                         Examples.history_plain)) eq_refl))
             0%nat (Examples.paid_plain "CUST_0001" (mkDate 2024 1 1))
             (Examples.paid_plain "CUST_0002" (mkDate 2024 1 5))
             eq_refl eq_refl).
  - apply (proj2 (proj2 (proj2 (proj2 (calculate_payment_delays_table_level
                                         Examples.history_plain)) eq_refl))).
Defined.

(* ------------------------------------------------------------------ *)
(** ** The training table                                                *)
(* ------------------------------------------------------------------ *)

(** C3 as worded fails on the code: the features are engineered from the
    rows before the target row, so the feature prefixes start at 2 records
    (not 3) and never cover the whole history.  On the example file the
    engineered rows count 2, 2 and 3 payments where the claim's prefixes
    hold 3, 3 and 4. *)
Lemma buildTrainingTable_claim_fails :
  map Some (fst (training_lists Examples.approx_sqrt Examples.today
                   Examples.delayed_history))
  <> map fst (TrainingSpec.buildTrainingTable_spec Examples.approx_sqrt
                Examples.today Examples.delayed_history)
  /\ map total_payments
         (fst (training_lists Examples.approx_sqrt Examples.today
                 Examples.delayed_history))
     = [2; 2; 3]
  /\ map (fun e => option_map total_payments (fst e))
         (TrainingSpec.buildTrainingTable_spec Examples.approx_sqrt
            Examples.today Examples.delayed_history)
     = [Some 3; Some 3; Some 4].
Proof.
  split; [|split; vm_compute; reflexivity].
  intro H. apply (f_equal (map (option_map total_payments))) in H.
  vm_compute in H. discriminate H.
Qed.

Lemma filter_all {A : Type} (p : A -> bool) (l : list A) :
  Forall (fun x => p x = true) l -> filter p l = l.
Proof.
  induction 1 as [|x t Hx _ IH]; simpl; [reflexivity|].
  rewrite Hx, IH. reflexivity.
Qed.

Lemma rows_of_firstn (cid : string) (k : nat) (l : list Row) :
  rows_of cid (firstn k (rows_of cid l)) = firstn k (rows_of cid l).
Proof.
  apply filter_all. apply Forall_forall. intros r Hr.
  assert (Hin : In r (rows_of cid l)).
  { rewrite <- (firstn_skipn k (rows_of cid l)). apply in_or_app. left. exact Hr. }
  apply filter_In in Hin. exact (proj2 Hin).
Qed.

Lemma firstn_snoc {A : Type} (l : list A) :
  forall (j : nat) (x : A),
  nth_error l j = Some x -> firstn (S j) l = firstn j l ++ [x].
Proof.
  induction l as [|y t IH]; intros [|j] x H; try discriminate H.
  - simpl in H. inversion H. reflexivity.
  - simpl in H. change (y :: firstn (S j) t = (y :: firstn j t) ++ [x]).
    rewrite (IH j x H). reflexivity.
Qed.

Lemma iloc_last_snoc {A : Type} (l : list A) (x : A) :
  iloc_last (l ++ [x]) = Some x.
Proof. unfold iloc_last. rewrite rev_unit. reflexivity. Qed.

Lemma iloc_last_firstn {A : Type} (l : list A) (j : nat) (x : A) :
  nth_error l j = Some x -> iloc_last (firstn (S j) l) = Some x.
Proof. intro H. rewrite (firstn_snoc l j x H). apply iloc_last_snoc. Qed.

Lemma nth_error_in_range {A : Type} (l : list A) (i : nat) :
  (i < length l)%nat -> exists x, nth_error l i = Some x.
Proof.
  intro H. destruct (nth_error l i) eqn:E; [eauto|].
  apply nth_error_None in E. lia.
Qed.

Section TrainingFacts.

Variable sqrt : Q -> Q.
Variable now : Timestamp.
Variable df : DataFrame.

Lemma prefix_features_exist (cid : string) (i : nat) :
  (2 <= i <= length (rows_of cid (rows df)))%nat ->
  exists f, TrainingSpec.prefix_features sqrt now df cid i = Some f.
Proof.
  intro Hi. unfold TrainingSpec.prefix_features.
  destruct i as [|j]; [lia|].
  destruct (nth_error_in_range (rows_of cid (rows df)) j) as [x Hx]; [lia|].
  destruct (engineer_features_exists sqrt now
              (with_rows df (firstn (S j) (rows_of cid (rows df)))) cid x)
    as [f [Hf _]].
  - rewrite rows_with_rows, rows_of_firstn, length_firstn. lia.
  - rewrite rows_with_rows, rows_of_firstn. apply iloc_last_firstn. exact Hx.
  - eauto.
Qed.

Lemma training_step_spec (cid : string) (X : list FeatureVector) (y : list Z)
    (i : nat) :
  (2 <= i < length (rows_of cid (rows df)))%nat ->
  exists f,
    TrainingSpec.prefix_features sqrt now df cid i = Some f
    /\ training_step sqrt now df cid (rows_of cid (rows df)) (X, y) i
       = (X ++ [f], y ++ [TrainingSpec.loop_target (rows_of cid (rows df)) i]).
Proof.
  intro Hi. set (c := rows_of cid (rows df)) in *.
  destruct (prefix_features_exist cid i) as [f Hf]; [fold c; lia|].
  exists f. split; [exact Hf|].
  destruct (nth_error_in_range c i) as [target Ht]; [lia|].
  unfold training_step. fold c.
  unfold TrainingSpec.prefix_features in Hf. fold c in Hf.
  rewrite Ht, Hf. unfold TrainingSpec.loop_target, TrainingSpec.gap.
  destruct (i <? length c - 1)%nat eqn:Hlt.
  - apply Nat.ltb_lt in Hlt.
    destruct (nth_error_in_range c (i + 1)) as [next Hn]; [lia|].
    rewrite Hn, Ht. reflexivity.
  - destruct i as [|j]; [lia|].
    destruct (nth_error_in_range c j) as [prev Hp]; [lia|].
    rewrite (iloc_last_firstn c j prev Hp).
    replace (S j - 1)%nat with j by lia. rewrite Ht, Hp. reflexivity.
Qed.

Lemma training_steps_spec (cid : string) (idxs : list nat) :
  forall (X : list FeatureVector) (y : list Z),
  Forall (fun i => 2 <= i < length (rows_of cid (rows df)))%nat idxs ->
  exists Xs,
    fold_left (training_step sqrt now df cid (rows_of cid (rows df))) idxs (X, y)
    = (X ++ Xs, y ++ map (TrainingSpec.loop_target (rows_of cid (rows df))) idxs)
    /\ map Some Xs = map (TrainingSpec.prefix_features sqrt now df cid) idxs.
Proof.
  induction idxs as [|i rest IH]; intros X y Hall.
  - exists []. simpl. rewrite !app_nil_r. split; reflexivity.
  - inversion Hall as [|? ? Hi Hrest]; subst.
    destruct (training_step_spec cid X y i Hi) as [f [Hf Hstep]].
    destruct (IH (X ++ [f]) (y ++ [TrainingSpec.loop_target (rows_of cid (rows df)) i]) Hrest)
      as [Xs [Hfold Hmap]].
    exists (f :: Xs). cbn [fold_left]. rewrite Hstep, Hfold.
    rewrite <- !app_assoc. simpl. rewrite Hf, Hmap. split; reflexivity.
Qed.

Lemma training_customer_spec (cid : string) (X : list FeatureVector)
    (y : list Z) :
  exists Xs,
    training_customer sqrt now df (X, y) cid
    = (X ++ Xs, y ++ map snd (TrainingSpec.examples_of sqrt now df cid))
    /\ map Some Xs = map fst (TrainingSpec.examples_of sqrt now df cid).
Proof.
  unfold training_customer, TrainingSpec.examples_of.
  destruct (length (rows_of cid (rows df)) <? 3)%nat eqn:Hn.
  - exists []. simpl. rewrite !app_nil_r. split; reflexivity.
  - apply Nat.ltb_ge in Hn.
    destruct (training_steps_spec cid
                (seq 2 (length (rows_of cid (rows df)) - 2)) X y)
      as [Xs [Hfold Hmap]].
    { apply Forall_forall. intros i Hi. apply in_seq in Hi. lia. }
    exists Xs. rewrite Hfold, !map_map. simpl. split; [reflexivity|exact Hmap].
Qed.

Lemma training_customers_spec (cids : list string) :
  forall (X : list FeatureVector) (y : list Z),
  exists Xs,
    fold_left (training_customer sqrt now df) cids (X, y)
    = (X ++ Xs,
       y ++ map snd (flat_map (TrainingSpec.examples_of sqrt now df) cids))
    /\ map Some Xs
       = map fst (flat_map (TrainingSpec.examples_of sqrt now df) cids).
Proof.
  induction cids as [|cid rest IH]; intros X y.
  - exists []. simpl. rewrite !app_nil_r. split; reflexivity.
  - destruct (training_customer_spec cid X y) as [X1 [H1 M1]].
    destruct (IH (X ++ X1)
                 (y ++ map snd (TrainingSpec.examples_of sqrt now df cid)))
      as [X2 [H2 M2]].
    exists (X1 ++ X2). cbn [fold_left flat_map]. rewrite H1, H2. rewrite !map_app, <- !app_assoc, M1, M2.
    split; reflexivity.
Qed.

Lemma unique_from_In (l : list string) :
  forall (seen : list string) (x : string),
  In x (unique_from seen l) <-> In x l /\ ~ In x seen.
Proof.
  induction l as [|a t IH]; intros seen x; simpl.
  - tauto.
  - destruct (existsb (String.eqb a) seen) eqn:E.
    + apply existsb_exists in E. destruct E as [b [Hb Hab]].
      apply String.eqb_eq in Hab. subst b.
      rewrite IH. split.
      * tauto.
      * intros [[->|H] Hn]; [contradiction|tauto].
    + assert (Ha : ~ In a seen).
      { intro Hin. assert (existsb (String.eqb a) seen = true).
        { apply existsb_exists. exists a. split; [exact Hin|apply String.eqb_refl]. }
        congruence. }
      simpl. rewrite IH. simpl. split.
      * intros [->|[H Hn]]; [tauto|]. split; [tauto|]. intro; apply Hn; tauto.
      * intros [[->|H] Hn]; [tauto|].
        destruct (String.eqb_spec a x) as [->|Hne]; [tauto|].
        right. split; [exact H|]. intros [H'|H']; [contradiction|tauto].
Qed.

Lemma unique_In (l : list string) (x : string) : In x (unique l) <-> In x l.
Proof. unfold unique. rewrite unique_from_In. simpl. tauto. Qed.

Lemma examples_of_nil (cid : string) :
  TrainingSpec.examples_of sqrt now df cid = []
  <-> (length (rows_of cid (rows df)) < 3)%nat.
Proof.
  unfold TrainingSpec.examples_of.
  destruct (length (rows_of cid (rows df)) <? 3)%nat eqn:Hn.
  - apply Nat.ltb_lt in Hn. tauto.
  - apply Nat.ltb_ge in Hn. split; [|lia].
    intro H. apply (f_equal (@length _)) in H.
    rewrite length_map, length_seq in H. simpl in H. lia.
Qed.

Lemma flat_map_nil {A B : Type} (g : A -> list B) (l : list A) :
  flat_map g l = [] <-> forall x, In x l -> g x = [].
Proof.
  induction l as [|a t IH]; simpl.
  - split; [intros _ x []|reflexivity].
  - split.
    + intros H x [->|Hx]; apply app_eq_nil in H; [tauto|].
      apply IH; tauto.
    + intro H. rewrite (H a (or_introl eq_refl)). simpl.
      apply IH. intros x Hx. apply H. right. exact Hx.
Qed.

Lemma training_examples_nil :
  TrainingSpec.training_examples sqrt now df = []
  <-> forall cid, (length (rows_of cid (rows df)) < 3)%nat.
Proof.
  unfold TrainingSpec.training_examples. rewrite flat_map_nil. split.
  - intros H cid.
    destruct (in_dec string_dec cid (map customer_id (rows df))) as [Hin|Hout].
    + apply examples_of_nil. apply H. apply unique_In. exact Hin.
    + assert (Hnil : rows_of cid (rows df) = []).
      { destruct (rows_of cid (rows df)) as [|r t] eqn:E; [reflexivity|].
        exfalso. apply Hout.
        assert (Hr : In r (rows_of cid (rows df))) by (rewrite E; left; reflexivity).
        apply filter_In in Hr. destruct Hr as [Hr Heq].
        apply String.eqb_eq in Heq. subst cid.
        apply in_map. exact Hr. }
      rewrite Hnil. simpl. lia.
  - intros H cid _. apply examples_of_nil. apply H.
Qed.

End TrainingFacts.

(** C3, amended: [prepare_training_data] produces examples only for customers
    with at least 3 records.  For such a customer with n records it produces
    one example for each i = 2, ..., n-1: the feature vector is engineered
    from the customer's first i records (so the feature prefixes have 2 to
    n-1 records and stop before record i, counting from 0), and the target
    is the number of days from record i to record i+1, except for the last
    example (i = n-1), whose target is the gap from record n-2 to record
    n-1.  It returns (None, None) exactly when no customer has 3 records. *)
Theorem training_table_by_prefix (sqrt : Q -> Q) (now : Timestamp)
    (df : DataFrame) :
  map Some (fst (training_lists sqrt now df))
  = map fst (TrainingSpec.training_examples sqrt now df)
  /\ snd (training_lists sqrt now df)
     = map snd (TrainingSpec.training_examples sqrt now df)
  /\ (prepare_training_data sqrt now df = None
      <-> forall cid, (length (rows_of cid (rows df)) < 3)%nat)
  /\ (forall X y, prepare_training_data sqrt now df = Some (X, y) ->
        X = map numeric_columns (fst (training_lists sqrt now df))
        /\ y = snd (training_lists sqrt now df)).
Proof.
  assert (H : exists Xs,
             training_lists sqrt now df
             = (Xs, map snd (TrainingSpec.training_examples sqrt now df))
             /\ map Some Xs
                = map fst (TrainingSpec.training_examples sqrt now df)).
  { destruct (training_customers_spec sqrt now df
                (unique (map customer_id (rows df))) [] [])
      as [Xs [Hfold Hmap]].
    exists Xs. split; [exact Hfold|exact Hmap]. }
  destruct H as [Xs [Hfold Hmap]].
  pose proof (training_examples_nil sqrt now df) as Hnil.
  remember (TrainingSpec.training_examples sqrt now df) as ex eqn:Eex.
  unfold prepare_training_data. rewrite Hfold. simpl fst. simpl snd.
  split; [exact Hmap|]. split; [reflexivity|]. split.
  - rewrite <- Hnil.
    destruct Xs as [|f Xs'].
    + simpl. split; [intros _|reflexivity].
      destruct ex; [reflexivity|discriminate Hmap].
    + simpl. split; [discriminate|].
      intro H. rewrite H in Hmap. discriminate Hmap.
  - intros X y H. destruct (length Xs =? 0)%nat; [discriminate|].
    inversion H. split; reflexivity.
Qed.

Lemma training_table_by_prefix_witness :
  prepare_training_data Examples.approx_sqrt Examples.today
    (calculate_payment_delays Examples.short_history) = None
  /\ map total_payments
         (fst (training_lists Examples.approx_sqrt Examples.today
                 Examples.delayed_history)) = [2; 2; 3]
  /\ snd (training_lists Examples.approx_sqrt Examples.today
            Examples.delayed_history) = [30; 32; 32].
Proof.
  split; [|split; vm_compute; reflexivity].
  apply (proj2 (proj1 (proj2 (proj2
           (training_table_by_prefix Examples.approx_sqrt Examples.today
              (calculate_payment_delays Examples.short_history)))))).
  intro cid. rewrite rows_of_delays_length. unfold rows_of.
  eapply Nat.le_lt_trans; [apply filter_length_le|].
  simpl. lia.
Defined.

(* ------------------------------------------------------------------ *)
(** ** What a failed training leaves behind                              *)
(* ------------------------------------------------------------------ *)

(** C7 as worded fails on the code: [self.model] is rebound before the fit
    and [self.feature_names] before the artifact is written.  When the
    artifact cannot be written, training fails and the engine holds the new
    model and schema; when the fit fails, the engine holds an unfitted
    regressor in place of the model it had loaded. *)
Lemma failed_train_replaces_model :
  fst (train_model Examples.world_read_only DATA_PATH Examples.loaded)
  = inl (LibraryError "PermissionError")
  /\ model (snd (train_model Examples.world_read_only DATA_PATH Examples.loaded))
     = Some (Fitted 1%nat)
  /\ snd (train_model Examples.world_read_only DATA_PATH Examples.loaded)
     <> Examples.loaded
  /\ fst (train_model Examples.world_fit_fails DATA_PATH Examples.loaded)
     = inl (LibraryError "XGBoostError")
  /\ snd (train_model Examples.world_fit_fails DATA_PATH Examples.loaded)
     = mkEngine (Some Unfitted) (feature_names Examples.loaded)
  /\ snd (train_model Examples.world_fit_fails DATA_PATH Examples.loaded)
     <> Examples.loaded.
Proof.
  split; [vm_compute; reflexivity|].
  split; [vm_compute; reflexivity|].
  split; [intro H; apply (f_equal model) in H; vm_compute in H; discriminate H|].
  split; [vm_compute; reflexivity|].
  split; [vm_compute; reflexivity|].
  intro H; apply (f_equal model) in H; vm_compute in H; discriminate H.
Qed.

(** C7, amended: a [train_model] call that fails before the new regressor is
    constructed (loading the data, computing delays, building the training
    table, the insufficient-data check, the split) leaves the engine's model
    and feature schema unchanged.  A call that fails in the fit leaves the
    new, unfitted regressor as the model and keeps the old schema; a call
    that fails later (evaluation, writing the artifact) leaves the newly
    fitted model and its columns. *)
Theorem failed_train_state {Booster : Type} (w : World Booster)
    (data_path : string) (st st' : Engine Booster) (e : exn) :
  train_model w data_path st = (inl e, st') ->
  match TrainSpec.training_input w data_path with
  | inl e0 => e = e0 /\ st' = st
  | inr (X, (X_train, y_train)) =>
      match xgb_fit w X_train y_train with
      | inl e1 => e = e1 /\ st' = mkEngine (Some Unfitted) (feature_names st)
      | inr b => st' = mkEngine (Some (Fitted b)) (Some (columns X))
      end
  end.
Proof.
  unfold train_model, TrainSpec.training_input. unfold_monad.
  destruct (load_data w data_path) as [e0|df];
    [intro H; inversion H; split; reflexivity|].
  destruct (prepare_training_data (np_sqrt w) (clock w)
              (calculate_payment_delays df)) as [[X y]|];
    [|intro H; inversion H; split; reflexivity].
  destruct (length X =? 0)%nat;
    [intro H; inversion H; split; reflexivity|].
  destruct (train_test_split w X y) as [e0|[[X_train X_test] [y_train y_test]]];
    [intro H; inversion H; split; reflexivity|].
  simpl.
  destruct (xgb_fit w X_train y_train) as [e1|b];
    [intro H; inversion H; split; reflexivity|].
  simpl.
  repeat match goal with
         | |- context [match ?x with inl _ => _ | inr _ => _ end] =>
             destruct x; simpl
         end;
    intro H; inversion H; reflexivity.
Qed.

Lemma failed_train_state_witness :
  match TrainSpec.training_input Examples.world_read_only DATA_PATH with
  | inl e0 => LibraryError "PermissionError" = e0
              /\ snd (train_model Examples.world_read_only DATA_PATH
                        Examples.loaded) = Examples.loaded
  | inr (X, (X_train, y_train)) =>
      match xgb_fit Examples.world_read_only X_train y_train with
      | inl e1 => LibraryError "PermissionError" = e1
                  /\ snd (train_model Examples.world_read_only DATA_PATH
                            Examples.loaded)
                     = mkEngine (Some Unfitted) (feature_names Examples.loaded)
      | inr b => snd (train_model Examples.world_read_only DATA_PATH
                        Examples.loaded)
                 = mkEngine (Some (Fitted b)) (Some (columns X))
      end
  end.
Proof.
  apply (failed_train_state Examples.world_read_only DATA_PATH Examples.loaded
           (snd (train_model Examples.world_read_only DATA_PATH Examples.loaded))
           (LibraryError "PermissionError")).
  vm_compute. reflexivity.
Defined.

(** A file in which no customer has three records: the failure comes before
    the regressor is constructed and the loaded model stays. *)
Example failed_train_keeps_model :
  train_model
    (Examples.world_with Examples.short_history true (inr 1%nat) (inr tt)
       Examples.today)
    DATA_PATH Examples.loaded
  = (inl (ValueError "Insufficient data for training"), Examples.loaded).
Proof. vm_compute. reflexivity. Qed.

(* ================================================================== *)
(** * Further properties of the data processor                          *)
(* ================================================================== *)

(* ------------------------------------------------------------------ *)
(** ** Loading: order and content                                        *)
(* ------------------------------------------------------------------ *)

Lemma insert_by_date_perm (r : Row) (l : list Row) :
  Permutation (r :: l) (insert_by_date r l).
Proof.
  induction l as [|x t IH]; simpl; [apply Permutation_refl|].
  destruct (toordinal (payment_date x) <=? toordinal (payment_date r)).
  - eapply perm_trans; [apply perm_swap|]. apply perm_skip. exact IH.
  - apply Permutation_refl.
Qed.

Lemma sort_values_perm_acc (l acc : list Row) :
  Permutation (l ++ acc) (fold_left (fun a r => insert_by_date r a) l acc).
Proof.
  revert acc. induction l as [|x t IH]; intro acc; simpl.
  - apply Permutation_refl.
  - eapply perm_trans; [|apply IH].
    eapply perm_trans; [apply Permutation_middle|].
    apply Permutation_app_head. apply insert_by_date_perm.
Qed.

Lemma sort_values_perm (l : list Row) :
  Permutation l (sort_values_payment_date l).
Proof.
  unfold sort_values_payment_date.
  pose proof (sort_values_perm_acc l []) as H.
  rewrite app_nil_r in H. exact H.
Qed.

Lemma ordinals_insert_In (r : Row) (l : list Row) (z : Z) :
  In z (ordinals (insert_by_date r l)) ->
  z = toordinal (payment_date r) \/ In z (ordinals l).
Proof.
  intro H. unfold ordinals in *.
  apply in_map_iff in H. destruct H as [x [Hx Hin]].
  apply (Permutation_in _ (Permutation_sym (insert_by_date_perm r l))) in Hin.
  destruct Hin as [->|Hin]; [left; auto|right].
  apply in_map_iff. exists x. auto.
Qed.

Lemma insert_by_date_sorted (r : Row) (l : list Row) :
  TableSpec.by_date l -> TableSpec.by_date (insert_by_date r l).
Proof.
  unfold TableSpec.by_date.
  induction l as [|x t IH]; intro Hs; simpl.
  - repeat constructor.
  - inversion Hs as [|? ? Hst Hall]; subst.
    destruct (Z.leb_spec (toordinal (payment_date x))
                         (toordinal (payment_date r))) as [Hle|Hgt].
    + simpl. constructor; [apply IH; exact Hst|].
      apply Forall_forall. intros z Hz.
      apply ordinals_insert_In in Hz. destruct Hz as [->|Hz]; [exact Hle|].
      rewrite Forall_forall in Hall. apply Hall. exact Hz.
    + simpl. constructor; [exact Hs|].
      constructor; [lia|].
      apply Forall_forall. intros z Hz.
      rewrite Forall_forall in Hall. specialize (Hall z Hz). lia.
Qed.

Lemma sort_values_sorted_acc (l acc : list Row) :
  TableSpec.by_date acc ->
  TableSpec.by_date (fold_left (fun a r => insert_by_date r a) l acc).
Proof.
  revert acc. induction l as [|x t IH]; intros acc Hs; simpl; [exact Hs|].
  apply IH. apply insert_by_date_sorted. exact Hs.
Qed.

Lemma sort_values_sorted (l : list Row) :
  TableSpec.by_date (sort_values_payment_date l).
Proof.
  apply sort_values_sorted_acc. constructor.
Qed.

(** X1: [load_data] returns the rows of the file, all of them and no other,
    in ascending order of payment date, and keeps the frame's columns; a
    failure of the read is passed on unchanged. *)
Theorem load_data_sorted_permutation {Booster : Type} (w : World Booster)
    (file_path : string) :
  match read_csv w file_path with
  | inl e => load_data w file_path = inl e
  | inr raw =>
      exists df,
        load_data w file_path = inr df
        /\ Permutation (rows raw) (rows df)
        /\ TableSpec.by_date (rows df)
        /\ has_scheduled_date df = has_scheduled_date raw
        /\ has_amount df = has_amount raw
  end.
Proof.
  unfold load_data. destruct (read_csv w file_path) as [e|raw]; [reflexivity|].
  eexists. split; [reflexivity|]. rewrite rows_with_rows.
  split; [apply sort_values_perm|]. split; [apply sort_values_sorted|].
  split; reflexivity.
Qed.

(** The example file comes back ordered by date. *)
Example load_data_orders_history :
  option_map (fun df => map (fun r => payment_date r) (rows df))
    (match load_data Examples.world DATA_PATH with
     | inr df => Some df
     | inl _ => None
     end)
  = Some [ mkDate 2022 12 28; mkDate 2023 1 30; mkDate 2023 3 1;
           mkDate 2023 11 2; mkDate 2023 12 1; mkDate 2024 1 2;
           mkDate 2024 1 9; mkDate 2024 2 3; mkDate 2024 2 6 ].
Proof. vm_compute. reflexivity. Qed.

(* ------------------------------------------------------------------ *)
(** ** Delay computation: what it keeps                                  *)
(* ------------------------------------------------------------------ *)

Lemma gap_rows_cons (prev : option Z) (x : Row) (t : list Row) :
  map (fun '(r, d) => set_delay r d)
      (combine (x :: t)
         (fillna0 (diff_from prev
                     (map (fun r => Some (toordinal (payment_date r))) (x :: t)))))
  = set_delay x (Some (match prev with
                       | Some p => toordinal (payment_date x) - p
                       | None => 0
                       end))
    :: map (fun '(r, d) => set_delay r d)
         (combine t
            (fillna0 (diff_from (Some (toordinal (payment_date x)))
                        (map (fun r => Some (toordinal (payment_date r))) t)))).
Proof. simpl. destruct prev; reflexivity. Qed.

Lemma gap_rows_without_delay (l : list Row) :
  forall prev : option Z,
  map TableSpec.without_delay
      (map (fun '(r, d) => set_delay r d)
         (combine l (fillna0 (diff_from prev
                                (map (fun r => Some (toordinal (payment_date r))) l)))))
  = map TableSpec.without_delay l.
Proof.
  induction l as [|x t IH]; intro prev; [reflexivity|].
  rewrite gap_rows_cons. simpl map at 1. rewrite IH. reflexivity.
Qed.


Lemma delays_keep_rows (df : DataFrame) :
  map TableSpec.without_delay (rows (calculate_payment_delays df))
  = map TableSpec.without_delay (rows df).
Proof.
  unfold calculate_payment_delays.
  destruct (has_scheduled_date df); rewrite rows_with_rows.
  - rewrite map_map. apply map_ext. intro r. reflexivity.
  - apply gap_rows_without_delay.
Qed.



(* ------------------------------------------------------------------ *)
(** ** Delay computation on a loaded file without demand dates           *)
(* ------------------------------------------------------------------ *)

Lemma gap_rows_nonneg (l : list Row) :
  forall prev : option Z,
  TableSpec.by_date l ->
  (forall p, prev = Some p -> Forall (fun z => p <= z) (ordinals l)) ->
  Forall TableSpec.delay_nonneg
    (map (fun '(r, d) => set_delay r d)
       (combine l (fillna0 (diff_from prev
                              (map (fun r => Some (toordinal (payment_date r))) l))))).
Proof.
  unfold TableSpec.by_date.
  induction l as [|x t IH]; intros prev Hs Hp; [constructor|].
  rewrite gap_rows_cons. inversion Hs as [|? ? Hst Hall]; subst.
  constructor.
  - eexists. split; [reflexivity|]. destruct prev as [p|]; [|lia].
    specialize (Hp p eq_refl). inversion Hp; subst. lia.
  - apply IH; [exact Hst|]. intros p Hp'. inversion Hp'; subst. exact Hall.
Qed.

(** X3: on a file without the [scheduled_date] column, the delays computed
    after [load_data] are all present and none is negative (each is a gap
    between two successive payment dates of the date-ordered table). *)
Theorem loaded_gaps_nonnegative {Booster : Type} (w : World Booster)
    (file_path : string) (df : DataFrame) :
  load_data w file_path = inr df ->
  has_scheduled_date df = false ->
  Forall TableSpec.delay_nonneg (rows (calculate_payment_delays df)).
Proof.
  intros Hload Hcol.
  assert (Hs : TableSpec.by_date (rows df)).
  { unfold load_data in Hload. destruct (read_csv w file_path); [discriminate|].
    inversion Hload; subst. rewrite rows_with_rows. apply sort_values_sorted. }
  unfold calculate_payment_delays. rewrite Hcol, rows_with_rows.
  apply gap_rows_nonneg; [exact Hs|discriminate].
Qed.

Lemma loaded_gaps_nonnegative_witness :
  Forall TableSpec.delay_nonneg
    (rows (calculate_payment_delays
             (with_rows Examples.history_plain
                (sort_values_payment_date (rows Examples.history_plain))))).
Proof.
  apply (loaded_gaps_nonnegative Examples.world_plain DATA_PATH).
  - reflexivity.
  - reflexivity.
Defined.

(** With demand dates the delay is signed: a payment two days early. *)
Example scheduled_delay_can_be_negative :
  map delay_days
    (rows (calculate_payment_delays
             (mkFrame true false
                [ mkRow "CUST_0001" (mkDate 2024 1 3) (Some (mkDate 2024 1 5))
                        None None ])))
  = [Some (-2)].
Proof. vm_compute. reflexivity. Qed.

(* ------------------------------------------------------------------ *)
(** ** Feature engineering: when it answers, and what its numbers obey   *)
(* ------------------------------------------------------------------ *)

(** X4: [engineer_features] returns no vector exactly when the customer has
    fewer than 2 rows in the frame (an unknown customer included); otherwise
    it returns a vector whose [total_payments] is the number of those rows. *)
Theorem engineer_features_threshold (sqrt : Q -> Q) (now : Timestamp)
    (df : DataFrame) (cid : string) :
  match engineer_features sqrt now df cid with
  | None => (length (rows_of cid (rows df)) < 2)%nat
  | Some f =>
      (2 <= length (rows_of cid (rows df)))%nat
      /\ total_payments f = Z.of_nat (length (rows_of cid (rows df)))
  end.
Proof.
  unfold engineer_features.
  destruct (Nat.ltb_spec (length (rows_of cid (rows df))) 2) as [Hlt|Hge];
    [exact Hlt|].
  destruct (iloc_last_nonempty (rows_of cid (rows df))) as [x Hx]; [lia|].
  rewrite Hx. split; [exact Hge|reflexivity].
Qed.

Lemma filter_length_mono {A : Type} (p q : A -> bool) (l : list A) :
  (forall x, p x = true -> q x = true) ->
  (length (filter p l) <= length (filter q l))%nat.
Proof.
  intro H. induction l as [|x t IH]; simpl; [lia|].
  destruct (p x) eqn:Hp.
  - rewrite (H x Hp). simpl. lia.
  - destruct (q x); simpl; lia.
Qed.

Lemma window_rows_mono (c : list Row) (w1 w2 : Z) :
  w1 <= w2 ->
  (length (window_rows c w1) <= length (window_rows c w2))%nat.
Proof.
  intro Hw. unfold window_rows. destruct (maxZ (ordinals c)); [|simpl; lia].
  apply filter_length_mono. intros x Hx.
  apply Z.leb_le in Hx. apply Z.leb_le. lia.
Qed.

Lemma window_rows_bounded (c : list Row) (w : Z) :
  (length (window_rows c w) <= length c)%nat.
Proof.
  unfold window_rows. destruct (maxZ (ordinals c)); [|simpl; lia].
  apply filter_length_le.
Qed.

Lemma window_rows_nonempty (c : list Row) (w : Z) :
  c <> [] -> 0 <= w -> (1 <= length (window_rows c w))%nat.
Proof.
  intros Hc Hw. unfold window_rows.
  destruct (maxZ_nonempty (ordinals c)) as [mx Hmx].
  { destruct c; [congruence|discriminate]. }
  rewrite Hmx. destruct (maxZ_spec _ _ Hmx) as [Hin _].
  unfold ordinals in Hin. apply in_map_iff in Hin.
  destruct Hin as [r [Hr Hrin]].
  assert (Hmem : In r (filter (fun r0 => mx - w <=? toordinal (payment_date r0)) c)).
  { apply filter_In. split; [exact Hrin|]. apply Z.leb_le. lia. }
  destruct (filter _ c); [contradiction|simpl; lia].
Qed.

(** X5: in every engineered vector the five payment counts grow with the
    window and stay within the history:
    1 <= count_7d <= count_14d <= count_30d <= count_60d <= count_90d
    <= total_payments. *)
Theorem rolling_counts_nested (sqrt : Q -> Q) (now : Timestamp)
    (df : DataFrame) (cid : string) (f : FeatureVector) :
  engineer_features sqrt now df cid = Some f ->
  exists m7 c7 m14 c14 m30 c30 m60 c60 m90 c90,
    rolling f = [ (7, (m7, c7)); (14, (m14, c14)); (30, (m30, c30));
                  (60, (m60, c60)); (90, (m90, c90)) ]
    /\ 1 <= c7 /\ c7 <= c14 /\ c14 <= c30 /\ c30 <= c60 /\ c60 <= c90
    /\ c90 <= total_payments f.
Proof.
  unfold engineer_features.
  destruct (Nat.ltb_spec (length (rows_of cid (rows df))) 2) as [Hlt|Hge];
    [discriminate|].
  destruct (iloc_last (rows_of cid (rows df))); [|discriminate].
  intro H. inversion H; subst; clear H. simpl rolling. simpl total_payments.
  set (c := rows_of cid (rows df)) in *.
  assert (Hc : c <> []) by (destruct c; [simpl in Hge; lia|discriminate]).
  unfold feature_windows. simpl map.
  do 10 eexists. split.
  { repeat (f_equal; try apply surjective_pairing). }
  rewrite !window_stats_counts.
  pose proof (window_rows_nonempty c 7 Hc ltac:(lia)).
  pose proof (window_rows_mono c 7 14 ltac:(lia)).
  pose proof (window_rows_mono c 14 30 ltac:(lia)).
  pose proof (window_rows_mono c 30 60 ltac:(lia)).
  pose proof (window_rows_mono c 60 90 ltac:(lia)).
  pose proof (window_rows_bounded c 90).
  lia.
Qed.

Lemma rolling_counts_nested_witness :
  exists m7 c7 m14 c14 m30 c30 m60 c60 m90 c90,
    rolling Examples.features_0001
    = [ (7, (m7, c7)); (14, (m14, c14)); (30, (m30, c30));
        (60, (m60, c60)); (90, (m90, c90)) ]
    /\ 1 <= c7 /\ c7 <= c14 /\ c14 <= c30 /\ c30 <= c60 /\ c60 <= c90
    /\ c90 <= total_payments Examples.features_0001.
Proof.
  apply (rolling_counts_nested Examples.approx_sqrt Examples.today
           Examples.delayed_history "CUST_0001").
  vm_compute. reflexivity.
Defined.

(* ------------------------------------------------------------------ *)
(** ** Feature engineering: the delay statistics                         *)
(* ------------------------------------------------------------------ *)

Lemma minZ_spec (l : list Z) (m : Z) :
  minZ l = Some m -> In m l /\ (forall x, In x l -> m <= x).
Proof.
  revert m. induction l as [|x t IH]; intros m H; [discriminate|].
  simpl in H. destruct (minZ t) as [mt|] eqn:E.
  - inversion H; subst; clear H. destruct (IH mt eq_refl) as [Hin Hle].
    split.
    + destruct (Z.min_spec x mt) as [[_ ->]|[_ ->]];
        [left; reflexivity|right; exact Hin].
    + intros y [->|Hy]; [lia|]. specialize (Hle y Hy). lia.
  - inversion H; subst; clear H. destruct t as [|y t'].
    + split; [left; reflexivity|]. intros y [->|[]]. lia.
    + simpl in E. destruct (minZ t'); discriminate.
Qed.

Lemma minZ_nonempty (l : list Z) : l <> [] -> exists m, minZ l = Some m.
Proof.
  destruct l as [|x t]; [congruence|]. intros _. simpl.
  destruct (minZ t); eauto.
Qed.

Lemma sumZ_bounds (l : list Z) (lo hi : Z) :
  (forall x, In x l -> lo <= x <= hi) ->
  lo * Z.of_nat (length l) <= sumZ l <= hi * Z.of_nat (length l).
Proof.
  induction l as [|x t IH]; intro H; [simpl; lia|].
  assert (Hx : lo <= x <= hi) by (apply H; left; reflexivity).
  assert (Ht : forall y, In y t -> lo <= y <= hi)
    by (intros y Hy; apply H; right; exact Hy).
  specialize (IH Ht). simpl sumZ.
  replace (Z.of_nat (length (x :: t))) with (Z.of_nat (length t) + 1)
    by (simpl length; lia).
  lia.
Qed.

Lemma meanZ_bounds (l : list Z) (lo hi : Z) (a : Q) :
  (forall x, In x l -> lo <= x <= hi) ->
  meanZ l = Some a ->
  (inject_Z lo <= a <= inject_Z hi)%Q.
Proof.
  intros H Hm. pose proof (sumZ_bounds l lo hi H) as [Hlo Hhi].
  unfold meanZ in Hm. destruct l as [|x t] eqn:El; [discriminate|].
  rewrite <- El in *. inversion Hm; subst a; clear Hm.
  assert (Hlen : (0 < lenQ l)%Q).
  { unfold lenQ. rewrite El. simpl length.
    change 0%Q with (inject_Z 0). rewrite <- Zlt_Qlt. lia. }
  unfold lenQ in *. split.
  - apply Qle_shift_div_l; [exact Hlen|].
    rewrite <- inject_Z_mult, <- Zle_Qle. exact Hlo.
  - apply Qle_shift_div_r; [exact Hlen|].
    rewrite <- inject_Z_mult, <- Zle_Qle. exact Hhi.
Qed.

Lemma dropna_In_inv {A : Type} (l : list (option A)) (v : A) :
  In v (dropna l) -> In (Some v) l.
Proof.
  induction l as [|[x|] t IH]; simpl; intro Hv; [contradiction| |].
  - destruct Hv as [->|Hv]; [left; reflexivity|right; auto].
  - right; auto.
Qed.

(** X6: in an engineered vector the delay statistics are defined together,
    and then [min_delay <= avg_delay <= max_delay] with [min_delay] and
    [max_delay] delays of the customer's own rows; when no row of the
    customer has a delay, all three are NaN. *)
Theorem delay_statistics_ordered (sqrt : Q -> Q) (now : Timestamp)
    (df : DataFrame) (cid : string) (f : FeatureVector) :
  engineer_features sqrt now df cid = Some f ->
  match min_delay f, avg_delay f, max_delay f with
  | Some lo, Some a, Some hi =>
      (inject_Z lo <= a <= inject_Z hi)%Q
      /\ In (Some lo) (map delay_days (rows_of cid (rows df)))
      /\ In (Some hi) (map delay_days (rows_of cid (rows df)))
  | None, None, None =>
      forall r, In r (rows_of cid (rows df)) -> delay_days r = None
  | _, _, _ => False
  end.
Proof.
  unfold engineer_features.
  destruct (length (rows_of cid (rows df)) <? 2)%nat; [discriminate|].
  destruct (iloc_last (rows_of cid (rows df))) as [lp|]; [|discriminate].
  intro H. inversion H; subst; clear H. simpl.
  set (col := map delay_days (rows_of cid (rows df))).
  pose proof (dropna_In_inv col) as Hdrop.
  unfold mean. destruct (dropna col) as [|x t] eqn:Ed.
  - simpl. intros r Hr.
    destruct (delay_days r) as [v|] eqn:Ev; [|reflexivity].
    exfalso. assert (Hin : In (Some v) col).
    { unfold col. apply in_map_iff. exists r. split; assumption. }
    apply dropna_In in Hin. rewrite Ed in Hin. exact Hin.
  - rewrite <- Ed in *.
    assert (Hne : dropna col <> []) by (rewrite Ed; discriminate).
    destruct (minZ_nonempty _ Hne) as [lo Hlo].
    destruct (maxZ_nonempty _ Hne) as [hi Hhi].
    rewrite Hlo, Hhi.
    destruct (minZ_spec _ _ Hlo) as [Hlin Hlle].
    destruct (maxZ_spec _ _ Hhi) as [Hhin Hhle].
    destruct (meanZ (dropna col)) as [a|] eqn:Ea.
    + split; [|split; apply Hdrop; assumption].
      apply (meanZ_bounds (dropna col)); [|exact Ea].
      intros v Hv. split; [apply Hlle|apply Hhle]; exact Hv.
    + unfold meanZ in Ea. rewrite Ed in Ea. discriminate.
Qed.

Lemma delay_statistics_ordered_witness :
  match min_delay Examples.features_0001, avg_delay Examples.features_0001,
        max_delay Examples.features_0001 with
  | Some lo, Some a, Some hi =>
      (inject_Z lo <= a <= inject_Z hi)%Q
      /\ In (Some lo)
            (map delay_days (rows_of "CUST_0001" (rows Examples.delayed_history)))
      /\ In (Some hi)
            (map delay_days (rows_of "CUST_0001" (rows Examples.delayed_history)))
  | None, None, None =>
      forall r, In r (rows_of "CUST_0001" (rows Examples.delayed_history)) ->
                delay_days r = None
  | _, _, _ => False
  end.
Proof.
  apply (delay_statistics_ordered Examples.approx_sqrt Examples.today
           Examples.delayed_history "CUST_0001").
  vm_compute. reflexivity.
Defined.

(* ------------------------------------------------------------------ *)
(** ** Features of a loaded file: the latest payment and the intervals   *)
(* ------------------------------------------------------------------ *)

Lemma ordinals_without_delay (l : list Row) :
  ordinals (map TableSpec.without_delay l) = ordinals l.
Proof. unfold ordinals. rewrite map_map. reflexivity. Qed.

Lemma ordinals_delays (df : DataFrame) :
  ordinals (rows (calculate_payment_delays df)) = ordinals (rows df).
Proof.
  rewrite <- (ordinals_without_delay (rows (calculate_payment_delays df))).
  rewrite delays_keep_rows. apply ordinals_without_delay.
Qed.

Lemma rows_of_delays_without_delay (cid : string) (df : DataFrame) :
  map TableSpec.without_delay (rows_of cid (rows (calculate_payment_delays df)))
  = map TableSpec.without_delay (rows_of cid (rows df)).
Proof.
  unfold TableSpec.without_delay.
  rewrite <- !(rows_of_map_set_delay cid (fun _ => None)).
  f_equal. apply delays_keep_rows.
Qed.

Lemma by_date_rows_of (cid : string) (l : list Row) :
  TableSpec.by_date l -> TableSpec.by_date (rows_of cid l).
Proof.
  unfold TableSpec.by_date.
  induction l as [|x t IH]; intro Hs; [constructor|].
  inversion Hs as [|? ? Hst Hall]; subst. simpl.
  destruct (customer_id x =? cid)%string; [|apply IH; exact Hst].
  simpl. constructor; [apply IH; exact Hst|].
  apply Forall_forall. intros z Hz. rewrite Forall_forall in Hall.
  apply Hall. unfold ordinals in *. apply in_map_iff in Hz.
  destruct Hz as [r [Hr Hin]]. apply filter_In in Hin.
  apply in_map_iff. exists r. tauto.
Qed.

Lemma by_date_loaded {Booster : Type} (w : World Booster)
    (file_path : string) (df : DataFrame) :
  load_data w file_path = inr df -> TableSpec.by_date (rows df).
Proof.
  unfold load_data. destruct (read_csv w file_path); [discriminate|].
  intro H. inversion H; subst. rewrite rows_with_rows. apply sort_values_sorted.
Qed.

Lemma by_date_loaded_customer {Booster : Type} (w : World Booster)
    (file_path : string) (df : DataFrame) (cid : string) :
  load_data w file_path = inr df ->
  TableSpec.by_date (rows_of cid (rows (calculate_payment_delays df))).
Proof.
  intro H. apply by_date_rows_of. unfold TableSpec.by_date.
  rewrite ordinals_delays. exact (by_date_loaded w file_path df H).
Qed.

Lemma iloc_last_split {A : Type} (l : list A) (x : A) :
  iloc_last l = Some x -> exists l', l = l' ++ [x].
Proof.
  unfold iloc_last. intro H. destruct (rev l) as [|y t] eqn:E; [discriminate|].
  inversion H; subst. exists (rev t).
  rewrite <- (rev_involutive l), E. reflexivity.
Qed.

Lemma sorted_snoc_max (l : list Z) (x : Z) :
  StronglySorted Z.le (l ++ [x]) -> forall z, In z (l ++ [x]) -> z <= x.
Proof.
  induction l as [|y t IH]; intros Hs z Hz.
  - destruct Hz as [->|[]]. lia.
  - simpl in Hs. inversion Hs as [|? ? Hst Hall]; subst.
    destruct Hz as [->|Hz]; [|apply IH; assumption].
    rewrite Forall_forall in Hall. apply Hall.
    apply in_or_app. right. left. reflexivity.
Qed.

Lemma by_date_last_latest (c : list Row) (lp : Row) :
  TableSpec.by_date c -> iloc_last c = Some lp ->
  forall r, In r c -> toordinal (payment_date r) <= toordinal (payment_date lp).
Proof.
  intros Hs Hl r Hr. destruct (iloc_last_split c lp Hl) as [c' ->].
  unfold TableSpec.by_date, ordinals in Hs. rewrite map_app in Hs. simpl in Hs.
  apply (sorted_snoc_max _ _ Hs).
  apply in_app_or in Hr. apply in_or_app.
  destruct Hr as [Hr|[->|[]]]; [left|right; left; reflexivity].
  apply in_map_iff. exists r. split; [reflexivity|exact Hr].
Qed.

Lemma diff_sorted_nonneg (zs : list Z) :
  forall prev : option Z,
  StronglySorted Z.le zs ->
  (forall p, prev = Some p -> Forall (fun z => p <= z) zs) ->
  Forall (fun d => 0 <= d) (dropna (diff_from prev (map (@Some Z) zs))).
Proof.
  induction zs as [|x t IH]; intros prev Hs Hp; [constructor|].
  inversion Hs as [|? ? Hst Hall]; subst. simpl.
  assert (Ht : Forall (fun d => 0 <= d)
                 (dropna (diff_from (Some x) (map (@Some Z) t)))).
  { apply IH; [exact Hst|]. intros p Hp'. inversion Hp'; subst. exact Hall. }
  destruct prev as [p|]; [|exact Ht].
  constructor; [|exact Ht].
  specialize (Hp p eq_refl). inversion Hp; subst. lia.
Qed.

Lemma diff_dropna_length (zs : list Z) :
  forall p : Z,
  length (dropna (diff_from (Some p) (map (@Some Z) zs))) = length zs.
Proof.
  induction zs as [|x t IH]; intro p; [reflexivity|].
  simpl. rewrite IH. reflexivity.
Qed.

Lemma meanZ_nonneg (l : list Z) :
  l <> [] -> Forall (fun d => 0 <= d) l ->
  exists a, meanZ l = Some a /\ (0 <= a)%Q.
Proof.
  intros Hne Hall.
  destruct (maxZ_nonempty l Hne) as [hi Hhi].
  destruct (maxZ_spec _ _ Hhi) as [_ Hle].
  destruct (meanZ l) as [a|] eqn:Ea.
  - exists a. split; [reflexivity|].
    apply (meanZ_bounds l 0 hi a); [|exact Ea].
    intros x Hx. rewrite Forall_forall in Hall. split; [apply Hall|apply Hle]; exact Hx.
  - destruct l; [congruence|discriminate].
Qed.

(** X7: on a file read by [load_data], the [last_payment_date] of an
    engineered vector is the customer's latest payment date in the file,
    [days_since_last_payment] is counted from it to the clock's day, and
    [avg_interval] is defined and not negative. *)
Theorem loaded_features_latest {Booster : Type} (w : World Booster)
    (file_path : string) (df : DataFrame) (sqrt : Q -> Q) (now : Timestamp)
    (cid : string) (f : FeatureVector) :
  load_data w file_path = inr df ->
  engineer_features sqrt now (calculate_payment_delays df) cid = Some f ->
  (exists r, In r (rows_of cid (rows df))
             /\ payment_date r = DataProcessor.last_payment_date f)
  /\ (forall r, In r (rows_of cid (rows df)) ->
        toordinal (payment_date r)
        <= toordinal (DataProcessor.last_payment_date f))
  /\ days_since_last_payment f
     = days_between now (DataProcessor.last_payment_date f)
  /\ (exists a, avg_interval f = Some a /\ (0 <= a)%Q).
Proof.
  intros Hload.
  pose proof (by_date_loaded_customer w file_path df cid Hload) as Hs.
  pose proof (rows_of_delays_without_delay cid df) as Hwd.
  unfold engineer_features.
  set (c := rows_of cid (rows (calculate_payment_delays df))) in *.
  destruct (Nat.ltb_spec (length c) 2) as [Hlt|Hge]; [discriminate|].
  destruct (iloc_last c) as [lp|] eqn:Hlast; [|discriminate].
  intro H. inversion H; subst; clear H. simpl.
  assert (Hdates : forall (P : Timestamp -> Prop),
             (exists r, In r c /\ P (payment_date r))
             <-> (exists r, In r (rows_of cid (rows df)) /\ P (payment_date r))).
  { intro P.
    assert (Hmap : map payment_date c = map payment_date (rows_of cid (rows df))).
    { transitivity (map payment_date (map TableSpec.without_delay c)).
      - rewrite map_map. reflexivity.
      - rewrite Hwd, map_map. reflexivity. }
    split; intros [r [Hin HP]].
    - assert (Hd : In (payment_date r) (map payment_date (rows_of cid (rows df))))
        by (rewrite <- Hmap; apply in_map; exact Hin).
      apply in_map_iff in Hd. destruct Hd as [r' [E Hr']].
      exists r'. split; [exact Hr'|]. rewrite E. exact HP.
    - assert (Hd : In (payment_date r) (map payment_date c))
        by (rewrite Hmap; apply in_map; exact Hin).
      apply in_map_iff in Hd. destruct Hd as [r' [E Hr']].
      exists r'. split; [exact Hr'|]. rewrite E. exact HP. }
  split; [|split; [|split]].
  - apply (Hdates (fun d => d = payment_date lp)).
    exists lp. split; [apply iloc_last_In; exact Hlast|reflexivity].
  - intros r Hr.
    destruct (proj2 (Hdates (fun d => d = payment_date r)))
      as [r' [Hr' E]]; [exists r; split; [exact Hr|reflexivity]|].
    rewrite <- E. apply (by_date_last_latest c lp Hs Hlast). exact Hr'.
  - reflexivity.
  - apply meanZ_nonneg.
    + unfold diff. destruct c as [|x [|y t]]; simpl in Hge; try lia.
      simpl. discriminate.
    + unfold diff. apply diff_sorted_nonneg; [exact Hs|discriminate].
Qed.

Lemma loaded_features_latest_witness :
  (exists r, In r (rows_of "CUST_0001" (rows Examples.sorted_history))
             /\ payment_date r
                = DataProcessor.last_payment_date Examples.features_0001)
  /\ (forall r, In r (rows_of "CUST_0001" (rows Examples.sorted_history)) ->
        toordinal (payment_date r)
        <= toordinal (DataProcessor.last_payment_date Examples.features_0001))
  /\ days_since_last_payment Examples.features_0001
     = days_between Examples.today
         (DataProcessor.last_payment_date Examples.features_0001)
  /\ (exists a, avg_interval Examples.features_0001 = Some a /\ (0 <= a)%Q).
Proof.
  apply (loaded_features_latest Examples.world DATA_PATH Examples.sorted_history
           Examples.approx_sqrt Examples.today "CUST_0001").
  - reflexivity.
  - vm_compute. reflexivity.
Defined.

(** On a frame that is not in date order (one not produced by [load_data])
    the last row need not be the latest payment. *)
Example unsorted_last_is_not_latest :
  option_map DataProcessor.last_payment_date
    (engineer_features Examples.approx_sqrt Examples.today
       (calculate_payment_delays Examples.history) "CUST_0001")
  = Some (mkDate 2023 12 1).
Proof. vm_compute. reflexivity. Qed.

(* ------------------------------------------------------------------ *)
(** ** The training table: size and sign of the targets                  *)
(* ------------------------------------------------------------------ *)

Lemma training_lists_closed (sqrt : Q -> Q) (now : Timestamp) (df : DataFrame) :
  exists Xs,
    training_lists sqrt now df
    = (Xs, map snd (TrainingSpec.training_examples sqrt now df))
    /\ map Some Xs = map fst (TrainingSpec.training_examples sqrt now df).
Proof.
  destruct (training_customers_spec sqrt now df
              (unique (map customer_id (rows df))) [] [])
    as [Xs [Hfold Hmap]].
  exists Xs. split; [exact Hfold|exact Hmap].
Qed.

Lemma examples_of_length (sqrt : Q -> Q) (now : Timestamp) (df : DataFrame)
    (cid : string) :
  length (TrainingSpec.examples_of sqrt now df cid)
  = (length (rows_of cid (rows df)) - 2)%nat.
Proof.
  unfold TrainingSpec.examples_of.
  destruct (Nat.ltb_spec (length (rows_of cid (rows df))) 3) as [Hlt|Hge].
  - simpl. lia.
  - rewrite length_map, length_seq. reflexivity.
Qed.

Lemma flat_map_length {A B : Type} (g : A -> list B) (l : list A) :
  length (flat_map g l) = list_sum (map (fun x => length (g x)) l).
Proof.
  induction l as [|x t IH]; simpl; [reflexivity|].
  rewrite length_app, IH. reflexivity.
Qed.

(** X8: [prepare_training_data] builds as many targets as feature rows:
    a customer with n rows contributes n - 2 examples (none below 3 rows),
    customers taken once each in order of first appearance. *)
Theorem training_table_size (sqrt : Q -> Q) (now : Timestamp) (df : DataFrame) :
  length (fst (training_lists sqrt now df))
  = length (snd (training_lists sqrt now df))
  /\ length (snd (training_lists sqrt now df))
     = list_sum (map (fun cid => length (rows_of cid (rows df)) - 2)%nat
                     (unique (map customer_id (rows df)))).
Proof.
  destruct (training_lists_closed sqrt now df) as [Xs [Hl Hm]].
  rewrite Hl. simpl fst. simpl snd.
  apply (f_equal (@length _)) in Hm. rewrite !length_map in Hm.
  rewrite length_map. split; [exact Hm|].
  unfold TrainingSpec.training_examples. rewrite flat_map_length.
  f_equal. apply map_ext. intro cid. apply examples_of_length.
Qed.

Lemma by_date_nth (c : list Row) :
  TableSpec.by_date c ->
  forall (a b : nat) (x y : Row),
  (b <= a)%nat -> nth_error c a = Some x -> nth_error c b = Some y ->
  toordinal (payment_date y) <= toordinal (payment_date x).
Proof.
  unfold TableSpec.by_date.
  induction c as [|h t IH]; intros Hs a b x y Hab Ha Hb.
  - destruct a; discriminate.
  - inversion Hs as [|? ? Hst Hall]; subst.
    destruct b as [|b'].
    + simpl in Hb. inversion Hb; subst y.
      destruct a as [|a']; [simpl in Ha; inversion Ha; lia|].
      simpl in Ha. rewrite Forall_forall in Hall. apply Hall.
      unfold ordinals. apply in_map_iff. exists x. split; [reflexivity|].
      eapply nth_error_In. exact Ha.
    + destruct a as [|a']; [lia|].
      simpl in Ha, Hb. apply (IH Hst a' b' x y); [lia|assumption|assumption].
Qed.

Lemma gap_nonneg (c : list Row) (a b : nat) :
  TableSpec.by_date c -> (b <= a)%nat -> 0 <= TrainingSpec.gap c a b.
Proof.
  intros Hs Hab. unfold TrainingSpec.gap.
  destruct (nth_error c a) as [x|] eqn:Ea; [|lia].
  destruct (nth_error c b) as [y|] eqn:Eb; [|lia].
  pose proof (by_date_nth c Hs a b x y Hab Ea Eb). unfold days_between. lia.
Qed.

Lemma training_examples_nonneg (sqrt : Q -> Q) (now : Timestamp)
    (df : DataFrame) :
  TableSpec.by_date (rows df) ->
  Forall (fun t => 0 <= t)
         (map snd (TrainingSpec.training_examples sqrt now df)).
Proof.
  intro Hs. apply Forall_forall. intros t Ht.
  apply in_map_iff in Ht. destruct Ht as [[fo t'] [Et Hin]]. simpl in Et. subst t'.
  unfold TrainingSpec.training_examples in Hin. apply in_flat_map in Hin.
  destruct Hin as [cid [_ Hin]]. unfold TrainingSpec.examples_of in Hin.
  destruct (length (rows_of cid (rows df)) <? 3)%nat; [contradiction|].
  apply in_map_iff in Hin. destruct Hin as [i [Ei _]].
  inversion Ei; subst. unfold TrainingSpec.loop_target.
  pose proof (by_date_rows_of cid (rows df) Hs) as Hc.
  destruct (i <? length (rows_of cid (rows df)) - 1)%nat;
    apply gap_nonneg; try exact Hc; lia.
Qed.

(** X9: on a file read by [load_data] no training target is negative: each
    is the number of days between two payments of one customer taken in
    date order. *)
Theorem loaded_targets_nonnegative {Booster : Type} (w : World Booster)
    (file_path : string) (df : DataFrame) (sqrt : Q -> Q) (now : Timestamp) :
  load_data w file_path = inr df ->
  Forall (fun t => 0 <= t)
         (snd (training_lists sqrt now (calculate_payment_delays df))).
Proof.
  intro Hload.
  destruct (training_lists_closed sqrt now (calculate_payment_delays df))
    as [Xs [Hl _]].
  rewrite Hl. simpl snd. apply training_examples_nonneg.
  unfold TableSpec.by_date. rewrite ordinals_delays.
  exact (by_date_loaded w file_path df Hload).
Qed.

Lemma loaded_targets_nonnegative_witness :
  Forall (fun t => 0 <= t)
         (snd (training_lists Examples.approx_sqrt Examples.today
                 (calculate_payment_delays Examples.sorted_history))).
Proof.
  apply (loaded_targets_nonnegative Examples.world DATA_PATH).
  reflexivity.
Defined.

(** Without the date order a target can be negative: in file order the
    fourth row of CUST_0001 (2023-12-01) is dated before its third
    (2024-01-02). *)
Example unsorted_target_negative :
  snd (training_lists Examples.approx_sqrt Examples.today
         (calculate_payment_delays Examples.history))
  = [-32; -32; 33].
Proof. vm_compute. reflexivity. Qed.

(* ================================================================== *)
(** * Further properties of the prediction engine                       *)
(* ================================================================== *)

(* ------------------------------------------------------------------ *)
(** ** Loading a model                                                   *)
(* ------------------------------------------------------------------ *)


(** An artifact next to the script is found when the working directory has
    none, and an unreadable artifact leaves the engine alone. *)
Example load_model_examples :
  load_model Examples.world None Examples.fresh = (inr tt, Examples.loaded)
  /\ resolve_path
       (mkWorld Examples.today Examples.approx_sqrt
          (fun p => inl (FileNotFoundError p))
          (fun p => String.eqb p "/srv/emi/models/emi_predictor_model.pkl")
          (fun p => OsPath.join "/home/user" p) "/srv/emi"
          (fun _ => inl (LibraryError "UnpicklingError"))
          (fun _ => inr tt) (fun _ _ => inr tt)
          (fun X y => inr ((X, X), (y, y))) (fun _ _ => inr 1%nat)
          (fun _ _ => inr 0%Q))
       MODEL_PATH
     = "/srv/emi/models/emi_predictor_model.pkl"%string
  /\ load_model
       (mkWorld Examples.today Examples.approx_sqrt
          (fun p => inl (FileNotFoundError p))
          (fun p => String.eqb p "/srv/emi/models/emi_predictor_model.pkl")
          (fun p => OsPath.join "/home/user" p) "/srv/emi"
          (fun _ => inl (LibraryError "UnpicklingError"))
          (fun _ => inr tt) (fun _ _ => inr tt)
          (fun X y => inr ((X, X), (y, y))) (fun _ _ => inr 1%nat)
          (fun _ _ => inr 0%Q))
       None Examples.loaded
     = (inl (LibraryError "UnpicklingError"), Examples.loaded).
Proof. repeat split; vm_compute; reflexivity. Qed.

(* ------------------------------------------------------------------ *)
(** ** Predictions do not change the engine                              *)
(* ------------------------------------------------------------------ *)

Section PredictFacts.

Context {Booster : Type}.
Variable w : World Booster.
Variable data_path : string.

Lemma predict_state (cid : string) (st : Engine Booster) :
  snd (predict_next_payment_date w cid data_path st) = snd (ensure_model w st).
Proof.
  unfold predict_next_payment_date. unfold bind at 1.
  destruct (ensure_model w st) as [[e|[]] st1]; [reflexivity|].
  unfold_monad.
  destruct (load_data w data_path) as [e|df]; [reflexivity|].
  destruct (length (rows_of cid (rows (calculate_payment_delays df)))
            <? MIN_HISTORY_RECORDS)%nat; [reflexivity|].
  destruct (engineer_features (np_sqrt w) (clock w)
              (calculate_payment_delays df) cid) as [f|]; [|reflexivity].
  match goal with
  | |- context [match (if ?c then ?a else None) with _ => _ end] =>
      destruct (if c then a else None) as [d|]
  end.
  - destruct (next_demand_date_of d) as [e|nd]; [reflexivity|].
    destruct (mean (map delay_days
                      (rows_of cid (rows (calculate_payment_delays df)))));
      reflexivity.
  - destruct (model_predict w (model st1)
                (reindex (feature_names st1) (numeric_columns f)));
      reflexivity.
Qed.

Lemma predict_state_loaded (cid : string) (st : Engine Booster)
    (m : XGBRegressor Booster) :
  model st = Some m ->
  snd (predict_next_payment_date w cid data_path st) = st.
Proof.
  intro Hm. rewrite predict_state, (ensure_model_loaded w st m Hm). reflexivity.
Qed.

Lemma predict_batch_loop_loaded (ids : list string) :
  forall (acc : list Prediction.PredictionResult) (st : Engine Booster)
         (m : XGBRegressor Booster),
  model st = Some m ->
  predict_batch_loop w ids data_path acc st
  = (inr (acc ++ flat_map
                   (fun cid =>
                      match returned (predict_next_payment_date w cid data_path st)
                      with Some r => [r] | None => [] end) ids), st).
Proof.
  induction ids as [|cid rest IH]; intros acc st m Hm; simpl.
  - unfold ret. rewrite app_nil_r. reflexivity.
  - unfold bind, try, returned.
    pose proof (predict_state_loaded cid st m Hm) as Hst.
    destruct (predict_next_payment_date w cid data_path st) as [[e|r] st1].
    + simpl in *. subst st1. apply (IH acc st m Hm).
    + simpl in *. subst st1. rewrite (IH (acc ++ [r]) st m Hm).
      rewrite <- app_assoc. reflexivity.
Qed.

End PredictFacts.

(** X11: a call of [predict_next_payment_date] changes the engine only
    through the lazy model load of its first step: the engine it leaves is
    the one [ensure_model] leaves, so with a model already loaded the engine
    is untouched whether the call returns or raises. *)
Theorem predict_only_loads {Booster : Type} (w : World Booster)
    (cid data_path : string) (st : Engine Booster) :
  snd (predict_next_payment_date w cid data_path st) = snd (ensure_model w st)
  /\ (model st <> None ->
      snd (predict_next_payment_date w cid data_path st) = st).
Proof.
  split; [apply predict_state|].
  intro Hm. destruct (model st) as [m|] eqn:E; [|congruence].
  apply (predict_state_loaded w data_path cid st m E).
Qed.

Lemma predict_only_loads_witness :
  snd (predict_next_payment_date Examples.world "CUST_0002" DATA_PATH
         Examples.loaded) = Examples.loaded.
Proof.
  apply (proj2 (predict_only_loads Examples.world "CUST_0002" DATA_PATH
                  Examples.loaded)).
  discriminate.
Defined.

(** X12: with a model loaded, [predict_batch] treats each identifier on its
    own: the batch is the concatenation, in input order, of what each single
    call returns on the same engine (nothing for a call that raises), and
    the engine is left as it was.  So the batch of a concatenation is the
    concatenation of the batches. *)
Theorem predict_batch_independent {Booster : Type} (w : World Booster)
    (ids more : list string) (data_path : string) (st : Engine Booster)
    (m : XGBRegressor Booster) :
  model st = Some m ->
  predict_batch w ids data_path st
  = (inr (flat_map
            (fun cid =>
               match returned (predict_next_payment_date w cid data_path st)
               with Some r => [r] | None => [] end) ids), st)
  /\ returned (predict_batch w (ids ++ more) data_path st)
     = match returned (predict_batch w ids data_path st),
             returned (predict_batch w more data_path st) with
       | Some a, Some b => Some (a ++ b)
       | _, _ => None
       end.
Proof.
  intro Hm. unfold predict_batch.
  rewrite !(predict_batch_loop_loaded w data_path _ [] st m Hm).
  split; [reflexivity|].
  unfold returned. simpl. rewrite flat_map_app. reflexivity.
Qed.

Lemma predict_batch_independent_witness :
  predict_batch Examples.world ["CUST_0003"; "CUST_0002"]%string DATA_PATH
    Examples.loaded
  = (inr (flat_map
            (fun cid =>
               match returned (predict_next_payment_date Examples.world cid
                                 DATA_PATH Examples.loaded)
               with Some r => [r] | None => [] end)
            ["CUST_0003"; "CUST_0002"]%string), Examples.loaded)
  /\ returned (predict_batch Examples.world
                 (["CUST_0003"%string; "CUST_0002"%string] ++ ["CUST_0001"%string])
                 DATA_PATH Examples.loaded)
     = match returned (predict_batch Examples.world
                         ["CUST_0003"; "CUST_0002"]%string DATA_PATH
                         Examples.loaded),
             returned (predict_batch Examples.world ["CUST_0001"]%string
                         DATA_PATH Examples.loaded) with
       | Some a, Some b => Some (a ++ b)
       | _, _ => None
       end.
Proof.
  apply (predict_batch_independent Examples.world _ _ DATA_PATH Examples.loaded
           (Fitted 7%nat)).
  reflexivity.
Defined.

(* ------------------------------------------------------------------ *)
(** ** The fallback path                                                 *)
(* ------------------------------------------------------------------ *)

Lemma rows_of_delays_last_scheduled (cid : string) (df : DataFrame) (last : Row) :
  iloc_last (rows_of cid (rows df)) = Some last ->
  option_map scheduled_date
    (iloc_last (rows_of cid (rows (calculate_payment_delays df))))
  = Some (scheduled_date last).
Proof.
  intro Hl.
  assert (H : map scheduled_date
                (rows_of cid (rows (calculate_payment_delays df)))
              = map scheduled_date (rows_of cid (rows df))).
  { transitivity (map scheduled_date
                    (map TableSpec.without_delay
                       (rows_of cid (rows (calculate_payment_delays df))))).
    - rewrite map_map. reflexivity.
    - rewrite rows_of_delays_without_delay, map_map. reflexivity. }
  rewrite <- iloc_last_map, H, iloc_last_map, Hl. reflexivity.
Qed.

(** X13: when the customer's latest record carries no demand date (the file
    has no [scheduled_date] column, or the value is missing there), the
    regressor decides: if it answers [y], the result has no demand dates,
    [days_until_payment] is [max(0, round(y))], never negative, and the
    predicted date is that many days after the last payment; if the
    regressor raises (an unfitted model included), the call raises the same
    exception. *)
Theorem predict_fallback {Booster : Type} (w : World Booster)
    (st : Engine Booster) (m : XGBRegressor Booster) (cid data_path : string)
    (df : DataFrame) (last : Row) :
  model st = Some m ->
  load_data w data_path = inr df ->
  (MIN_HISTORY_RECORDS <= length (rows_of cid (rows df)))%nat ->
  iloc_last (rows_of cid (rows df)) = Some last ->
  has_scheduled_date df = false \/ scheduled_date last = None ->
  exists f,
    engineer_features (np_sqrt w) (clock w) (calculate_payment_delays df) cid
    = Some f
    /\ match model_predict w (Some m)
               (reindex (feature_names st) (numeric_columns f)) with
       | inl e => predict_next_payment_date w cid data_path st = (inl e, st)
       | inr y =>
           exists r,
             predict_next_payment_date w cid data_path st = (inr r, st)
             /\ Prediction.last_demand_date r = None
             /\ Prediction.next_demand_date r = None
             /\ Prediction.days_until_payment r = Z.max 0 (round_half_even y)
             /\ 0 <= Prediction.days_until_payment r
             /\ Prediction.last_payment_date r = payment_date last
             /\ Prediction.predicted_payment_date r
                = add_days (payment_date last) (Z.max 0 (round_half_even y))
       end.
Proof.
  intros Hm Hl Hn Hlast Hnone.
  pose proof (rows_of_delays_length cid df) as Hlen.
  pose proof (rows_of_delays_last_scheduled cid df last Hlast) as Hsched.
  pose proof (has_scheduled_date_delays df) as Hcol.
  remember (calculate_payment_delays df) as df' eqn:Edf.
  destruct (iloc_last (rows_of cid (rows df'))) as [last'|] eqn:Hlast';
    [|discriminate Hsched].
  simpl in Hsched. inversion Hsched as [Hs']; clear Hsched.
  assert (Hpd : payment_date last' = payment_date last).
  { assert (H : map payment_date (rows_of cid (rows df'))
                = map payment_date (rows_of cid (rows df))).
    { transitivity (map payment_date
                      (map TableSpec.without_delay (rows_of cid (rows df')))).
      - rewrite map_map. reflexivity.
      - rewrite Edf, rows_of_delays_without_delay, map_map. reflexivity. }
    assert (H2 : option_map payment_date (iloc_last (rows_of cid (rows df')))
                 = option_map payment_date (iloc_last (rows_of cid (rows df)))).
    { rewrite <- !iloc_last_map, H. reflexivity. }
    rewrite Hlast', Hlast in H2. simpl in H2. inversion H2. reflexivity. }
  destruct (engineer_features_exists (np_sqrt w) (clock w) df' cid last')
    as [f [Hf Hfl]].
  { rewrite Hlen. unfold MIN_HISTORY_RECORDS in Hn. lia. }
  { exact Hlast'. }
  exists f. split; [exact Hf|].
  assert (Hdemand :
            (if has_scheduled_date df' && (0 <? length (rows_of cid (rows df')))%nat
             then match iloc_last (rows_of cid (rows df')) with
                  | Some r0 => scheduled_date r0
                  | None => None
                  end
             else None) = None).
  { rewrite Hlast', Hs', Hcol. destruct Hnone as [ -> | -> ]; [reflexivity|].
    destruct (has_scheduled_date df && _); reflexivity. }
  unfold predict_next_payment_date.
  erewrite bind_inr by (eapply ensure_model_loaded; exact Hm).
  unfold_monad. rewrite Hl, <- Edf.
  replace (length (rows_of cid (rows df')) <? MIN_HISTORY_RECORDS)%nat
    with false by (symmetry; apply Nat.ltb_ge; lia).
  rewrite Hf, Hdemand, Hm.
  destruct (model_predict w (Some m)
              (reindex (feature_names st) (numeric_columns f))) as [e|y];
    [reflexivity|].
  eexists. split; [reflexivity|]. simpl. rewrite Hfl, Hpd.
  repeat split; try reflexivity.
  - apply days_between_add_days.
  - rewrite days_between_add_days. lia.
Qed.

Lemma predict_fallback_witness :
  exists f,
    engineer_features (np_sqrt Examples.world_plain) (clock Examples.world_plain)
      (calculate_payment_delays Examples.history_plain) "CUST_0001" = Some f
    /\ match model_predict Examples.world_plain (Some (Fitted 7%nat))
               (reindex (feature_names Examples.loaded) (numeric_columns f)) with
       | inl e =>
           predict_next_payment_date Examples.world_plain "CUST_0001" DATA_PATH
             Examples.loaded = (inl e, Examples.loaded)
       | inr y =>
           exists r,
             predict_next_payment_date Examples.world_plain "CUST_0001" DATA_PATH
               Examples.loaded = (inr r, Examples.loaded)
             /\ Prediction.last_demand_date r = None
             /\ Prediction.next_demand_date r = None
             /\ Prediction.days_until_payment r = Z.max 0 (round_half_even y)
             /\ 0 <= Prediction.days_until_payment r
             /\ Prediction.last_payment_date r
                = payment_date (Examples.paid_plain "CUST_0001" (mkDate 2024 3 30))
             /\ Prediction.predicted_payment_date r
                = add_days
                    (payment_date
                       (Examples.paid_plain "CUST_0001" (mkDate 2024 3 30)))
                    (Z.max 0 (round_half_even y))
       end.
Proof.
  apply (predict_fallback Examples.world_plain Examples.loaded (Fitted 7%nat)
           "CUST_0001" DATA_PATH Examples.history_plain
           (Examples.paid_plain "CUST_0001" (mkDate 2024 3 30))).
  - reflexivity.
  - reflexivity.
  - vm_compute. lia.
  - reflexivity.
  - left. reflexivity.
Defined.

(** The regressor of the example world answers 37 days; an engine left with
    an unfitted regressor cannot answer on this path. *)
Example predict_fallback_values :
  option_map (fun r => (Prediction.days_until_payment r,
                        Prediction.predicted_payment_date r))
    (returned (predict_next_payment_date Examples.world_plain "CUST_0001"
                 DATA_PATH Examples.loaded))
  = Some (37, mkDate 2024 5 6)
  /\ fst (predict_next_payment_date Examples.world_plain "CUST_0001" DATA_PATH
            (mkEngine (Some Unfitted) None))
     = inl (LibraryError "NotFittedError").
Proof. split; vm_compute; reflexivity. Qed.

(* ------------------------------------------------------------------ *)
(** ** What every returned prediction satisfies                          *)
(* ------------------------------------------------------------------ *)

Lemma tail_n_length {A : Type} (n : nat) (l : list A) :
  length (tail_n n l) = Nat.min n (length l).
Proof. unfold tail_n. rewrite length_skipn. lia. Qed.

(** X14: every result [predict_next_payment_date] returns is about the
    customer asked for, counts that customer's rows of the file (at least
    3), carries the last min(5, count) payments as its history slice, has a
    next demand date exactly when it has a last demand date, and has
    [days_until_payment] equal to the days from the last payment date to the
    predicted date. *)
Theorem prediction_result_invariants {Booster : Type} (w : World Booster)
    (st st' : Engine Booster) (cid data_path : string) (raw : DataFrame)
    (r : Prediction.PredictionResult) :
  read_csv w data_path = inr raw ->
  predict_next_payment_date w cid data_path st = (inr r, st') ->
  Prediction.customer_id r = cid
  /\ Prediction.payment_count r = length (rows_of cid (rows raw))
  /\ (3 <= Prediction.payment_count r)%nat
  /\ length (Prediction.payment_history r)
     = Nat.min 5 (Prediction.payment_count r)
  /\ (Prediction.last_demand_date r = None
      <-> Prediction.next_demand_date r = None)
  /\ Prediction.days_until_payment r
     = days_between (Prediction.predicted_payment_date r)
                    (Prediction.last_payment_date r).
Proof.
  intros Hread H. unfold predict_next_payment_date in H.
  unfold bind at 1 in H.
  destruct (ensure_model w st) as [[e|[]] st1]; [discriminate H|].
  unfold load_data in H. rewrite Hread in H. unfold_monad.
  remember (calculate_payment_delays
              (with_rows raw (sort_values_payment_date (rows raw)))) as df.
  assert (Hcount : length (rows_of cid (rows df)) = length (rows_of cid (rows raw))).
  { rewrite Heqdf, rows_of_delays_length, rows_with_rows.
    apply rows_of_sort_length. }
  destruct (Nat.ltb_spec (length (rows_of cid (rows df))) MIN_HISTORY_RECORDS)
    as [Hlt|Hge]; [discriminate H|].
  destruct (engineer_features (np_sqrt w) (clock w) df cid) as [f|];
    [|discriminate H].
  match type of H with
  | context [match (if ?c then ?a else None) with _ => _ end] =>
      destruct (if c then a else None) as [d|]
  end.
  - destruct (next_demand_date_of d) as [e|nd]; [discriminate H|].
    destruct (mean (map delay_days (rows_of cid (rows df)))) as [a|];
      [|discriminate H].
    inversion H; subst r st'; clear H. simpl.
    rewrite tail_n_length, length_map, Hcount.
    unfold MIN_HISTORY_RECORDS in Hge.
    repeat split; try assumption; try lia; try discriminate.
  - destruct (model_predict w (model st1)
                (reindex (feature_names st1) (numeric_columns f)));
      [discriminate H|].
    inversion H; subst r st'; clear H. simpl.
    rewrite tail_n_length, length_map, Hcount.
    unfold MIN_HISTORY_RECORDS in Hge.
    repeat split; try assumption; try lia; try discriminate.
Qed.

Lemma prediction_result_invariants_witness :
  Prediction.customer_id Examples.result_0001 = "CUST_0001"%string
  /\ Prediction.payment_count Examples.result_0001
     = length (rows_of "CUST_0001" (rows Examples.history))
  /\ (3 <= Prediction.payment_count Examples.result_0001)%nat
  /\ length (Prediction.payment_history Examples.result_0001)
     = Nat.min 5 (Prediction.payment_count Examples.result_0001)
  /\ (Prediction.last_demand_date Examples.result_0001 = None
      <-> Prediction.next_demand_date Examples.result_0001 = None)
  /\ Prediction.days_until_payment Examples.result_0001
     = days_between (Prediction.predicted_payment_date Examples.result_0001)
                    (Prediction.last_payment_date Examples.result_0001).
Proof.
  apply (prediction_result_invariants Examples.world Examples.loaded
           Examples.loaded "CUST_0001" DATA_PATH Examples.history).
  - reflexivity.
  - vm_compute. reflexivity.
Defined.

(* ------------------------------------------------------------------ *)
(** ** The confidence heuristic                                          *)
(* ------------------------------------------------------------------ *)

(** X15: the confidence score always lies between 0.60 and 0.90, so the
    final clamp to [0.50, 0.95] never changes it; for a given standard
    deviation it does not decrease when the number of payments grows, and
    for a given number of payments it does not increase when the standard
    deviation grows. *)
Theorem confidence_range_and_monotone (f1 f2 : FeatureVector) :
  ((60 # 100 <= _calculate_confidence f1)%Q
   /\ (_calculate_confidence f1 <= 90 # 100)%Q)
  /\ (std_delay f1 = std_delay f2 ->
      total_payments f1 <= total_payments f2 ->
      (_calculate_confidence f1 <= _calculate_confidence f2)%Q)
  /\ (forall s1 s2,
        total_payments f1 = total_payments f2 ->
        std_delay f1 = Some s1 -> std_delay f2 = Some s2 -> (s1 <= s2)%Q ->
        (_calculate_confidence f2 <= _calculate_confidence f1)%Q).
Proof.
  split; [|split].
  - unfold _calculate_confidence.
    destruct (gtb_nan (std_delay f1) 10) eqn:Hg;
      destruct (ltb_nan (std_delay f1) 3) eqn:Hl;
      try (exfalso; exact (not_above_10_and_below_3 _ Hg Hl));
      destruct (10 <? total_payments f1); destruct (5 <? total_payments f1);
      vm_compute; split; discriminate.
  - intros Hs Ht. unfold _calculate_confidence. rewrite Hs.
    destruct (gtb_nan (std_delay f2) 10); destruct (ltb_nan (std_delay f2) 3);
      destruct (Z.ltb_spec 10 (total_payments f1));
      destruct (Z.ltb_spec 10 (total_payments f2)); try lia;
      destruct (Z.ltb_spec 5 (total_payments f1));
      destruct (Z.ltb_spec 5 (total_payments f2)); try lia;
      vm_compute; discriminate.
  - intros s1 s2 Ht Hs1 Hs2 Hle. unfold _calculate_confidence.
    rewrite Ht, Hs1, Hs2. unfold gtb_nan, ltb_nan.
    destruct (Qltb 10 s1) eqn:G1; destruct (Qltb 10 s2) eqn:G2;
      destruct (Qltb s1 3) eqn:L1; destruct (Qltb s2 3) eqn:L2;
      try (apply Qltb_lt in G1); try (apply Qltb_lt in G2);
      try (apply Qltb_lt in L1); try (apply Qltb_lt in L2);
      try (exfalso;
           assert (Hx : (10 < 3)%Q)
             by (eapply Qlt_trans; [eassumption|];
                 first [eassumption
                       |eapply Qle_lt_trans; eassumption]);
           discriminate Hx);
      try (exfalso;
           assert (G2' : Qltb 10 s2 = true)
             by (apply Qltb_lt; eapply Qlt_le_trans; eassumption);
           congruence);
      try (exfalso;
           assert (L1' : Qltb s1 3 = true)
             by (apply Qltb_lt; eapply Qle_lt_trans; eassumption);
           congruence);
      destruct (10 <? total_payments f2); destruct (5 <? total_payments f2);
      vm_compute; discriminate.
Qed.

Lemma confidence_range_and_monotone_witness :
  (_calculate_confidence Examples.features_0001
   <= _calculate_confidence
        (DataProcessor.mkFeatures 12 None
           (std_delay Examples.features_0001) None None None None None None
           0 0 [] Examples.today None 0 None None))%Q.
Proof.
  apply (proj1 (proj2 (confidence_range_and_monotone Examples.features_0001
                         (DataProcessor.mkFeatures 12 None
                            (std_delay Examples.features_0001) None None None
                            None None None 0 0 [] Examples.today None 0 None
                            None)))).
  - reflexivity.
  - vm_compute. discriminate.
Defined.

(* ------------------------------------------------------------------ *)
(** ** The feature schema and its alignment                              *)
(* ------------------------------------------------------------------ *)

Lemma lookup_column_reindex (ns : list string) (x : XRow) (n : string) :
  In n ns ->
  lookup_column n (reindex (Some ns) x)
  = Some (match lookup_column n x with Some v => v | None => Some 0%Q end).
Proof.
  simpl. induction ns as [|a t IH]; intro Hin; [contradiction|].
  simpl. destruct (String.eqb_spec a n) as [->|Hne]; [reflexivity|].
  destruct Hin as [->|Hin]; [congruence|]. apply IH. exact Hin.
Qed.

Lemma reindex_own_columns (x : XRow) :
  NoDup (map fst x) -> reindex (Some (map fst x)) x = x.
Proof.
  simpl. induction x as [|[n v] t IH]; intro Hnd; [reflexivity|].
  inversion Hnd as [|? ? Hnotin Hnd']; subst. simpl.
  rewrite String.eqb_refl. f_equal.
  rewrite <- (IH Hnd') at 2. apply map_ext_in. intros a Ha.
  destruct (String.eqb_spec n a) as [->|Hne]; [contradiction|]. reflexivity.
Qed.

(** X16: aligning a feature row to a schema ([reindex]) yields exactly the
    schema's columns in the schema's order; each holds the row's value for
    that name, or 0 when the row has no such column; columns outside the
    schema are dropped.  Aligning a row (with distinct column names) to its
    own columns gives the row back. *)
Theorem reindex_aligns (ns : list string) (x : XRow) :
  map fst (reindex (Some ns) x) = ns
  /\ (forall n, In n ns ->
        lookup_column n (reindex (Some ns) x)
        = Some (match lookup_column n x with
                | Some v => v
                | None => Some 0%Q
                end))
  /\ (forall n, ~ In n ns -> lookup_column n (reindex (Some ns) x) = None)
  /\ (NoDup (map fst x) -> reindex (Some (map fst x)) x = x).
Proof.
  split; [|split; [|split]].
  - simpl. rewrite map_map. simpl. apply map_id.
  - apply lookup_column_reindex.
  - simpl. induction ns as [|a t IH]; intros n Hn; [reflexivity|].
    simpl. destruct (String.eqb_spec a n) as [->|Hne].
    + exfalso. apply Hn. left. reflexivity.
    + apply IH. intro H. apply Hn. right. exact H.
  - apply reindex_own_columns.
Qed.

Lemma reindex_aligns_witness :
  reindex (Some (map fst (numeric_columns Examples.features_0001)))
          (numeric_columns Examples.features_0001)
  = numeric_columns Examples.features_0001.
Proof.
  apply (proj2 (proj2 (proj2 (reindex_aligns []
                                (numeric_columns Examples.features_0001))))).
  vm_compute.
  repeat (constructor; [simpl; intuition discriminate|]). constructor.
Defined.

Lemma rolling_column_names (l : list (Z * (option Q * Z))) :
  map fst
    (flat_map (fun '(w, (m, c)) =>
                 [ (window_name "delay_mean_" w, m);
                   (window_name "payment_count_" w, Zq c) ]) l)
  = flat_map (fun w => [ window_name "delay_mean_" w;
                         window_name "payment_count_" w ]) (map fst l).
Proof.
  induction l as [|[w [m c]] t IH]; [reflexivity|].
  simpl. rewrite IH. reflexivity.
Qed.

Lemma engineered_columns (sqrt : Q -> Q) (now : Timestamp) (df : DataFrame)
    (cid : string) (f : FeatureVector) :
  engineer_features sqrt now df cid = Some f ->
  map fst (numeric_columns f) = SchemaSpec.feature_columns (has_amount df).
Proof.
  unfold engineer_features.
  destruct (length (rows_of cid (rows df)) <? 2)%nat; [discriminate|].
  destruct (iloc_last (rows_of cid (rows df))) as [lp|]; [|discriminate].
  intro H. inversion H; subst; clear H.
  unfold numeric_columns, SchemaSpec.feature_columns.
  rewrite !map_app, rolling_column_names.
  cbn [rolling avg_amount last_amount map fst flat_map app].
  destruct (has_amount df); reflexivity.
Qed.

(** X17: every engineered vector has the same numeric columns in the same
    order: the 23 names of [SchemaSpec.base_columns], followed by
    [avg_amount] and [last_amount] when the frame has an [amount] column.
    The names are distinct and [last_payment_date] is not among them, so the
    regressor never receives the raw date. *)
Theorem engineered_schema (sqrt : Q -> Q) (now : Timestamp) (df : DataFrame)
    (cid : string) (f : FeatureVector) :
  engineer_features sqrt now df cid = Some f ->
  map fst (numeric_columns f) = SchemaSpec.feature_columns (has_amount df)
  /\ NoDup (map fst (numeric_columns f))
  /\ ~ In "last_payment_date"%string (map fst (numeric_columns f)).
Proof.
  intro H. pose proof (engineered_columns sqrt now df cid f H) as Hc.
  rewrite Hc. split; [reflexivity|].
  destruct (has_amount df); vm_compute; split;
    try (intro Hin; repeat (destruct Hin as [Hin|Hin]; [discriminate Hin|]);
         exact Hin);
    repeat (constructor; [simpl; intuition discriminate|]); constructor.
Qed.

Lemma engineered_schema_witness :
  map fst (numeric_columns Examples.features_0001)
  = SchemaSpec.feature_columns (has_amount Examples.delayed_history)
  /\ NoDup (map fst (numeric_columns Examples.features_0001))
  /\ ~ In "last_payment_date"%string
          (map fst (numeric_columns Examples.features_0001)).
Proof.
  apply (engineered_schema Examples.approx_sqrt Examples.today
           Examples.delayed_history "CUST_0001").
  vm_compute. reflexivity.
Defined.

(* ------------------------------------------------------------------ *)
(** ** How far the next demand date lies ahead                           *)
(* ------------------------------------------------------------------ *)

Lemma days_before_year_succ (y : Z) :
  days_before_year (y + 1)
  = days_before_year y + 365 + (if is_leap y then 1 else 0).
Proof.
  unfold days_before_year. destruct (is_leap y) eqn:E.
  - apply is_leap_spec in E. Z.div_mod_to_equations. lia.
  - assert (H : ~ (y mod 4 = 0 /\ (y mod 100 <> 0 \/ y mod 400 = 0)))
      by (rewrite <- is_leap_spec; congruence).
    Z.div_mod_to_equations. lia.
Qed.

Lemma days_before_succ (leap : bool) (m : Z) :
  1 <= m <= 11 ->
  days_before leap (m + 1) = days_before leap m + days_in_month leap m.
Proof.
  intro Hm.
  assert (H : m = 1 \/ m = 2 \/ m = 3 \/ m = 4 \/ m = 5 \/ m = 6 \/ m = 7
              \/ m = 8 \/ m = 9 \/ m = 10 \/ m = 11) by lia.
  repeat (destruct H as [->|H]; [destruct leap; reflexivity|]).
  subst m. destruct leap; reflexivity.
Qed.

Lemma days_in_month_bounds (leap : bool) (m : Z) :
  28 <= days_in_month leap m <= 31.
Proof.
  unfold days_in_month. destruct (m =? 2); [destruct leap; lia|].
  destruct ((m =? 4) || (m =? 6) || (m =? 9) || (m =? 11)); lia.
Qed.

Lemma one_month_later_distance (d : Timestamp) :
  is_valid d = true ->
  28 <= days_between (Spec.one_month_later d) d <= 31.
Proof.
  intro Hv. apply is_valid_bounds in Hv. destruct Hv as [Hm Hd].
  unfold days_between, Spec.one_month_later, toordinal, days_before_month,
    monthrange in *.
  cbn [year month day].
  destruct (Z.eqb_spec (month d) 12) as [E|NE].
  - rewrite days_before_year_succ, E in *.
    change (days_in_month (is_leap (year d + 1)) 1) with 31.
    replace (days_before (is_leap (year d + 1)) 1) with 0
      by (destruct (is_leap (year d + 1)); reflexivity).
    replace (days_before (is_leap (year d)) 12)
      with (334 + (if is_leap (year d) then 1 else 0))
      by (destruct (is_leap (year d)); reflexivity).
    change (days_in_month (is_leap (year d)) 12) with 31 in Hd.
    destruct (is_leap (year d)); lia.
  - rewrite days_before_succ by lia.
    pose proof (days_in_month_bounds (is_leap (year d)) (month d)).
    pose proof (days_in_month_bounds (is_leap (year d)) (month d + 1)).
    lia.
Qed.

(** X18: for a valid last demand date the computed next demand date is a
    real calendar date of the following month, between 28 and 31 days later;
    its day of month is the same, or the last day of its month when the
    month is too short. *)
Theorem next_demand_date_ahead (d : Timestamp) :
  is_valid d = true ->
  exists nd,
    next_demand_date_of d = inr nd
    /\ is_valid nd = true
    /\ 28 <= days_between nd d <= 31
    /\ (day nd = day d
        \/ (day nd = monthrange (year nd) (month nd) /\ day nd < day d))
    /\ 12 * year nd + month nd = 12 * year d + month d + 1.
Proof.
  intro Hv. exists (Spec.one_month_later d).
  split; [apply next_demand_date_of_spec; exact Hv|].
  split; [apply one_month_later_valid; exact Hv|].
  split; [apply one_month_later_distance; exact Hv|].
  apply is_valid_bounds in Hv. destruct Hv as [Hm Hd].
  unfold Spec.one_month_later. cbn [year month day].
  destruct (Z.eqb_spec (month d) 12) as [E|NE]; (split; [|lia]).
  - destruct (Z.min_spec (day d) (monthrange (year d + 1) 1)) as [[H ->]|[H ->]];
      [left; reflexivity|].
    destruct (Z.eq_dec (monthrange (year d + 1) 1) (day d)) as [Heq|Hneq];
      [left; exact Heq|right; split; [reflexivity|lia]].
  - destruct (Z.min_spec (day d) (monthrange (year d) (month d + 1)))
      as [[H ->]|[H ->]]; [left; reflexivity|].
    destruct (Z.eq_dec (monthrange (year d) (month d + 1)) (day d)) as [Heq|Hneq];
      [left; exact Heq|right; split; [reflexivity|lia]].
Qed.

Lemma next_demand_date_ahead_witness :
  exists nd,
    next_demand_date_of (mkDate 2023 12 31) = inr nd
    /\ is_valid nd = true
    /\ 28 <= days_between nd (mkDate 2023 12 31) <= 31
    /\ (day nd = day (mkDate 2023 12 31)
        \/ (day nd = monthrange (year nd) (month nd)
            /\ day nd < day (mkDate 2023 12 31)))
    /\ 12 * year nd + month nd
       = 12 * year (mkDate 2023 12 31) + month (mkDate 2023 12 31) + 1.
Proof. apply (next_demand_date_ahead (mkDate 2023 12 31)). reflexivity. Defined.

(* ------------------------------------------------------------------ *)
(** ** A successful training                                             *)
(* ------------------------------------------------------------------ *)

Lemma sumQ_nonneg (l : list Q) :
  Forall (fun q => 0 <= q)%Q l -> (0 <= sumQ l)%Q.
Proof.
  induction 1 as [|x t Hx _ IH]; simpl; [apply Qle_refl|].
  change 0%Q with (0 + 0)%Q. apply Qplus_le_compat; assumption.
Qed.

Lemma meanQ_nonneg (l : list Q) (a : Q) :
  Forall (fun q => 0 <= q)%Q l -> meanQ l = Some a -> (0 <= a)%Q.
Proof.
  intros Hall Hm. unfold meanQ in Hm.
  destruct l as [|x t] eqn:El; [discriminate|]. rewrite <- El in *.
  inversion Hm; subst a; clear Hm.
  apply Qle_shift_div_l.
  - unfold lenQ. rewrite El. simpl length.
    change 0%Q with (inject_Z 0). rewrite <- Zlt_Qlt. lia.
  - rewrite Qmult_0_l. apply sumQ_nonneg. exact Hall.
Qed.

Lemma mean_absolute_error_nonneg (y : list Z) (pred : list Q) (v : Q) :
  mean_absolute_error y pred = inr v -> (0 <= v)%Q.
Proof.
  unfold mean_absolute_error.
  destruct (meanQ _) as [a|] eqn:E; [|discriminate].
  intro H. inversion H; subst v.
  refine (meanQ_nonneg _ _ _ E).
  apply Forall_forall. intros q Hq. apply in_map_iff in Hq.
  destruct Hq as [[a0 p] [Hq _]]. subst q. apply Qabs_nonneg.
Qed.

Lemma training_features_columns (sqrt : Q -> Q) (now : Timestamp)
    (df : DataFrame) (f : FeatureVector) :
  In f (fst (training_lists sqrt now df)) ->
  map fst (numeric_columns f) = SchemaSpec.feature_columns (has_amount df).
Proof.
  intro Hin. destruct (training_lists_closed sqrt now df) as [Xs [Hl Hm]].
  rewrite Hl in Hin. simpl in Hin.
  assert (Hs : In (Some f) (map fst (TrainingSpec.training_examples sqrt now df)))
    by (rewrite <- Hm; apply in_map; exact Hin).
  apply in_map_iff in Hs. destruct Hs as [[fo t] [Ef Hex]]. simpl in Ef. subst fo.
  unfold TrainingSpec.training_examples in Hex. apply in_flat_map in Hex.
  destruct Hex as [cid [_ Hex]]. unfold TrainingSpec.examples_of in Hex.
  destruct (length (rows_of cid (rows df)) <? 3)%nat; [contradiction|].
  apply in_map_iff in Hex. destruct Hex as [i [Ei _]]. inversion Ei as [[Hf Ht]].
  unfold TrainingSpec.prefix_features in Hf.
  apply (engineered_columns sqrt now _ cid f Hf).
Qed.

(** X19: when [train_model] returns, the engine holds the regressor that was
    just fitted on the training part of the split, fitted, together with the
    columns of the training table; that same pair was written to
    [MODEL_PATH] after its directory was created.  The columns are the
    fixed schema of the engineered vectors, and the two mean absolute errors
    reported are not negative. *)
Theorem train_model_success {Booster : Type} (w : World Booster)
    (data_path : string) (st st' : Engine Booster) (metrics : Metrics)
    (raw : DataFrame) :
  read_csv w data_path = inr raw ->
  train_model w data_path st = (inr metrics, st') ->
  exists X X_train y_train b,
    TrainSpec.training_input w data_path = inr (X, (X_train, y_train))
    /\ xgb_fit w X_train y_train = inr b
    /\ st' = mkEngine (Some (Fitted b)) (Some (columns X))
    /\ makedirs w "models" = inr tt
    /\ joblib_dump w (Fitted b, columns X) MODEL_PATH = inr tt
    /\ columns X = SchemaSpec.feature_columns (has_amount raw)
    /\ (0 <= train_mae metrics)%Q
    /\ (0 <= test_mae metrics)%Q.
Proof.
  intros Hread H.
  unfold train_model, TrainSpec.training_input in *. unfold_monad.
  unfold load_data in *. rewrite Hread in *.
  remember (calculate_payment_delays
              (with_rows raw (sort_values_payment_date (rows raw)))) as df.
  assert (Hamount : has_amount df = has_amount raw).
  { rewrite Heqdf. unfold calculate_payment_delays.
    destruct (has_scheduled_date _); reflexivity. }
  pose proof (training_features_columns (np_sqrt w) (clock w) df) as Hcols.
  unfold prepare_training_data in *.
  destruct (training_lists (np_sqrt w) (clock w) df) as [Xs ys].
  simpl fst in Hcols.
  destruct (length Xs =? 0)%nat eqn:Hnil; [discriminate H|].
  rewrite length_map in *. rewrite Hnil in *.
  destruct (train_test_split w (map numeric_columns Xs) ys)
    as [e|[[X_train X_test] [y_train y_test]]]; [discriminate H|].
  simpl in H.
  destruct (xgb_fit w X_train y_train) as [e|b] eqn:Efit; [discriminate H|].
  simpl in H.
  destruct (predict_all w b X_train) as [e|p_train]; [discriminate H|].
  destruct (predict_all w b X_test) as [e|p_test]; [discriminate H|].
  destruct (mean_absolute_error y_train p_train) as [e|mae_train] eqn:Emae1;
    [discriminate H|].
  destruct (mean_absolute_error y_test p_test) as [e|mae_test] eqn:Emae2;
    [discriminate H|].
  destruct (mean_squared_error y_train p_train) as [e|mse_train];
    [discriminate H|].
  destruct (mean_squared_error y_test p_test) as [e|mse_test];
    [discriminate H|].
  destruct (makedirs w (OsPath.dirname MODEL_PATH)) as [e|[]] eqn:Emk;
    [discriminate H|].
  destruct (joblib_dump w (Fitted b, columns (map numeric_columns Xs)) MODEL_PATH)
    as [e|[]] eqn:Edump; [discriminate H|].
  inversion H; subst metrics st'; clear H.
  exists (map numeric_columns Xs), X_train, y_train, b.
  split; [reflexivity|]. split; [exact Efit|]. split; [reflexivity|].
  split; [exact Emk|]. split; [exact Edump|]. split.
  - destruct Xs as [|f0 Xs']; [discriminate Hnil|].
    simpl. rewrite <- Hamount. apply Hcols. left. reflexivity.
  - simpl. split; eapply mean_absolute_error_nonneg; eassumption.
Qed.

Lemma train_model_success_witness :
  exists X X_train y_train b,
    TrainSpec.training_input Examples.world DATA_PATH
    = inr (X, (X_train, y_train))
    /\ xgb_fit Examples.world X_train y_train = inr b
    /\ snd (train_model Examples.world DATA_PATH Examples.fresh)
       = mkEngine (Some (Fitted b)) (Some (columns X))
    /\ makedirs Examples.world "models" = inr tt
    /\ joblib_dump Examples.world (Fitted b, columns X) MODEL_PATH = inr tt
    /\ columns X = SchemaSpec.feature_columns (has_amount Examples.history)
    /\ (0 <= train_mae
               (match returned (train_model Examples.world DATA_PATH Examples.fresh)
                with Some m => m | None => mkMetrics 0 0 0 0 end))%Q
    /\ (0 <= test_mae
               (match returned (train_model Examples.world DATA_PATH Examples.fresh)
                with Some m => m | None => mkMetrics 0 0 0 0 end))%Q.
Proof.
  apply (train_model_success Examples.world DATA_PATH Examples.fresh
           (snd (train_model Examples.world DATA_PATH Examples.fresh))
           (match returned (train_model Examples.world DATA_PATH Examples.fresh)
            with Some m => m | None => mkMetrics 0 0 0 0 end)
           Examples.history).
  - reflexivity.
  - vm_compute. reflexivity.
Defined.

(* ------------------------------------------------------------------ *)
(** ** Training, then serving                                            *)
(* ------------------------------------------------------------------ *)

Lemma train_model_schema {Booster : Type} (w : World Booster)
    (data_path : string) (st st' : Engine Booster) (metrics : Metrics)
    (raw : DataFrame) :
  read_csv w data_path = inr raw ->
  train_model w data_path st = (inr metrics, st') ->
  (exists b, model st' = Some (Fitted b))
  /\ feature_names st' = Some (SchemaSpec.feature_columns (has_amount raw)).
Proof.
  intros Hread H.
  unfold train_model in H. unfold_monad.
  unfold load_data in H. rewrite Hread in H.
  remember (calculate_payment_delays
              (with_rows raw (sort_values_payment_date (rows raw)))) as df.
  assert (Hamount : has_amount df = has_amount raw).
  { rewrite Heqdf. unfold calculate_payment_delays.
    destruct (has_scheduled_date _); reflexivity. }
  pose proof (training_features_columns (np_sqrt w) (clock w) df) as Hcols.
  unfold prepare_training_data in H.
  destruct (training_lists (np_sqrt w) (clock w) df) as [Xs ys].
  simpl fst in Hcols.
  destruct (length Xs =? 0)%nat eqn:Hnil; [discriminate H|].
  rewrite length_map, Hnil in H.
  destruct (train_test_split w (map numeric_columns Xs) ys)
    as [e|[[X_train X_test] [y_train y_test]]]; [discriminate H|].
  simpl in H.
  destruct (xgb_fit w X_train y_train) as [e|b]; [discriminate H|].
  simpl in H.
  destruct (predict_all w b X_train) as [e|p_train]; [discriminate H|].
  destruct (predict_all w b X_test) as [e|p_test]; [discriminate H|].
  destruct (mean_absolute_error y_train p_train); [discriminate H|].
  destruct (mean_absolute_error y_test p_test); [discriminate H|].
  destruct (mean_squared_error y_train p_train); [discriminate H|].
  destruct (mean_squared_error y_test p_test); [discriminate H|].
  destruct (makedirs w (OsPath.dirname MODEL_PATH)) as [e|[]];
    [discriminate H|].
  destruct (joblib_dump w (Fitted b, columns (map numeric_columns Xs)) MODEL_PATH)
    as [e|[]]; [discriminate H|].
  inversion H; subst metrics st'; clear H. simpl.
  split; [exists b; reflexivity|].
  destruct Xs as [|f0 Xs']; [discriminate Hnil|].
  simpl. rewrite <- Hamount. f_equal. apply Hcols. left. reflexivity.
Qed.

Lemma feature_columns_nodup (with_amount : bool) :
  NoDup (SchemaSpec.feature_columns with_amount).
Proof.
  destruct with_amount; vm_compute;
    repeat (constructor; [simpl; intuition discriminate|]); constructor.
Qed.

(** X20: after [train_model] has returned on a file, the engine serves that
    file without any schema repair: for every customer of the file the
    feature row handed to the regressor on the fallback path is the
    customer's own numeric feature row, column for column (nothing is
    reordered, dropped or filled with 0), and no artifact is read again. *)
Theorem trained_engine_serves_file {Booster : Type} (w : World Booster)
    (data_path : string) (st st' : Engine Booster) (metrics : Metrics)
    (raw : DataFrame) (cid : string) (f : FeatureVector) :
  read_csv w data_path = inr raw ->
  train_model w data_path st = (inr metrics, st') ->
  engineer_features (np_sqrt w) (clock w)
    (calculate_payment_delays
       (with_rows raw (sort_values_payment_date (rows raw)))) cid = Some f ->
  reindex (feature_names st') (numeric_columns f) = numeric_columns f
  /\ ensure_model w st' = (inr tt, st').
Proof.
  intros Hread Htrain Hf.
  destruct (train_model_schema w data_path st st' metrics raw Hread Htrain)
    as [[b Hb] Hnames].
  split.
  - rewrite Hnames.
    pose proof (engineered_columns _ _ _ _ _ Hf) as Hc.
    assert (Ha : has_amount
                   (calculate_payment_delays
                      (with_rows raw (sort_values_payment_date (rows raw))))
                 = has_amount raw).
    { unfold calculate_payment_delays. destruct (has_scheduled_date _); reflexivity. }
    rewrite Ha in Hc. rewrite <- Hc. apply reindex_own_columns.
    rewrite Hc. apply feature_columns_nodup.
  - apply (ensure_model_loaded w st' (Fitted b) Hb).
Qed.

Lemma trained_engine_serves_file_witness :
  reindex (feature_names (snd (train_model Examples.world DATA_PATH Examples.fresh)))
          (numeric_columns Examples.features_0001)
  = numeric_columns Examples.features_0001
  /\ ensure_model Examples.world
       (snd (train_model Examples.world DATA_PATH Examples.fresh))
     = (inr tt, snd (train_model Examples.world DATA_PATH Examples.fresh)).
Proof.
  apply (trained_engine_serves_file Examples.world DATA_PATH Examples.fresh
           (snd (train_model Examples.world DATA_PATH Examples.fresh))
           (match returned (train_model Examples.world DATA_PATH Examples.fresh)
            with Some m => m | None => mkMetrics 0 0 0 0 end)
           Examples.history "CUST_0001" Examples.features_0001).
  - reflexivity.
  - vm_compute. reflexivity.
  - vm_compute. reflexivity.
Defined.

(** The engine of the examples was loaded from an artifact with two columns:
    there the alignment does cut the row down. *)
Example loaded_schema_cuts_row :
  map fst (reindex (feature_names Examples.loaded)
                   (numeric_columns Examples.features_0001))
  = ["total_payments"; "avg_delay"]%string.
Proof. reflexivity. Qed.

(* ================================================================== *)
(** * Further properties of the callers                                 *)
(* ================================================================== *)

(* ------------------------------------------------------------------ *)
(** ** Which customers a file with demand dates yields                   *)
(* ------------------------------------------------------------------ *)

Section DemandFile.

Context {Booster : Type}.
Variable w : World Booster.
Variable data_path : string.
Variable raw : DataFrame.

Hypothesis file_read : read_csv w data_path = inr raw.
Hypothesis file_has_demand_dates : has_scheduled_date raw = true.
Hypothesis file_dates_valid :
  forall r, In r (rows raw) ->
  exists s, scheduled_date r = Some s /\ is_valid s = true.

Lemma demand_file_returns (st : Engine Booster) (m : XGBRegressor Booster)
    (cid : string) :
  model st = Some m ->
  (MIN_HISTORY_RECORDS <= length (rows_of cid (rows raw)))%nat ->
  exists r,
    predict_next_payment_date w cid data_path st = (inr r, st)
    /\ Prediction.customer_id r = cid.
Proof.
  intros Hm Hn.
  set (df := with_rows raw (sort_values_payment_date (rows raw))).
  assert (Hl : load_data w data_path = inr df).
  { unfold load_data. rewrite file_read. reflexivity. }
  assert (Hs : has_scheduled_date df = true) by exact file_has_demand_dates.
  assert (Hcount : length (rows_of cid (rows df)) = length (rows_of cid (rows raw))).
  { unfold df. rewrite rows_with_rows. apply rows_of_sort_length. }
  destruct (iloc_last_nonempty (rows_of cid (rows df))) as [last Hlast].
  { rewrite Hcount. unfold MIN_HISTORY_RECORDS in Hn. lia. }
  destruct (file_dates_valid last) as [sd [Hsd Hv]].
  { apply iloc_last_In in Hlast. apply filter_In in Hlast.
    destruct Hlast as [Hin _]. unfold df in Hin. rewrite rows_with_rows in Hin.
    apply (Permutation_in _ (Permutation_sym (sort_values_perm (rows raw)))).
    exact Hin. }
  pose proof (rows_of_delays_scheduled cid df Hs) as Hrows.
  pose proof (has_scheduled_date_delays df) as Hs'. rewrite Hs in Hs'.
  remember (calculate_payment_delays df) as df' eqn:Edf.
  set (delayed := fun r : Row =>
         set_delay r (match scheduled_date r with
                      | Some s => Some (days_between (payment_date r) s)
                      | None => None
                      end)) in *.
  assert (Hlast' : iloc_last (rows_of cid (rows df')) = Some (delayed last)).
  { rewrite Hrows, iloc_last_map, Hlast. reflexivity. }
  assert (Hlen : length (rows_of cid (rows df')) = length (rows_of cid (rows df))).
  { rewrite Hrows. apply length_map. }
  destruct (mean_defined (map delay_days (rows_of cid (rows df')))
              (days_between (payment_date last) sd)) as [a Ha].
  { apply in_map_iff. exists (delayed last). split.
    - unfold delayed. simpl. rewrite Hsd. reflexivity.
    - apply iloc_last_In. exact Hlast'. }
  destruct (engineer_features_exists (np_sqrt w) (clock w) df' cid (delayed last))
    as [f [Hf _]].
  { rewrite Hlen, Hcount. unfold MIN_HISTORY_RECORDS in Hn. lia. }
  { exact Hlast'. }
  unfold predict_next_payment_date.
  erewrite bind_inr by (eapply ensure_model_loaded; exact Hm).
  unfold_monad. rewrite Hl, <- Edf.
  replace (length (rows_of cid (rows df')) <? MIN_HISTORY_RECORDS)%nat
    with false by (symmetry; apply Nat.ltb_ge; lia).
  rewrite Hf, Hs', Hlast', Ha.
  replace (0 <? length (rows_of cid (rows df')))%nat with true
    by (symmetry; apply Nat.ltb_lt; unfold MIN_HISTORY_RECORDS in Hn; lia).
  simpl. rewrite Hsd, (next_demand_date_of_spec sd Hv).
  eexists. split; reflexivity.
Qed.

Lemma short_history_raises (st : Engine Booster) (m : XGBRegressor Booster)
    (cid : string) :
  model st = Some m ->
  (length (rows_of cid (rows raw)) < MIN_HISTORY_RECORDS)%nat ->
  predict_next_payment_date w cid data_path st = (inl insufficient_history, st).
Proof.
  intros Hm Hn. unfold predict_next_payment_date.
  erewrite bind_inr by (eapply ensure_model_loaded; exact Hm).
  unfold load_data. rewrite file_read. unfold_monad.
  rewrite rows_of_delays_length, rows_with_rows, rows_of_sort_length.
  apply Nat.ltb_lt in Hn. rewrite Hn. reflexivity.
Qed.

Lemma demand_file_batch (st : Engine Booster) (m : XGBRegressor Booster)
    (ids : list string) :
  model st = Some m ->
  map Prediction.customer_id
    (flat_map (fun cid =>
                 match returned (predict_next_payment_date w cid data_path st)
                 with Some r => [r] | None => [] end) ids)
  = filter (fun cid => (MIN_HISTORY_RECORDS <=? length (rows_of cid (rows raw)))%nat)
           ids.
Proof.
  intro Hm. induction ids as [|cid rest IH]; [reflexivity|].
  cbn [flat_map]. rewrite map_app, IH. cbn [filter].
  destruct (Nat.leb_spec MIN_HISTORY_RECORDS (length (rows_of cid (rows raw))))
    as [Hge|Hlt].
  - destruct (demand_file_returns st m cid Hm Hge) as [r [Hr Hc]].
    unfold returned. rewrite Hr. simpl. rewrite Hc. reflexivity.
  - rewrite (short_history_raises st m cid Hm Hlt). reflexivity.
Qed.

End DemandFile.

Lemma unique_from_NoDup (l : list string) :
  forall seen, NoDup (unique_from seen l).
Proof.
  induction l as [|a t IH]; intro seen; simpl; [constructor|].
  destruct (existsb (String.eqb a) seen); [apply IH|].
  constructor; [|apply IH].
  intro Hin. apply unique_from_In in Hin. destruct Hin as [_ Hn].
  apply Hn. left. reflexivity.
Qed.

Lemma load_model_gives_model {Booster : Type} (w : World Booster)
    (p : option string) (st st1 : Engine Booster) :
  load_model w p st = (inr tt, st1) -> exists m, model st1 = Some m.
Proof.
  unfold load_model. unfold_monad.
  destruct (negb (path_exists w _)); [discriminate|].
  destruct (joblib_load w _) as [e|[m names]]; [discriminate|].
  intro H. inversion H. exists m. reflexivity.
Qed.

(** X21: the batch mode of [main.py] on a file in which every record has a
    valid demand date, with a loadable artifact and a working CSV writer:
    exactly the customers with at least 3 records are predicted, once each,
    in the order of their first appearance in the file; the results are
    written to the output path (the time-stamped name when none is given);
    and when no customer qualifies the call raises from its summary block,
    after the (empty) file has been written. *)
Theorem main_batch_demand_file {Booster : Type} (sh : Shell Booster)
    (data_path : string) (output_path : option string) (raw : DataFrame)
    (st1 : Engine Booster) :
  csv_customer_ids sh data_path = inr (map customer_id (rows raw)) ->
  read_csv (engine_world sh) data_path = inr raw ->
  has_scheduled_date raw = true ->
  (forall r, In r (rows raw) ->
     exists s, scheduled_date r = Some s /\ is_valid s = true) ->
  load_model (engine_world sh) None MainScript.new_predictor = (inr tt, st1) ->
  (forall rs p, to_csv sh rs p = inr tt) ->
  exists results out,
    map Prediction.customer_id results
    = filter (fun cid => (3 <=? length (rows_of cid (rows raw)))%nat)
             (unique (map customer_id (rows raw)))
    /\ NoDup (map Prediction.customer_id results)
    /\ out = match output_path with
             | Some p => if String.eqb p "" then stamped_output sh else p
             | None => stamped_output sh
             end
    /\ MainScript.predict_batch_all sh data_path output_path false
       = (match results with
          | [] => inl (LibraryError "KeyError: 'days_until_payment'")
          | _ => inr results
          end, [(out, results)]).
Proof.
  intros Hids Hread Hcol Hvalid Hload Hcsv.
  destruct (load_model_gives_model _ _ _ _ Hload) as [m Hm].
  pose proof (predict_batch_loop_loaded (engine_world sh) data_path
                (unique (map customer_id (rows raw))) [] st1 m Hm) as Hbatch.
  simpl app in Hbatch.
  pose proof (demand_file_batch (engine_world sh) data_path raw Hread Hcol Hvalid
                st1 m (unique (map customer_id (rows raw))) Hm) as Hnames.
  set (results :=
         flat_map (fun cid =>
                     match returned (predict_next_payment_date (engine_world sh)
                                       cid data_path st1)
                     with Some r => [r] | None => [] end)
                  (unique (map customer_id (rows raw)))) in *.
  exists results. eexists. split; [exact Hnames|].
  split; [rewrite Hnames; apply NoDup_filter; apply unique_from_NoDup|].
  split; [reflexivity|].
  unfold MainScript.predict_batch_all. rewrite Hids, Hload.
  unfold predict_batch. rewrite Hbatch, Hcsv.
  unfold MainScript.summary_statistics. destruct results; reflexivity.
Qed.

Lemma main_batch_demand_file_witness :
  exists results out,
    map Prediction.customer_id results
    = filter (fun cid => (3 <=? length (rows_of cid (rows Examples.history)))%nat)
             (unique (map customer_id (rows Examples.history)))
    /\ NoDup (map Prediction.customer_id results)
    /\ out = match Some "out.csv"%string with
             | Some p => if String.eqb p "" then stamped_output CallerExamples.shell
                         else p
             | None => stamped_output CallerExamples.shell
             end
    /\ MainScript.predict_batch_all CallerExamples.shell DATA_PATH
         (Some "out.csv"%string) false
       = (match results with
          | [] => inl (LibraryError "KeyError: 'days_until_payment'")
          | _ => inr results
          end, [(out, results)]).
Proof.
  apply (main_batch_demand_file CallerExamples.shell DATA_PATH
           (Some "out.csv"%string) Examples.history Examples.loaded).
  - reflexivity.
  - reflexivity.
  - reflexivity.
  - intros r Hin. simpl in Hin.
    repeat (destruct Hin as [<-|Hin];
            [eexists; split; reflexivity|]).
    contradiction.
  - reflexivity.
  - reflexivity.
Defined.

(** On the example file the batch mode predicts CUST_0001 and CUST_0003, in
    the order of the file; on a file whose only customer has two records it
    writes an empty file and then raises. *)
Example main_batch_values :
  option_map (map Prediction.customer_id)
    (returned (MainScript.predict_batch_all CallerExamples.shell DATA_PATH
                 None false))
  = Some ["CUST_0001"; "CUST_0003"]%string
  /\ MainScript.predict_batch_all CallerExamples.shell_short DATA_PATH None false
     = (inl (LibraryError "KeyError: 'days_until_payment'"),
        [("predictions_20240601_093000.csv"%string, [])]).
Proof. split; vm_compute; reflexivity. Qed.

(* ------------------------------------------------------------------ *)
(** ** The prediction endpoint                                           *)
(* ------------------------------------------------------------------ *)

Section Endpoint.

Context {Booster : Type}.
Variable sh : Shell Booster.

Lemma load_model_failure_state (p : option string) (st st' : Engine Booster)
    (e : exn) :
  load_model (engine_world sh) p st = (inl e, st') -> st' = st.
Proof.
  unfold load_model. unfold_monad.
  destruct (negb (path_exists (engine_world sh) _)).
  - intro H. inversion H. reflexivity.
  - destruct (joblib_load (engine_world sh) _) as [e0|[m names]].
    + intro H. inversion H. reflexivity.
    + discriminate.
Qed.

End Endpoint.



(** X23: a first request on a cold backend whose artifact cannot be loaded
    is answered 500 "Model not loaded", but it leaves the global predictor
    bound to an engine without a model: the health check then reports
    [model_loaded] as true, and a later request skips [init_predictor] and
    goes straight to the engine, whose own lazy load decides the answer (a
    500 carrying the model-not-found message when the default path resolves
    nowhere either). *)
Theorem failed_init_leaves_predictor {Booster : Type} (sh : Shell Booster)
    (app : BackendApp.AppState (Booster := Booster)) (cid : string)
    (use_llm : bool) (e : exn) (st : Engine Booster) :
  BackendApp.predictor app = None ->
  cid <> ""%string ->
  load_model (engine_world sh) (Some (BackendApp.APP_MODEL_PATH sh))
    MainScript.new_predictor = (inl e, st) ->
  let first := BackendApp.predict_payment sh
                 (BackendApp.mkRequest (Some cid) use_llm) app in
  fst first
  = (500, BackendApp.ErrorBody "Model not loaded. Please train the model first.")
  /\ BackendApp.predictor (snd first) = Some MainScript.new_predictor
  /\ BackendApp.health_model_loaded (snd first) = true
  /\ (path_exists (engine_world sh) MODEL_PATH = false ->
      path_exists (engine_world sh)
        (OsPath.join (script_dir (engine_world sh)) MODEL_PATH) = false ->
      path_exists (engine_world sh)
        (OsPath.join (OsPath.dirname (script_dir (engine_world sh))) MODEL_PATH)
      = false ->
      fst (BackendApp.predict_payment sh
             (BackendApp.mkRequest (Some cid) use_llm) (snd first))
      = (500, BackendApp.ErrorBody (str_exn (model_not_found MODEL_PATH)))).
Proof.
  intros Hnone Hcid Hload. cbv zeta.
  pose proof (load_model_failure_state sh _ _ _ _ Hload) as Hst. subst st.
  assert (Hfirst :
            BackendApp.predict_payment sh
              (BackendApp.mkRequest (Some cid) use_llm) app
            = ((500, BackendApp.ErrorBody
                       "Model not loaded. Please train the model first."),
               BackendApp.mkApp (Some MainScript.new_predictor)
                 (BackendApp.explainer app))).
  { unfold BackendApp.predict_payment. simpl.
    destruct (String.eqb_spec cid "") as [E|_]; [contradiction|].
    rewrite Hnone. unfold BackendApp.init_predictor. rewrite Hload. reflexivity. }
  rewrite Hfirst. simpl.
  split; [reflexivity|]. split; [reflexivity|]. split; [reflexivity|].
  intros H1 H2 H3. unfold BackendApp.predict_payment. simpl.
  destruct (String.eqb_spec cid "") as [E|_]; [contradiction|]. simpl.
  assert (Hpredict :
            predict_next_payment_date (engine_world sh) cid
              (BackendApp.APP_DATA_PATH sh) MainScript.new_predictor
            = (inl (model_not_found MODEL_PATH), MainScript.new_predictor)).
  { unfold predict_next_payment_date. apply bind_inl.
    apply ensure_model_missing; [reflexivity|assumption|assumption|assumption]. }
  rewrite Hpredict. reflexivity.
Qed.

Lemma failed_init_leaves_predictor_witness :
  let first := BackendApp.predict_payment CallerExamples.backend
                 (BackendApp.mkRequest (Some "CUST_0001"%string) false)
                 CallerExamples.cold in
  fst first
  = (500, BackendApp.ErrorBody "Model not loaded. Please train the model first.")
  /\ BackendApp.predictor (snd first) = Some MainScript.new_predictor
  /\ BackendApp.health_model_loaded (snd first) = true
  /\ (path_exists (engine_world CallerExamples.backend) MODEL_PATH = false ->
      path_exists (engine_world CallerExamples.backend)
        (OsPath.join (script_dir (engine_world CallerExamples.backend)) MODEL_PATH)
      = false ->
      path_exists (engine_world CallerExamples.backend)
        (OsPath.join
           (OsPath.dirname (script_dir (engine_world CallerExamples.backend)))
           MODEL_PATH) = false ->
      fst (BackendApp.predict_payment CallerExamples.backend
             (BackendApp.mkRequest (Some "CUST_0001"%string) false) (snd first))
      = (500, BackendApp.ErrorBody (str_exn (model_not_found MODEL_PATH)))).
Proof.
  apply (failed_init_leaves_predictor CallerExamples.backend CallerExamples.cold
           "CUST_0001" false
           (model_not_found (BackendApp.APP_MODEL_PATH CallerExamples.backend))
           MainScript.new_predictor).
  - reflexivity.
  - discriminate.
  - reflexivity.
Defined.

(** The warm backend of the examples: a customer with two records gets 400,
    a customer with a history gets 200 although the explainer is down, and
    the error text of the explainer becomes the explanation. *)
Example predict_payment_values :
  fst (BackendApp.predict_payment CallerExamples.backend
         (CallerExamples.request_for "CUST_0002") CallerExamples.warm)
  = (400, BackendApp.ErrorBody "Customer needs at least 3 payment records")
  /\ fst (BackendApp.predict_payment CallerExamples.backend
            (CallerExamples.request_for "CUST_0001") CallerExamples.warm)
     = (200, BackendApp.PredictionBody Examples.result_0001
               "LLM explanation error: APIConnectionError")
  /\ fst (BackendApp.predict_payment CallerExamples.backend
            (CallerExamples.request_for "CUST_0001")
            (BackendApp.mkApp (Some Examples.loaded) None))
     = (200, BackendApp.PredictionBody Examples.result_0001
               "LLM explainer not available").
Proof. repeat split; vm_compute; reflexivity. Qed.


(* ------------------------------------------------------------------ *)
(** ** The training and batch endpoints of the backend                   *)
(* ------------------------------------------------------------------ *)

Lemma train_model_input_failure {Booster : Type} (w : World Booster)
    (data_path : string) (st : Engine Booster) (e : exn) :
  TrainSpec.training_input w data_path = inl e ->
  train_model w data_path st = (inl e, st).
Proof.
  unfold train_model, TrainSpec.training_input. unfold_monad.
  destruct (load_data w data_path) as [e0|df];
    [intro H; inversion H; reflexivity|].
  destruct (prepare_training_data (np_sqrt w) (clock w)
              (calculate_payment_delays df)) as [[X y]|];
    [|intro H; inversion H; reflexivity].
  destruct (length X =? 0)%nat; [intro H; inversion H; reflexivity|].
  destruct (train_test_split w X y) as [e0|[[X_train X_test] [y_train y_test]]];
    [intro H; inversion H; reflexivity|discriminate].
Qed.

(** X24: a training request whose training fails before the regressor is
    constructed (unreadable data, no customer with three records, a failing
    split) is answered 500 with the error's text, and it leaves the global
    predictor bound to a new engine with no model and no schema, whatever
    engine was serving before; the explainer is kept. *)
Theorem failed_train_request_drops_model {Booster : Type} (sh : Shell Booster)
    (app : BackendApp.AppState (Booster := Booster))
    (data_path : option string) (e : exn) :
  TrainSpec.training_input (engine_world sh)
    (match data_path with
     | Some p => p
     | None => BackendApp.APP_DATA_PATH sh
     end) = inl e ->
  BackendApp.train_endpoint sh data_path app
  = ((500, BackendApp.TrainError (str_exn e)),
     BackendApp.mkApp (Some (mkEngine None None)) (BackendApp.explainer app)).
Proof.
  intro H. unfold BackendApp.train_endpoint. cbv zeta.
  rewrite (train_model_input_failure _ _ MainScript.new_predictor _ H).
  reflexivity.
Qed.

Lemma failed_train_request_drops_model_witness :
  BackendApp.train_endpoint CallerExamples.shell_short (Some DATA_PATH)
    CallerExamples.warm
  = ((500, BackendApp.TrainError "Insufficient data for training"),
     BackendApp.mkApp (Some (mkEngine None None)) (Some tt)).
Proof.
  apply (failed_train_request_drops_model CallerExamples.shell_short
           CallerExamples.warm (Some DATA_PATH)
           (ValueError "Insufficient data for training")).
  vm_compute. reflexivity.
Defined.

Lemma batch_successes_length {Booster : Type} (w : World Booster)
    (data_path : string) (ids : list string) :
  forall st : Engine Booster,
  (length (BatchSpec.batch_successes w ids data_path st) <= length ids)%nat.
Proof.
  induction ids as [|cid rest IH]; intro st; simpl; [lia|].
  destruct (predict_next_payment_date w cid data_path st) as [[e|r] st1].
  - specialize (IH st1). lia.
  - simpl. specialize (IH st1). lia.
Qed.

(** X25: with a predictor in place, a batch request that names at least one
    customer is always answered 200, never with an error: the predictions
    are the results of the named customers whose prediction succeeded, in
    request order, [count] is their number (at most the number of names,
    possibly 0), and a failing or absent explainer only changes the
    [insights] text. *)
Theorem batch_request_answers {Booster : Type} (sh : Shell Booster)
    (app : BackendApp.AppState (Booster := Booster))
    (engine : Engine Booster) (customer_ids : list string) :
  BackendApp.predictor app = Some engine ->
  customer_ids <> [] ->
  let results :=
    BatchSpec.batch_successes (engine_world sh) customer_ids
      (BackendApp.APP_DATA_PATH sh) engine in
  (exists engine' insights,
     BackendApp.predict_batch_endpoint sh customer_ids app
     = ((200, BackendApp.BatchDone results (length results) insights),
        BackendApp.mkApp (Some engine') (BackendApp.explainer app))
     /\ (BackendApp.explainer app = None ->
         insights = "LLM explainer not available"%string)
     /\ (forall e, BackendApp.explainer app <> None ->
         generate_insights sh results = inl e ->
         insights = ("LLM insights error: " ++ str_exn e)%string))
  /\ (length results <= length customer_ids)%nat.
Proof.
  intros Hp Hids. cbv zeta. split; [|apply batch_successes_length].
  destruct (predict_batch_loop_spec (engine_world sh)
              (BackendApp.APP_DATA_PATH sh) customer_ids [] engine)
    as [engine' Hloop].
  simpl in Hloop.
  exists engine'.
  exists (BackendApp.insights_for sh
            (BackendApp.mkApp (Some engine') (BackendApp.explainer app))
            (BatchSpec.batch_successes (engine_world sh) customer_ids
               (BackendApp.APP_DATA_PATH sh) engine)).
  split; [|split].
  - unfold BackendApp.predict_batch_endpoint.
    destruct customer_ids as [|cid rest]; [contradiction|].
    rewrite Hp. cbn [negb]. rewrite Hp.
    unfold predict_batch. rewrite Hloop. reflexivity.
  - intro Hnone. unfold BackendApp.insights_for. simpl. rewrite Hnone.
    reflexivity.
  - intros e Hsome Hgen. unfold BackendApp.insights_for. simpl.
    destruct (BackendApp.explainer app) as [u|]; [|contradiction].
    rewrite Hgen. reflexivity.
Qed.

Lemma batch_request_answers_witness :
  let results :=
    BatchSpec.batch_successes (engine_world CallerExamples.backend)
      ["CUST_0001"; "CUST_9999"]%string
      (BackendApp.APP_DATA_PATH CallerExamples.backend) Examples.loaded in
  (exists engine' insights,
     BackendApp.predict_batch_endpoint CallerExamples.backend
       ["CUST_0001"; "CUST_9999"]%string CallerExamples.warm
     = ((200, BackendApp.BatchDone results (length results) insights),
        BackendApp.mkApp (Some engine')
          (BackendApp.explainer CallerExamples.warm))
     /\ (BackendApp.explainer CallerExamples.warm = None ->
         insights = "LLM explainer not available"%string)
     /\ (forall e, BackendApp.explainer CallerExamples.warm <> None ->
         generate_insights CallerExamples.backend results = inl e ->
         insights = ("LLM insights error: " ++ str_exn e)%string))
  /\ (length results <= length ["CUST_0001"; "CUST_9999"]%string)%nat.
Proof.
  apply (batch_request_answers CallerExamples.backend CallerExamples.warm
           Examples.loaded ["CUST_0001"; "CUST_9999"]%string).
  - reflexivity.
  - discriminate.
Defined.

(** The warm backend of the examples: of two names one is unknown, and the
    answer is 200 with one prediction; when every name fails the answer is
    still 200, with no prediction.  A cold backend without an artifact
    answers 500. *)
Example predict_batch_endpoint_values :
  fst (BackendApp.predict_batch_endpoint CallerExamples.backend
         ["CUST_0001"; "CUST_9999"]%string CallerExamples.warm)
  = (200, BackendApp.BatchDone [Examples.result_0001] 1
            "LLM insights error: APIConnectionError")
  /\ fst (BackendApp.predict_batch_endpoint CallerExamples.backend
            ["CUST_9999"]%string CallerExamples.warm)
     = (200, BackendApp.BatchDone [] 0
               "LLM insights error: APIConnectionError")
  /\ fst (BackendApp.predict_batch_endpoint CallerExamples.backend
            ["CUST_0001"]%string CallerExamples.cold)
     = (500, BackendApp.BatchError
               "Model not loaded. Please train the model first.").
Proof. repeat split; vm_compute; reflexivity. Qed.
